(** * diet-management: the request handlers of [web/urls.py]

    A shallow embedding of the Flask handlers of [src/web/urls.py] and of the
    metabolic calculator they call, with the properties the specification
    states about them.

    Python floats are IEEE 754 binary64 numbers: they are modelled by Rocq's
    primitive floats, whose operations are the same correctly rounded
    binary64 operations.  Exceptions are values of [exn]; a handler is a
    computation over the database session and the flashed messages. *)

From Stdlib Require Import ZArith List String Ascii Bool Lia Floats Sorted.
Import ListNotations.

Set Warnings "-inexact-float".

Open Scope string_scope.
Open Scope list_scope.
Open Scope Z_scope.

(** ** Python results and exceptions *)

Inductive exn : Type :=
| UnboundLocalError (variable : string)
| TypeError
| ValueError
| OverflowError
| AttributeError
| BuildError (endpoint : string).

Inductive result (A : Type) : Type :=
| Ret (a : A)
| Raise (e : exn).

Arguments Ret {A} a.
Arguments Raise {A} e.

Definition bind {A B : Type} (r : result A) (k : A -> result B) : result B :=
  match r with
  | Ret a => k a
  | Raise e => Raise e
  end.

Declare Scope py_scope.
Delimit Scope py_scope with py.
Notation "x <- r ;; k" := (bind r (fun x => k))
  (at level 61, r at next level, right associativity) : py_scope.
Open Scope py_scope.

(** Reading a local variable that no executed branch has assigned. *)
Definition local (variable : string) (v : option float) : result float :=
  match v with
  | Some x => Ret x
  | None => Raise (UnboundLocalError variable)
  end.

(** A nullable column used as an operand of float arithmetic: [None] is not
    a number. *)
Definition operand (v : option float) : result float :=
  match v with
  | Some x => Ret x
  | None => Raise TypeError
  end.

(** [column == 'literal'] on a nullable string column. *)
Definition str_eq (v : option string) (s : string) : bool :=
  match v with
  | Some x => String.eqb x s
  | None => false
  end.

(** Truth value of a nullable float: [None] and zero are false. *)
Definition truthy_float (v : option float) : bool :=
  match v with
  | Some x => negb (PrimFloat.eqb x 0%float)
  | None => false
  end.

(** Truth value of a nullable string: [None] and the empty string are
    false. *)
Definition truthy_str (v : option string) : bool :=
  match v with
  | Some x => negb (String.eqb x "")
  | None => false
  end.

(** [a != b] between a nullable float column and a float. *)
Definition float_ne (a : option float) (b : float) : bool :=
  match a with
  | Some x => negb (PrimFloat.eqb x b)
  | None => true
  end.

(** ** [round] on floats

    [round(x)] with one argument returns the integer nearest to [x], ties
    going to the even integer; it raises [ValueError] on a NaN and
    [OverflowError] on an infinity. *)

Definition round_half_even (m : positive) (e : Z) : Z :=
  if 0 <=? e then Z.pos m * 2 ^ e
  else
    let d := 2 ^ (- e) in
    let q := Z.pos m / d in
    let r := Z.pos m mod d in
    match 2 * r ?= d with
    | Lt => q
    | Gt => q + 1
    | Eq => if Z.even q then q else q + 1
    end.

Definition round_spec_float (x : spec_float) : result Z :=
  match x with
  | S754_nan => Raise ValueError
  | S754_infinity _ => Raise OverflowError
  | S754_zero _ => Ret 0
  | S754_finite s m e => Ret (cond_Zopp s (round_half_even m e))
  end.

Definition py_round (x : float) : result Z :=
  round_spec_float (Prim2SF x).

(** ** The models of [web/models]

    The model classes are not part of the sources at hand; the records below
    hold the columns that [urls.py] reads and writes.  The numeric profile
    columns are Python floats, the type the arithmetic of
    [calculate_calories] converts them to. *)

Module User.
Record t : Type := mk {
  id : Z;
  name : string;
  email : string;
  password : string;
  image_file : string;
  height : option float;
  weight : option float;
  age : option float;
  goal : option string;
  activity_level : option string;
  gender : option string
}.
End User.

(** ** The metabolic calculator

    [BMR], [AMR] and [calories] are local variables that only some branches
    assign: each is an [option] that starts unassigned, and a read of an
    unassigned one raises [UnboundLocalError]. *)

Definition calculate_calories (current_user : User.t) : result Z :=
  BMR <- (if str_eq (User.gender current_user) "Male" then
            w <- operand (User.weight current_user) ;;
            h <- operand (User.height current_user) ;;
            a <- operand (User.age current_user) ;;
            Ret (Some (66.47 + (13.75 * w) + (5.003 * h) - (6.755 * a))%float)
          else Ret None) ;;
  BMR <- (if str_eq (User.gender current_user) "Female" then
            w <- operand (User.weight current_user) ;;
            h <- operand (User.height current_user) ;;
            a <- operand (User.age current_user) ;;
            Ret (Some (655.1 + (9.563 * w) + (1.85 * h) - (4.676 * a))%float)
          else Ret BMR) ;;
  AMR <- (if str_eq (User.activity_level current_user) "Sedentary" then
            b <- local "BMR" BMR ;; Ret (Some (b * 1.2)%float)
          else if str_eq (User.activity_level current_user) "Lightly Active" then
            b <- local "BMR" BMR ;; Ret (Some (b * 1.375)%float)
          else if str_eq (User.activity_level current_user) "Moderately Active" then
            b <- local "BMR" BMR ;; Ret (Some (b * 1.55)%float)
          else if str_eq (User.activity_level current_user) "Very Active" then
            b <- local "BMR" BMR ;; Ret (Some (b * 1.725)%float)
          else if str_eq (User.activity_level current_user) "Extra Active" then
            b <- local "BMR" BMR ;; Ret (Some (b * 1.9)%float)
          else Ret None) ;;
  calories <- (if str_eq (User.goal current_user) "Lose Weight" then
                 a <- local "AMR" AMR ;; Ret (Some (a - 500)%float)
               else if str_eq (User.goal current_user) "Maintain Weight" then
                 a <- local "AMR" AMR ;; Ret (Some a)
               else if str_eq (User.goal current_user) "Gain Weight" then
                 a <- local "AMR" AMR ;; Ret (Some (a + 500)%float)
               else Ret None) ;;
  calories <- local "calories" calories ;;
  py_round calories.

(** The enumerated values of the profile form. *)
Definition valid_gender (g : option string) : bool :=
  str_eq g "Male" || str_eq g "Female".

Definition valid_activity_level (a : option string) : bool :=
  str_eq a "Sedentary" || str_eq a "Lightly Active"
  || str_eq a "Moderately Active" || str_eq a "Very Active"
  || str_eq a "Extra Active".

Definition valid_goal (g : option string) : bool :=
  str_eq g "Lose Weight" || str_eq g "Maintain Weight" || str_eq g "Gain Weight".

Definition valid_profile (u : User.t) : bool :=
  valid_gender (User.gender u) && valid_activity_level (User.activity_level u)
  && valid_goal (User.goal u).

(** *** The calculator as the specification words it

    These three tables follow the specification's text, not the code; the
    theorems below compare [calculate_calories] with them. *)

Definition spec_BMR (gender : string) (weight height age : float) : option float :=
  if String.eqb gender "Male" then
    Some (66.47 + 13.75 * weight + 5.003 * height - 6.755 * age)%float
  else if String.eqb gender "Female" then
    Some (655.1 + 9.563 * weight + 1.85 * height - 4.676 * age)%float
  else None.

Definition spec_activity_multiplier (activity_level : string) : option float :=
  if String.eqb activity_level "Sedentary" then Some 1.2%float
  else if String.eqb activity_level "Lightly Active" then Some 1.375%float
  else if String.eqb activity_level "Moderately Active" then Some 1.55%float
  else if String.eqb activity_level "Very Active" then Some 1.725%float
  else if String.eqb activity_level "Extra Active" then Some 1.9%float
  else None.

Definition spec_goal_adjustment (goal : string) : option float :=
  if String.eqb goal "Lose Weight" then Some (-500)%float
  else if String.eqb goal "Maintain Weight" then Some 0%float
  else if String.eqb goal "Gain Weight" then Some 500%float
  else None.

Definition profile (g act gl : string) (w h a : float) : User.t :=
  User.mk 1 "n" "e" "p" "default.jpg" (Some h) (Some w) (Some a)
          (Some gl) (Some act) (Some g).

(** ** Time

    A naive [datetime] is the number of microseconds since
    0001-01-01T00:00:00; datetimes compare as these numbers do and
    [timedelta(days=n)] is [n] days of microseconds. *)

Definition datetime : Type := Z.

Definition timedelta (days : Z) : Z := days * 86400000000.

(** The proleptic Gregorian date of a day ordinal (day 1 is 0001-01-01), as
    the [datetime] module computes it. *)
Definition DAYS_IN_MONTH (month : Z) (leapyear : bool) : Z :=
  if month =? 2 then (if leapyear then 29 else 28)
  else if (month =? 4) || (month =? 6) || (month =? 9) || (month =? 11) then 30
  else 31.

Definition DAYS_BEFORE_MONTH (month : Z) (leapyear : bool) : Z :=
  fold_left (fun acc m => acc + DAYS_IN_MONTH m leapyear)
            (map Z.of_nat (seq 1 (Z.to_nat (month - 1)))) 0.

Definition ord2ymd (ordinal : Z) : Z * Z * Z :=
  let n := ordinal - 1 in
  let n400 := n / 146097 in
  let n := n mod 146097 in
  let year := n400 * 400 + 1 in
  let n100 := n / 36524 in
  let n := n mod 36524 in
  let n4 := n / 1461 in
  let n := n mod 1461 in
  let n1 := n / 365 in
  let n := n mod 365 in
  let year := year + n100 * 100 + n4 * 4 + n1 in
  if (n1 =? 4) || (n100 =? 4) then (year - 1, 12, 31)
  else
    let leapyear := (n1 =? 3) && (negb (n4 =? 24) || (n100 =? 3)) in
    let month := Z.shiftr (n + 50) 5 in
    let preceding := DAYS_BEFORE_MONTH month leapyear in
    if n <? preceding then
      let month := month - 1 in
      let preceding := preceding - DAYS_IN_MONTH month leapyear in
      (year, month, n - preceding + 1)
    else (year, month, n - preceding + 1).

Definition digit (d : Z) : ascii := ascii_of_nat (48 + Z.to_nat d).

Definition two_digits (n : Z) : string :=
  String (digit (n / 10)) (String (digit (n mod 10)) EmptyString).

(** [t.strftime("%m/%d")] *)
Definition strftime_md (t : datetime) : string :=
  let '(_, month, day) := ord2ymd (t / 86400000000 + 1) in
  String.append (two_digits month) (String.append "/" (two_digits day)).

(** ** The tables *)

Module UserCalories.
Record t : Type := mk { calories : Z; user_id : Z }.
End UserCalories.

Module UserCurrentDiet.
Record t : Type := mk { id : Z; user_id : Z }.
End UserCurrentDiet.

Module Meals.
Record t : Type := mk { id : Z; calories : float }.
End Meals.

Module UserCurrentDietMeals.
Record t : Type := mk {
  user_current_diet_id : Z;
  meal_id : Z;
  serving_size : float
}.
End UserCurrentDietMeals.

Module DietCalories.
Record t : Type := mk { user_current_diet_id : Z; calories : float }.
End DietCalories.

(** Modelled from the spec: the two sample models are not in the sources;
    their rows are "timestamped, one row per recorded event", so a row
    created without a [created_at] takes the clock reading of its
    insertion. *)
Module UserWeightOverTime.
Record t : Type := mk {
  user_id : Z;
  weight : option float;
  created_at : datetime
}.
End UserWeightOverTime.

Module UserCaloriesOverTime.
Record t : Type := mk {
  calories : float;
  user_id : Z;
  created_at : datetime
}.
End UserCaloriesOverTime.

Record Store : Type := mkStore {
  users : list User.t;
  user_calories : list UserCalories.t;
  user_current_diet : list UserCurrentDiet.t;
  user_current_diet_meals : list UserCurrentDietMeals.t;
  diet_calories : list DietCalories.t;
  user_weight_over_time : list UserWeightOverTime.t;
  user_calories_over_time : list UserCaloriesOverTime.t
}.

Definition empty_store : Store := mkStore [] [] [] [] [] [] [].

Definition set_users (f : list User.t -> list User.t) (s : Store) : Store :=
  mkStore (f (users s)) (user_calories s) (user_current_diet s)
          (user_current_diet_meals s) (diet_calories s)
          (user_weight_over_time s) (user_calories_over_time s).

Definition set_user_calories
    (f : list UserCalories.t -> list UserCalories.t) (s : Store) : Store :=
  mkStore (users s) (f (user_calories s)) (user_current_diet s)
          (user_current_diet_meals s) (diet_calories s)
          (user_weight_over_time s) (user_calories_over_time s).

Definition set_user_current_diet
    (f : list UserCurrentDiet.t -> list UserCurrentDiet.t) (s : Store) : Store :=
  mkStore (users s) (user_calories s) (f (user_current_diet s))
          (user_current_diet_meals s) (diet_calories s)
          (user_weight_over_time s) (user_calories_over_time s).

Definition set_user_current_diet_meals
    (f : list UserCurrentDietMeals.t -> list UserCurrentDietMeals.t)
    (s : Store) : Store :=
  mkStore (users s) (user_calories s) (user_current_diet s)
          (f (user_current_diet_meals s)) (diet_calories s)
          (user_weight_over_time s) (user_calories_over_time s).

Definition set_diet_calories
    (f : list DietCalories.t -> list DietCalories.t) (s : Store) : Store :=
  mkStore (users s) (user_calories s) (user_current_diet s)
          (user_current_diet_meals s) (f (diet_calories s))
          (user_weight_over_time s) (user_calories_over_time s).

Definition set_user_weight_over_time
    (f : list UserWeightOverTime.t -> list UserWeightOverTime.t)
    (s : Store) : Store :=
  mkStore (users s) (user_calories s) (user_current_diet s)
          (user_current_diet_meals s) (diet_calories s)
          (f (user_weight_over_time s)) (user_calories_over_time s).

Definition set_user_calories_over_time
    (f : list UserCaloriesOverTime.t -> list UserCaloriesOverTime.t)
    (s : Store) : Store :=
  mkStore (users s) (user_calories s) (user_current_diet s)
          (user_current_diet_meals s) (diet_calories s)
          (user_weight_over_time s) (f (user_calories_over_time s)).

(** ** Requests

    A request runs against a database session: queries, additions and
    deletions work on the session's view, [commit] makes that view the
    persisted one, and what is not committed when the request ends is rolled
    back.  [flash] appends a message with its category to the messages shown
    on the next page. *)

Record World : Type := mkWorld {
  persisted : Store;
  session : Store;
  flashed : list (string * string)
}.

Definition handler (A : Type) : Type := World -> result A * World.

Definition ret {A : Type} (a : A) : handler A := fun w => (Ret a, w).

Definition lift {A : Type} (r : result A) : handler A := fun w => (r, w).

Definition hbind {A B : Type} (h : handler A) (k : A -> handler B) : handler B :=
  fun w =>
    match h w with
    | (Ret a, w') => k a w'
    | (Raise e, w') => (Raise e, w')
    end.

Notation "x <~ h ;; k" := (hbind h (fun x => k))
  (at level 61, h at next level, right associativity) : py_scope.

(** [Model.query.filter(...).all()] *)
Definition query {A : Type} (table : Store -> list A) (p : A -> bool)
  : handler (list A) :=
  fun w => (Ret (filter p (table (session w))), w).

(** [.first()] *)
Definition first {A : Type} (rows : list A) : option A := hd_error rows.

Definition modify (f : Store -> Store) : handler unit :=
  fun w => (Ret tt, mkWorld (persisted w) (f (session w)) (flashed w)).

(** [db.session.add(row)] appends the row to its table. *)
Definition add {A : Type}
    (set : (list A -> list A) -> Store -> Store) (row : A) : handler unit :=
  modify (set (fun rows => rows ++ [row])).

(** [Model.query.filter_by(...).delete()] removes the matching rows. *)
Definition delete {A : Type}
    (set : (list A -> list A) -> Store -> Store) (p : A -> bool) : handler unit :=
  modify (set (filter (fun row => negb (p row)))).

Definition commit : handler unit :=
  fun w => (Ret tt, mkWorld (session w) (session w) (flashed w)).

Definition flash (message category : string) : handler unit :=
  fun w => (Ret tt, mkWorld (persisted w) (session w)
                            (flashed w ++ [(message, category)])).

(** One request: the handler runs on a fresh session over the persisted
    store; the outcome is its result, the store as persisted when it ends
    and the flashed messages. *)
Definition serve {A : Type} (h : handler A) (db : Store)
    (messages : list (string * string))
  : result A * Store * list (string * string) :=
  let (r, w) := h (mkWorld db db messages) in
  (r, persisted w, flashed w).

(** The endpoints that the [app.route] decorators of the module register,
    each under the name of its view function. *)
Definition url_map : list (string * string) :=
  [ ("index", "/"); ("register", "/register"); ("login", "/login");
    ("logout", "/logout"); ("finish_account", "/finish-account");
    ("account", "/account"); ("get_calories", "/get-calories");
    ("get_meals", "/get-meals"); ("show_meals", "/show-meals");
    ("save_calories", "/save-meal"); ("show_calories", "/show-calories");
    ("show_weight", "/show-weight"); ("reset_request", "/reset-password") ].

Fixpoint lookup (key : string) (m : list (string * string)) : option string :=
  match m with
  | [] => None
  | (k, v) :: m' => if String.eqb k key then Some v else lookup key m'
  end.

(** [url_for(endpoint)]: the URL of a registered endpoint; an endpoint that
    is not registered is a [BuildError]. *)
Definition url_for (endpoint : string) : result string :=
  match lookup endpoint url_map with
  | Some url => Ret url
  | None => Raise (BuildError endpoint)
  end.

Inductive response : Type :=
| Redirect (location : string)
| Render_get_calories (calories : Z)
| Render_calories_over_time (time_frame : string) (labels : list string)
    (values : list float) (recommended_intake : Z) (averaged : Z)
| Render_weight_over_time (time_frame : string) (labels : list string)
    (values : list (option float))
| Render_account (image_file : string)
| Render_reset_token.

Definition redirect (location : result string) : handler response :=
  loc <~ lift location ;; ret (Redirect loc).

(** ** The handlers

    Every handler below is registered under [login_required], so it runs for
    an authenticated [current_user]. *)

(** The decorator [account_complete]: a profile with a missing (or zero, or
    empty) attribute is sent to the account completion page. *)
Definition account_complete (current_user : User.t) (f : handler response)
  : handler response :=
  if negb (truthy_float (User.height current_user)
           && truthy_float (User.weight current_user)
           && truthy_float (User.age current_user)
           && truthy_str (User.goal current_user)
           && truthy_str (User.activity_level current_user)
           && truthy_str (User.gender current_user))
  then
    _ <~ flash "Please complete your account details." "warning" ;;
    redirect (url_for "finish_account")
  else f.

Definition calories_of (user : Z) (row : UserCalories.t) : bool :=
  UserCalories.user_id row =? user.

Definition diet_of (user : Z) (row : UserCurrentDiet.t) : bool :=
  UserCurrentDiet.user_id row =? user.

Definition meal_in (diet : Z) (row : UserCurrentDietMeals.t) : bool :=
  UserCurrentDietMeals.user_current_diet_id row =? diet.

Definition total_in (diet : Z) (row : DietCalories.t) : bool :=
  DietCalories.user_current_diet_id row =? diet.

(** [/get-calories] *)
Definition get_calories (current_user : User.t) : handler response :=
  account_complete current_user (
    calories <~ lift (calculate_calories current_user) ;;
    existing <~ query user_calories (calories_of (User.id current_user)) ;;
    _ <~ (match first existing with
          | Some _ => delete set_user_calories (calories_of (User.id current_user))
          | None => ret tt
          end) ;;
    _ <~ add set_user_calories
           (UserCalories.mk calories (User.id current_user)) ;;
    _ <~ commit ;;
    ret (Render_get_calories calories)).

(** The primary key that the database gives a new [UserCurrentDiet] row:
    one more than the largest key in the table. *)
Definition next_id (rows : list UserCurrentDiet.t) : Z :=
  fold_right (fun row acc => Z.max (UserCurrentDiet.id row) acc) 0 rows + 1.

(** What [choose_meals_for_user] returns: a meal and a serving size for
    breakfast, lunch and dinner. *)
Definition selection : Type :=
  (Meals.t * float) * (Meals.t * float) * (Meals.t * float).

(** [/get-meals]; the meal selector of [web.meal_planner] is a parameter.
    The diet row that the handler finds is the one its second, identical
    query returns. *)
Definition get_meals (choose_meals_for_user : Z -> selection)
    (current_user : User.t) : handler response :=
  account_complete current_user (
    target <~ query user_calories (calories_of (User.id current_user)) ;;
    match first target with
    | None => redirect (url_for "get_calories")
    | Some _ =>
      let '(breakfast_meal, lunch_meal, dinner_meal) :=
        choose_meals_for_user (User.id current_user) in
      let '(breakfast_meal, breakfast_serving) := breakfast_meal in
      let '(lunch_meal, lunch_serving) := lunch_meal in
      let '(dinner_meal, dinner_serving) := dinner_meal in
      diets <~ query user_current_diet (diet_of (User.id current_user)) ;;
      user_current_diet <~
        (match first diets with
         | Some user_current_diet =>
           _ <~ delete set_user_current_diet_meals
                  (meal_in (UserCurrentDiet.id user_current_diet)) ;;
           _ <~ delete set_diet_calories
                  (total_in (UserCurrentDiet.id user_current_diet)) ;;
           ret user_current_diet
         | None =>
           all <~ query user_current_diet (fun _ => true) ;;
           let user_current_diet :=
             UserCurrentDiet.mk (next_id all) (User.id current_user) in
           _ <~ add set_user_current_diet user_current_diet ;;
           _ <~ commit ;;
           ret user_current_diet
         end) ;;
      let diet_id := UserCurrentDiet.id user_current_diet in
      _ <~ add set_user_current_diet_meals
             (UserCurrentDietMeals.mk diet_id (Meals.id breakfast_meal)
                                      breakfast_serving) ;;
      _ <~ add set_user_current_diet_meals
             (UserCurrentDietMeals.mk diet_id (Meals.id lunch_meal)
                                      lunch_serving) ;;
      _ <~ add set_user_current_diet_meals
             (UserCurrentDietMeals.mk diet_id (Meals.id dinner_meal)
                                      dinner_serving) ;;
      _ <~ add set_diet_calories
             (DietCalories.mk diet_id
                (Meals.calories breakfast_meal * breakfast_serving
                 + Meals.calories lunch_meal * lunch_serving
                 + Meals.calories dinner_meal * dinner_serving)%float) ;;
      _ <~ commit ;;
      redirect (url_for "show_meals")
    end).

(** [/save-meal]: the attributes [.id] and [.calories] are read from what
    [.first()] returned, which is [None] when no row matches. *)
Definition save_calories (now : datetime) (current_user : User.t)
  : handler response :=
  account_complete current_user (
    diets <~ query user_current_diet (diet_of (User.id current_user)) ;;
    match first diets with
    | None => lift (Raise AttributeError)
    | Some user_current_diet =>
      totals <~ query diet_calories
                  (total_in (UserCurrentDiet.id user_current_diet)) ;;
      match first totals with
      | None => lift (Raise AttributeError)
      | Some calories =>
        _ <~ add set_user_calories_over_time
               (UserCaloriesOverTime.mk (DietCalories.calories calories)
                                        (User.id current_user) now) ;;
        _ <~ commit ;;
        _ <~ flash "You chose a great meal plan for today!" "success" ;;
        redirect (url_for "index")
      end
    end).

(** The rows of a user's sample log created at or after [since]. *)
Definition calories_since (user : Z) (since : datetime)
    (row : UserCaloriesOverTime.t) : bool :=
  (UserCaloriesOverTime.user_id row =? user)
  && (since <=? UserCaloriesOverTime.created_at row).

Definition weights_since (user : Z) (since : datetime)
    (row : UserWeightOverTime.t) : bool :=
  (UserWeightOverTime.user_id row =? user)
  && (since <=? UserWeightOverTime.created_at row).

(** [sum(values)]: the items added from left to right, starting from 0. *)
Definition py_sum (values : list float) : float :=
  fold_left PrimFloat.add values 0%float.

(** [len(values)] as the float that the division converts it to. *)
Definition float_of_len (values : list float) : float :=
  PrimFloat.of_uint63 (Uint63.of_Z (Z.of_nat (List.length values))).

(** [/show-calories]; [form_time] is the time frame of a form that
    validates on submit, [None] otherwise.  [calories] is assigned only by
    the branches of the known time frames. *)
Definition show_calories (now : datetime) (current_user : User.t)
    (form_time : option string) : handler response :=
  account_complete current_user (
    target <~ query user_calories (calories_of (User.id current_user)) ;;
    match first target with
    | None =>
      _ <~ flash "Please choose your meals first" "danger" ;;
      redirect (url_for "show-meals")
    | Some _ =>
      let since days :=
        query user_calories_over_time
              (calories_since (User.id current_user) (now - timedelta days)) in
      let time_frame := form_time in
      found <~
        (match time_frame with
         | None => rows <~ since 7 ;; ret ("1 Week", Some rows)
         | Some time_frame =>
           if String.eqb time_frame "1 Week" then
             rows <~ since 7 ;; ret (time_frame, Some rows)
           else if String.eqb time_frame "2 Weeks" then
             rows <~ since 14 ;; ret (time_frame, Some rows)
           else if String.eqb time_frame "3 Weeks" then
             rows <~ since 21 ;; ret (time_frame, Some rows)
           else if String.eqb time_frame "1 Month" then
             rows <~ since 30 ;; ret (time_frame, Some rows)
           else ret (time_frame, None)
         end) ;;
      let '(time_frame, calories) := found in
      match calories with
      | None => lift (Raise (UnboundLocalError "calories"))
      | Some calories =>
        let labels :=
          map (fun cl => strftime_md (UserCaloriesOverTime.created_at cl))
              calories in
        let values := map UserCaloriesOverTime.calories calories in
        target <~ query user_calories (calories_of (User.id current_user)) ;;
        match first target with
        | None => lift (Raise AttributeError)
        | Some target =>
          let recommended_intake := UserCalories.calories target in
          match values with
          | [] =>
            _ <~ flash "You have not entered any calories in this period"
                       "danger" ;;
            redirect (url_for "show-calories")
          | _ :: _ =>
            averaged <~ lift (py_round (py_sum values / float_of_len values)) ;;
            ret (Render_calories_over_time time_frame labels values
                                           recommended_intake averaged)
          end
        end
      end
    end).

(** [/show-weight] *)
Definition show_weight (now : datetime) (current_user : User.t)
    (form_time : option string) : handler response :=
  account_complete current_user (
    let since days :=
      query user_weight_over_time
            (weights_since (User.id current_user) (now - timedelta days)) in
    let time_frame := form_time in
    found <~
      (match time_frame with
       | None => rows <~ since 30 ;; ret ("1 Month", Some rows)
       | Some time_frame =>
         if String.eqb time_frame "1 Week" then
           rows <~ since 7 ;; ret (time_frame, Some rows)
         else if String.eqb time_frame "2 Weeks" then
           rows <~ since 14 ;; ret (time_frame, Some rows)
         else if String.eqb time_frame "3 Weeks" then
           rows <~ since 21 ;; ret (time_frame, Some rows)
         else if String.eqb time_frame "1 Month" then
           rows <~ since 30 ;; ret (time_frame, Some rows)
         else if String.eqb time_frame "3 Months" then
           rows <~ since 90 ;; ret (time_frame, Some rows)
         else if String.eqb time_frame "6 Months" then
           rows <~ since 180 ;; ret (time_frame, Some rows)
         else if String.eqb time_frame "1 Year" then
           rows <~ since 365 ;; ret (time_frame, Some rows)
         else ret (time_frame, None)
       end) ;;
    let '(time_frame, weights) := found in
    match weights with
    | None => lift (Raise (UnboundLocalError "weights"))
    | Some weights =>
      let labels :=
        map (fun weight => strftime_md (UserWeightOverTime.created_at weight))
            weights in
      let values := map UserWeightOverTime.weight weights in
      ret (Render_weight_over_time time_frame labels values)
    end).

(** ** Uploaded pictures

    [save_picture] works on POSIX paths.  [rfind] is the index of the last
    occurrence of a character, or -1. *)

Fixpoint rfind_from (c : ascii) (s : string) (i found : Z) : Z :=
  match s with
  | EmptyString => found
  | String a s' => rfind_from c s' (i + 1) (if Ascii.eqb a c then i else found)
  end.

Definition rfind (c : ascii) (s : string) : Z := rfind_from c s 0 (-1).

(** [p[:n]] and [p[n:]] *)
Definition slice_to (p : string) (n : Z) : string :=
  String.substring 0 (Z.to_nat n) p.

Definition slice_from (p : string) (n : Z) : string :=
  String.substring (Z.to_nat n) (String.length p - Z.to_nat n) p.

(** The loop of [os.path.splitext] that skips the leading dots of the file
    name; it ends within the length of the path. *)
Fixpoint splitext_scan (p : string) (dotIndex filenameIndex : Z) (steps : nat)
  : string * string :=
  match steps with
  | O => (p, "")
  | S steps =>
    if filenameIndex <? dotIndex then
      match String.get (Z.to_nat filenameIndex) p with
      | Some "."%char => splitext_scan p dotIndex (filenameIndex + 1) steps
      | _ => (slice_to p dotIndex, slice_from p dotIndex)
      end
    else (p, "")
  end.

(** [os.path.splitext(p)] *)
Definition splitext (p : string) : string * string :=
  let sepIndex := rfind "/" p in
  let dotIndex := rfind "." p in
  if sepIndex <? dotIndex then
    splitext_scan p dotIndex (sepIndex + 1) (S (String.length p))
  else (p, "").

Definition starts_with_sep (p : string) : bool :=
  match p with
  | String "/" _ => true
  | _ => false
  end.

Definition ends_with_sep (p : string) : bool :=
  match String.get (String.length p - 1) p with
  | Some "/"%char => negb (String.eqb p "")
  | _ => false
  end.

(** [os.path.join(path, b)] *)
Definition path_join (path b : string) : string :=
  if starts_with_sep b then b
  else if String.eqb path "" || ends_with_sep path then String.append path b
  else String.append path (String.append "/" b).

(** An uploaded file, as the form hands it over: the name that the client
    gave it and its content. *)
Module FileStorage.
Record t : Type := mk { filename : string; content : string }.
End FileStorage.

(** What [/account] uses from outside this module: the URL that
    [url_for('static', filename=...)] builds for a file of the static
    folder, [app.root_path], the [secrets.token_hex(8)] of the request, and
    the imaging library, which opens the upload, makes a thumbnail of the
    given size and saves it under the given path, or raises. *)
Module Files.
Record t : Type := mk {
  static_url : string -> string;
  root_path : string;
  token_hex : string;
  thumbnail : FileStorage.t -> Z * Z -> string -> result unit
}.
End Files.

(** [save_picture] *)
Definition save_picture (files : Files.t) (form_picture : FileStorage.t)
  : result string :=
  let random_hex := Files.token_hex files in
  let '(_, f_ext) := splitext (FileStorage.filename form_picture) in
  let picture_fn := String.append random_hex f_ext in
  let picture_path :=
    path_join (path_join (Files.root_path files) "static/images") picture_fn in
  let output_size := (125, 125) in
  _ <- Files.thumbnail files form_picture output_size picture_path ;;
  Ret picture_fn.

(** The submitted data of [UpdateAccountForm]; [picture] is the upload, when
    there is one. *)
Module UpdateAccountForm.
Record t : Type := mk {
  name : string;
  email : string;
  picture : option FileStorage.t;
  height : float;
  weight : float;
  age : float;
  goal : string;
  activity_level : string;
  gender : string
}.
End UpdateAccountForm.

(** [if form.picture.data: picture_file = save_picture(form.picture.data)]:
    an upload counts when its file name is not empty. *)
Definition save_form_picture (files : Files.t) (form : UpdateAccountForm.t)
  : result (option string) :=
  match UpdateAccountForm.picture form with
  | Some picture =>
    if negb (String.eqb (FileStorage.filename picture) "") then
      picture_file <- save_picture files picture ;; Ret (Some picture_file)
    else Ret None
  | None => Ret None
  end.

(** A request to [/account]: a [GET], or a [POST] with its form and whether
    the form validates. *)
Inductive account_request : Type :=
| GET
| POST (form : UpdateAccountForm.t) (validates : bool).

(** [current_user] and the user a token verifies to are objects of the
    session: their changed attributes are written to the row of their
    primary key. *)
Definition write_user (u : User.t) : handler unit :=
  modify (set_users
            (map (fun row => if User.id row =? User.id u then u else row))).

(** [/account] *)
Definition account (files : Files.t) (now : datetime) (current_user : User.t)
    (req : account_request) : handler response :=
  let image_file :=
    Files.static_url files
                     (String.append "images/" (User.image_file current_user)) in
  match req with
  | POST form true =>
    picture_file <~ lift (save_form_picture files form) ;;
    let image_file' :=
      match picture_file with
      | Some picture_file => picture_file
      | None => User.image_file current_user
      end in
    let weight_changed :=
      float_ne (User.weight current_user) (UpdateAccountForm.weight form) in
    let current_user :=
      User.mk (User.id current_user)
              (UpdateAccountForm.name form)
              (UpdateAccountForm.email form)
              (User.password current_user)
              image_file'
              (Some (UpdateAccountForm.height form))
              (Some (UpdateAccountForm.weight form))
              (Some (UpdateAccountForm.age form))
              (Some (UpdateAccountForm.goal form))
              (Some (UpdateAccountForm.activity_level form))
              (Some (UpdateAccountForm.gender form)) in
    _ <~ write_user current_user ;;
    _ <~ (if weight_changed then
            let weight := User.weight current_user in
            add set_user_weight_over_time
                (UserWeightOverTime.mk (User.id current_user) weight now)
          else ret tt) ;;
    _ <~ commit ;;
    _ <~ flash "Your account has been updated!" "success" ;;
    redirect (url_for "get_calories")
  | POST _ false => ret (Render_account image_file)
  | GET => ret (Render_account image_file)
  end.

Definition with_password (u : User.t) (hashed_password : string) : User.t :=
  User.mk (User.id u) (User.name u) (User.email u) hashed_password
          (User.image_file u) (User.height u) (User.weight u) (User.age u)
          (User.goal u) (User.activity_level u) (User.gender u).

(** [/reset-password/<token>]; this handler is not under [login_required]:
    [current_user] is [None] for an anonymous client.  The token check
    [User.verify_reset_token] and the password hash of [bcrypt] are
    parameters; [form_password] is the password of a form that validates on
    submit. *)
Definition reset_token
    (verify_reset_token : Store -> string -> option User.t)
    (generate_password_hash : string -> string)
    (current_user : option User.t) (token : string)
    (form_password : option string) : handler response :=
  match current_user with
  | Some _ => redirect (url_for "index")
  | None =>
    user <~ (fun w => (Ret (verify_reset_token (session w) token), w)) ;;
    match user with
    | None =>
      _ <~ flash "That is an invalid or expired token" "warning" ;;
      redirect (url_for "reset_request")
    | Some user =>
      match form_password with
      | Some password =>
        let hashed_password := generate_password_hash password in
        _ <~ write_user (with_password user hashed_password) ;;
        _ <~ commit ;;
        _ <~ flash "Your password has been updated! You are now able to log in"
                   "success" ;;
        redirect (url_for "login")
      | None => ret Render_reset_token
      end
    end
  end.

(** ** Sequences of requests *)

Definition persisted_after {A : Type} (h : handler A) (db : Store) : Store :=
  snd (fst (serve h db [])).

Inductive request : Type :=
| GetCalories (current_user : User.t)
| GetMeals (choose_meals_for_user : Z -> selection) (current_user : User.t).

Definition step (db : Store) (req : request) : Store :=
  match req with
  | GetCalories u => persisted_after (get_calories u) db
  | GetMeals choose u => persisted_after (get_meals choose u) db
  end.

Definition run (reqs : list request) (db : Store) : Store :=
  fold_left step reqs db.

(** The decorator lets the request through. *)
Definition complete (u : User.t) : bool :=
  truthy_float (User.height u) && truthy_float (User.weight u)
  && truthy_float (User.age u) && truthy_str (User.goal u)
  && truthy_str (User.activity_level u) && truthy_str (User.gender u).

Definition count {A : Type} (p : A -> bool) (rows : list A) : nat :=
  List.length (filter p rows).

(** The invariant of the data model: per user at most one calorie target
    and at most one current diet, and each current diet with exactly three
    meal entries and one total. *)
Definition diet_invariant (db : Store) : Prop :=
  forall user : Z,
    (count (calories_of user) (user_calories db) <= 1)%nat
    /\ (count (diet_of user) (user_current_diet db) <= 1)%nat
    /\ forall diet,
         In diet (filter (diet_of user) (user_current_diet db)) ->
         count (meal_in (UserCurrentDiet.id diet))
               (user_current_diet_meals db) = 3%nat
         /\ count (total_in (UserCurrentDiet.id diet))
                  (diet_calories db) = 1%nat.

(** What the handlers keep besides: the keys of the diets are distinct and
    positive, none is above the next key, and meal entries and totals
    belong to a diet of the table. *)
Definition well_keyed (db : Store) : Prop :=
  NoDup (map UserCurrentDiet.id (user_current_diet db))
  /\ (forall m, In m (user_current_diet_meals db) ->
        In (UserCurrentDietMeals.user_current_diet_id m)
           (map UserCurrentDiet.id (user_current_diet db)))
  /\ (forall c, In c (diet_calories db) ->
        In (DietCalories.user_current_diet_id c)
           (map UserCurrentDiet.id (user_current_diet db))).

(** The rows that [/get-meals] inserts for a selection, and the total it
    stores: the sum over the three slots of the meal's calories times the
    serving size. *)
Definition assembled_meals (diet : Z) (s : selection)
  : list UserCurrentDietMeals.t :=
  let '(b, l, d) := s in
  [ UserCurrentDietMeals.mk diet (Meals.id (fst b)) (snd b);
    UserCurrentDietMeals.mk diet (Meals.id (fst l)) (snd l);
    UserCurrentDietMeals.mk diet (Meals.id (fst d)) (snd d) ].

Definition diet_total (s : selection) : float :=
  let '(b, l, d) := s in
  (Meals.calories (fst b) * snd b + Meals.calories (fst l) * snd l
   + Meals.calories (fst d) * snd d)%float.

(** The store after [/get-meals] has replaced the entries of [diet]. *)
Definition replaced (diet : Z) (s : selection) (db : Store) : Store :=
  mkStore (users db) (user_calories db) (user_current_diet db)
          (filter (fun r => negb (meal_in diet r)) (user_current_diet_meals db)
           ++ assembled_meals diet s)
          (filter (fun r => negb (total_in diet r)) (diet_calories db)
           ++ [DietCalories.mk diet (diet_total s)])
          (user_weight_over_time db) (user_calories_over_time db).

(** The store after [/get-meals] has created the diet of [user]. *)
Definition created (user : Z) (s : selection) (db : Store) : Store :=
  let diet := next_id (user_current_diet db) in
  mkStore (users db) (user_calories db)
          (user_current_diet db ++ [UserCurrentDiet.mk diet user])
          (user_current_diet_meals db ++ assembled_meals diet s)
          (diet_calories db ++ [DietCalories.mk diet (diet_total s)])
          (user_weight_over_time db) (user_calories_over_time db).

(** The store after [/get-calories] has stored the target [calories]. *)
Definition retargeted (user calories : Z) (db : Store) : Store :=
  mkStore (users db)
          (filter (fun r => negb (calories_of user r)) (user_calories db)
           ++ [UserCalories.mk calories user])
          (user_current_diet db) (user_current_diet_meals db)
          (diet_calories db) (user_weight_over_time db)
          (user_calories_over_time db).

(** The invariant in the form the handlers preserve it. *)
Definition consistent (db : Store) : Prop :=
  (forall user, (count (calories_of user) (user_calories db) <= 1)%nat)
  /\ (forall user, (count (diet_of user) (user_current_diet db) <= 1)%nat)
  /\ (forall diet,
        In diet (map UserCurrentDiet.id (user_current_diet db)) ->
        count (meal_in diet) (user_current_diet_meals db) = 3%nat
        /\ count (total_in diet) (diet_calories db) = 1%nat)
  /\ well_keyed db.

(** A user, a selection and a store to run the handlers on. *)
Definition sample_user : User.t :=
  User.mk 7 "Ada" "ada@example.org" "hash" "default.jpg"
          (Some 168%float) (Some 62%float) (Some 41%float)
          (Some "Lose Weight") (Some "Very Active") (Some "Female").

Definition sample_selection (user : Z) : selection :=
  ((Meals.mk 11 310%float, 1.5%float),
   (Meals.mk 12 540%float, 1%float),
   (Meals.mk 13 620%float, 0.5%float)).

Definition other_selection (user : Z) : selection :=
  ((Meals.mk 21 250%float, 2%float),
   (Meals.mk 22 480%float, 1%float),
   (Meals.mk 23 700%float, 1%float)).

Definition sample_store : Store :=
  mkStore [sample_user] [UserCalories.mk 1858 7] [] [] [] [] [].

(** *** Missing preconditions, as the specification words them

    "Redirect to the appropriate prior step with a user-visible notice
    rather than failing hard", persisting nothing: the request returns a
    redirect, flashes one more message and leaves the store as it was. *)
Definition redirects_with_notice (db : Store) (msgs : list (string * string))
    (outcome : result response * Store * list (string * string)) : Prop :=
  exists location notice,
    outcome = (Ret (Redirect location), db, msgs ++ [notice]).

(** *** The time windows, as the specification words them *)
Definition calories_windows : list (string * Z) :=
  [ ("1 Week", 7); ("2 Weeks", 14); ("3 Weeks", 21); ("1 Month", 30) ].

Definition weight_windows : list (string * Z) :=
  calories_windows ++ [ ("3 Months", 90); ("6 Months", 180); ("1 Year", 365) ].

(** The page that [/show-calories] renders for the rows of a window. *)
Definition calories_chart (time_frame : string)
    (rows : list UserCaloriesOverTime.t) (recommended_intake : Z)
  : result response :=
  let labels :=
    map (fun cl => strftime_md (UserCaloriesOverTime.created_at cl)) rows in
  let values := map UserCaloriesOverTime.calories rows in
  averaged <- py_round (py_sum values / float_of_len values) ;;
  Ret (Render_calories_over_time time_frame labels values
                                 recommended_intake averaged).

(** The page that [/show-weight] renders for the rows of a window. *)
Definition weight_chart (time_frame : string)
    (rows : list UserWeightOverTime.t) : response :=
  Render_weight_over_time
    time_frame
    (map (fun weight => strftime_md (UserWeightOverTime.created_at weight))
         rows)
    (map UserWeightOverTime.weight rows).

(** Rows in the order of their timestamps. *)
Definition calories_by_time (a b : UserCaloriesOverTime.t) : Prop :=
  UserCaloriesOverTime.created_at a <= UserCaloriesOverTime.created_at b.

Definition weights_by_time (a b : UserWeightOverTime.t) : Prop :=
  UserWeightOverTime.created_at a <= UserWeightOverTime.created_at b.

(** A weight log whose second row carries the earlier timestamp
    (2023-04-15 13:05 first, 2023-04-10 00:00 second). *)
Definition unordered_store : Store :=
  mkStore [sample_user] [] [] [] []
          [ UserWeightOverTime.mk 7 (Some 62%float) 63817160700000000;
            UserWeightOverTime.mk 7 (Some 63%float) 63816681600000000 ]
          [].

(** A calorie log with two samples of April 2023. *)
Definition logged_store : Store :=
  mkStore [sample_user] [UserCalories.mk 1858 7] [] [] [] []
          [ UserCaloriesOverTime.mk 1700%float 7 63816681600000000;
            UserCaloriesOverTime.mk 1900%float 7 63817160700000000 ].

(** 2023-04-16 00:00, a clock reading for the stores above. *)
Definition mid_april : datetime := 63817200000000000.

(** A token check that accepts the token "fresh" for the user of key 7 and
    nothing else, and a stand-in for the password hash. *)
Definition sample_verify (db : Store) (token : string) : option User.t :=
  if String.eqb token "fresh" then
    first (filter (fun row => User.id row =? 7) (users db))
  else None.

Definition sample_hash (password : string) : string :=
  String.append "$2b$" password.

(** The file side of a site that serves its static folder under [/static]
    (the file names below need no quoting in a URL) and whose imaging
    library writes PNG and JPEG files and raises [ValueError] for a path
    with any other extension. *)
Definition sample_files : Files.t :=
  Files.mk (fun filename => String.append "/static/" filename)
           "/srv/web" "0f3a9c1e5b7d2468"
           (fun _ _ picture_path =>
              let '(_, ext) := splitext picture_path in
              if String.eqb ext ".png" || String.eqb ext ".jpg"
                 || String.eqb ext ".jpeg"
              then Ret tt else Raise ValueError).

(** A submitted account form that changes the weight of [sample_user], one
    that changes everything but the weight and uploads a picture, and one
    that changes the weight and uploads a file that the imaging library
    refuses. *)
Definition lighter_form : UpdateAccountForm.t :=
  UpdateAccountForm.mk "Ada" "ada@example.org" None
                       168%float 60.5%float 41%float
                       "Lose Weight" "Very Active" "Female".

Definition renamed_form : UpdateAccountForm.t :=
  UpdateAccountForm.mk "Ada L." "ada@example.com"
                       (Some (FileStorage.mk "me at sea.png" "PNG"))
                       169%float 62%float 42%float
                       "Maintain Weight" "Sedentary" "Male".

Definition refused_form : UpdateAccountForm.t :=
  UpdateAccountForm.mk "Ada" "ada@example.org"
                       (Some (FileStorage.mk "portrait.webp" "RIFF"))
                       168%float 60.5%float 41%float
                       "Lose Weight" "Very Active" "Female".

(** ** The other routes

    The handlers below render pages of their own: a [page] is a response of
    the handlers above, a template with its title, or the page of the
    current diet. *)

Module MealsLabel.
Record t : Type := mk { id : Z; label : string }.
End MealsLabel.

Inductive page : Type :=
| Response (r : response)
| Render_template (template : string) (title : option string)
| Render_show_meals (meals : list (option Meals.t))
    (diet_calories : option DietCalories.t) (servings : list float)
    (labels : list MealsLabel.t).

Definition redirect_page (location : result string) : handler page :=
  r <~ redirect location ;; ret (Response r).

(** The decorator [account_complete] around a view that returns a [page]. *)
Definition account_complete_page (current_user : User.t) (f : handler page)
  : handler page :=
  if negb (truthy_float (User.height current_user)
           && truthy_float (User.weight current_user)
           && truthy_float (User.age current_user)
           && truthy_str (User.goal current_user)
           && truthy_str (User.activity_level current_user)
           && truthy_str (User.gender current_user))
  then
    _ <~ flash "Please complete your account details." "warning" ;;
    redirect_page (url_for "finish_account")
  else f.

(** The submitted data of [RegistrationForm], [LoginForm] and
    [CalculateCalories], with the fields that the handlers read. *)
Module RegistrationForm.
Record t : Type := mk { name : string; email : string; password : string }.
End RegistrationForm.

Module LoginForm.
Record t : Type := mk { email : string; password : string }.
End LoginForm.

Module CalculateCalories.
Record t : Type := mk {
  height : float;
  weight : float;
  age : float;
  goal : string;
  activity_level : string;
  gender : string
}.
End CalculateCalories.

(** The primary key that the database gives a new [User] row. *)
Definition next_user_id (rows : list User.t) : Z :=
  fold_right (fun row acc => Z.max (User.id row) acc) 0 rows + 1.

Definition email_is (email : string) (row : User.t) : bool :=
  String.eqb (User.email row) email.

(** [/register]; [current_user] is [None] for an anonymous client and
    [form] is the data of a form that validates on submit.  The hash of
    [bcrypt] and the default of the [image_file] column are parameters; the
    profile columns of the new row are empty. *)
Definition register (generate_password_hash : string -> string)
    (default_image_file : string) (current_user : option User.t)
    (form : option RegistrationForm.t) : handler page :=
  match current_user with
  | Some _ => redirect_page (url_for "index")
  | None =>
    match form with
    | Some form =>
      let hashed_password :=
        generate_password_hash (RegistrationForm.password form) in
      all <~ query users (fun _ => true) ;;
      let user :=
        User.mk (next_user_id all) (RegistrationForm.name form)
                (RegistrationForm.email form) hashed_password
                default_image_file None None None None None None in
      _ <~ add set_users user ;;
      _ <~ commit ;;
      _ <~ flash (String.append "Account created for "
                    (String.append (RegistrationForm.name form) "!"))
                 "success" ;;
      redirect_page (url_for "login")
    | None => ret (Render_template "register.html" (Some "Register"))
    end
  end.

(** [/login]; [next_page] is the [next] argument of the request.  The
    result pairs the page with the user that [login_user] was called with,
    if it was.  The password check of [bcrypt] is a parameter. *)
Definition login (check_password_hash : string -> string -> bool)
    (current_user : option User.t) (form : option LoginForm.t)
    (next_page : option string) : handler (option User.t * page) :=
  match current_user with
  | Some _ => p <~ redirect_page (url_for "index") ;; ret (None, p)
  | None =>
    match form with
    | Some form =>
      let unsuccessful :=
        _ <~ flash "Login Unsuccessful. Please check email and password"
                   "danger" ;;
        ret (None, Render_template "login.html" (Some "Login")) in
      rows <~ query users (email_is (LoginForm.email form)) ;;
      match first rows with
      | Some user =>
        if check_password_hash (User.password user) (LoginForm.password form)
        then
          let current_user := user in
          let welcome :=
            _ <~ flash "You have been logged in!" "success" ;;
            p <~ redirect_page (url_for "index") ;;
            ret (Some user, p) in
          if negb (complete current_user) then
            _ <~ flash "Please complete your account details." "warning" ;;
            p <~ redirect_page (url_for "finish_account") ;;
            ret (Some user, p)
          else
            match next_page with
            | Some next =>
              if negb (String.eqb next "") then
                ret (Some user, Response (Redirect next))
              else welcome
            | None => welcome
            end
        else unsuccessful
      | None => unsuccessful
      end
    | None => ret (None, Render_template "login.html" (Some "Login"))
    end
  end.

(** [/finish-account] *)
Definition finish_account (now : datetime) (current_user : User.t)
    (form : option CalculateCalories.t) : handler page :=
  target <~ query user_calories (calories_of (User.id current_user)) ;;
  match first target with
  | Some _ => redirect_page (url_for "index")
  | None =>
    match form with
    | Some form =>
      let current_user :=
        User.mk (User.id current_user) (User.name current_user)
                (User.email current_user) (User.password current_user)
                (User.image_file current_user)
                (Some (CalculateCalories.height form))
                (Some (CalculateCalories.weight form))
                (Some (CalculateCalories.age form))
                (Some (CalculateCalories.goal form))
                (Some (CalculateCalories.activity_level form))
                (Some (CalculateCalories.gender form)) in
      _ <~ write_user current_user ;;
      let weight := User.weight current_user in
      _ <~ add set_user_weight_over_time
             (UserWeightOverTime.mk (User.id current_user) weight now) ;;
      _ <~ commit ;;
      _ <~ flash "Your account has been initialized!" "success" ;;
      redirect_page (url_for "get_calories")
    | None =>
      ret (Render_template "finish_account.html"
                           (Some "Complete Account Details"))
    end
  end.

(** The loop of [show_meals] over the entries of the diet: the meal and the
    label of each entry are looked up in the catalog, and [label.label] is
    read from what the lookup returned. *)
Fixpoint show_meals_loop (catalog : list Meals.t)
    (catalog_labels : list MealsLabel.t)
    (user_current_meals : list UserCurrentDietMeals.t)
  : result (list (option Meals.t) * list float * list MealsLabel.t) :=
  match user_current_meals with
  | [] => Ret ([], [], [])
  | user_current_meal :: rest =>
    let meal_id := UserCurrentDietMeals.meal_id user_current_meal in
    let meal := first (filter (fun m => Meals.id m =? meal_id) catalog) in
    match first (filter (fun l => MealsLabel.id l =? meal_id) catalog_labels) with
    | None => Raise AttributeError
    | Some label =>
      let serving_size := UserCurrentDietMeals.serving_size user_current_meal in
      collected <- show_meals_loop catalog catalog_labels rest ;;
      let '(meals, servings, labels) := collected in
      Ret (meal :: meals, serving_size :: servings, label :: labels)
    end
  end.

(** [/show-meals]; the tables [Meals] and [MealsLabel] of the catalog, which
    no handler writes, are parameters. *)
Definition show_meals (catalog : list Meals.t)
    (catalog_labels : list MealsLabel.t) (current_user : User.t)
  : handler page :=
  account_complete_page current_user (
    diets <~ query user_current_diet (diet_of (User.id current_user)) ;;
    match first diets with
    | Some user_current_diet =>
      user_current_meals <~
        query user_current_diet_meals
              (meal_in (UserCurrentDiet.id user_current_diet)) ;;
      collected <~
        lift (show_meals_loop catalog catalog_labels user_current_meals) ;;
      let '(meals, servings, labels) := collected in
      totals <~ query diet_calories
                  (total_in (UserCurrentDiet.id user_current_diet)) ;;
      ret (Render_show_meals meals (first totals) servings labels)
    | None => redirect_page (url_for "get_meals")
    end).

Module Message.
Record t : Type := mk {
  subject : string;
  sender : string;
  recipients : list string;
  body : string
}.
End Message.

(** [send_reset_email]: the message handed to [mail.send].  The token of
    [user.get_reset_token] and the scheme and host of the external URL are
    parameters; a [user] that the query did not find has no
    [get_reset_token]. *)
Definition send_reset_email (get_reset_token : User.t -> string)
    (server : string) (user : option User.t) : result Message.t :=
  match user with
  | None => Raise AttributeError
  | Some user =>
    let token := get_reset_token user in
    Ret (Message.mk
           "Password Reset Request" "mealmindy@proton.me" [User.email user]
           (String.append
              "To reset your password, visit the following link : "
              (String.append
                 (String.append server
                                (String.append "/reset-password/" token))
                 " If you did not make this request then simply ignore this email and no changes will be made.")))
  end.

(** [/reset-password]; the result pairs the page with the messages sent. *)
Definition reset_request (get_reset_token : User.t -> string)
    (server : string) (current_user : option User.t)
    (form_email : option string) : handler (list Message.t * page) :=
  match current_user with
  | Some _ => p <~ redirect_page (url_for "index") ;; ret ([], p)
  | None =>
    match form_email with
    | Some email =>
      rows <~ query users (email_is email) ;;
      msg <~ lift (send_reset_email get_reset_token server (first rows)) ;;
      _ <~ flash "An email has been sent with instructions to reset your password."
                 "info" ;;
      p <~ redirect_page (url_for "login") ;;
      ret ([msg], p)
    | None =>
      ret ([], Render_template "reset_request.html" (Some "Reset Password"))
    end
  end.

(** ** Sequences of requests to any route *)

Inductive route : Type :=
| To_register (generate_password_hash : string -> string)
    (default_image_file : string) (current_user : option User.t)
    (form : option RegistrationForm.t)
| To_login (check_password_hash : string -> string -> bool)
    (current_user : option User.t) (form : option LoginForm.t)
    (next_page : option string)
| To_finish_account (now : datetime) (current_user : User.t)
    (form : option CalculateCalories.t)
| To_account (files : Files.t) (now : datetime) (current_user : User.t)
    (req : account_request)
| To_get_calories (current_user : User.t)
| To_get_meals (choose_meals_for_user : Z -> selection) (current_user : User.t)
| To_show_meals (catalog : list Meals.t) (catalog_labels : list MealsLabel.t)
    (current_user : User.t)
| To_save_meal (now : datetime) (current_user : User.t)
| To_show_calories (now : datetime) (current_user : User.t)
    (form_time : option string)
| To_show_weight (now : datetime) (current_user : User.t)
    (form_time : option string)
| To_reset_request (get_reset_token : User.t -> string) (server : string)
    (current_user : option User.t) (form_email : option string)
| To_reset_token (verify_reset_token : Store -> string -> option User.t)
    (generate_password_hash : string -> string)
    (current_user : option User.t) (token : string)
    (form_password : option string).

Definition visit (db : Store) (r : route) : Store :=
  match r with
  | To_register hash image cu form =>
    persisted_after (register hash image cu form) db
  | To_login check cu form next => persisted_after (login check cu form next) db
  | To_finish_account now u form => persisted_after (finish_account now u form) db
  | To_account files now u req => persisted_after (account files now u req) db
  | To_get_calories u => persisted_after (get_calories u) db
  | To_get_meals choose u => persisted_after (get_meals choose u) db
  | To_show_meals catalog labels u =>
    persisted_after (show_meals catalog labels u) db
  | To_save_meal now u => persisted_after (save_calories now u) db
  | To_show_calories now u form => persisted_after (show_calories now u form) db
  | To_show_weight now u form => persisted_after (show_weight now u form) db
  | To_reset_request token server cu email =>
    persisted_after (reset_request token server cu email) db
  | To_reset_token verify hash cu token form =>
    persisted_after (reset_token verify hash cu token form) db
  end.

Definition visits (rs : list route) (db : Store) : Store :=
  fold_left visit rs db.

(** The clock reading of a request, for the routes that read the clock. *)
Definition clock (r : route) : option datetime :=
  match r with
  | To_finish_account now _ _ | To_account _ now _ _ | To_save_meal now _
  | To_show_calories now _ _ | To_show_weight now _ _ => Some now
  | _ => None
  end.

(** The clock never goes back along the requests, starting at [since]. *)
Fixpoint clock_ordered (since : datetime) (rs : list route) : Prop :=
  match rs with
  | [] => True
  | r :: rs =>
    match clock r with
    | Some now => since <= now /\ clock_ordered now rs
    | None => clock_ordered since rs
    end
  end.

(** A handler that leaves the persisted store as it is, from any session. *)
Definition read_only {A : Type} (h : handler A) : Prop :=
  forall w, persisted (snd (h w)) = persisted w.

(** The lookups of [show_meals] in the catalog, for an entry of a diet. *)
Definition catalog_meal (catalog : list Meals.t)
    (entry : UserCurrentDietMeals.t) : option Meals.t :=
  first (filter (fun m => Meals.id m =? UserCurrentDietMeals.meal_id entry)
                catalog).

Definition catalog_label (catalog_labels : list MealsLabel.t)
    (entry : UserCurrentDietMeals.t) : option MealsLabel.t :=
  first (filter (fun l => MealsLabel.id l =? UserCurrentDietMeals.meal_id entry)
                catalog_labels).

(** A catalog with the meals of [sample_selection] and a label for each of
    them, and one whose label for the meal 12 is missing. *)
Definition sample_catalog : list Meals.t :=
  [Meals.mk 11 310%float; Meals.mk 12 540%float; Meals.mk 13 620%float].

Definition sample_labels : list MealsLabel.t :=
  [MealsLabel.mk 11 "breakfast"; MealsLabel.mk 12 "lunch";
   MealsLabel.mk 13 "dinner"].

Definition short_labels : list MealsLabel.t :=
  [MealsLabel.mk 11 "breakfast"; MealsLabel.mk 13 "dinner"].

(** The row that [/register] inserts for a form. *)
Definition registered (generate_password_hash : string -> string)
    (default_image_file : string) (form : RegistrationForm.t) (db : Store)
  : User.t :=
  User.mk (next_user_id (users db)) (RegistrationForm.name form)
          (RegistrationForm.email form)
          (generate_password_hash (RegistrationForm.password form))
          default_image_file None None None None None None.

(** The row of a user after [/finish-account] has taken a form. *)
Definition finished (u : User.t) (form : CalculateCalories.t) : User.t :=
  User.mk (User.id u) (User.name u) (User.email u) (User.password u)
          (User.image_file u)
          (Some (CalculateCalories.height form))
          (Some (CalculateCalories.weight form))
          (Some (CalculateCalories.age form))
          (Some (CalculateCalories.goal form))
          (Some (CalculateCalories.activity_level form))
          (Some (CalculateCalories.gender form)).

(** The row of a user after a valid POST to [/account] whose upload, if
    any, was stored as [picture_file]. *)
Definition updated (u : User.t) (form : UpdateAccountForm.t)
    (picture_file : option string) : User.t :=
  User.mk (User.id u) (UpdateAccountForm.name form)
          (UpdateAccountForm.email form) (User.password u)
          match picture_file with
          | Some picture_file => picture_file
          | None => User.image_file u
          end
          (Some (UpdateAccountForm.height form))
          (Some (UpdateAccountForm.weight form))
          (Some (UpdateAccountForm.age form))
          (Some (UpdateAccountForm.goal form))
          (Some (UpdateAccountForm.activity_level form))
          (Some (UpdateAccountForm.gender form)).

(** The table of users with the row of the key of [u] replaced by [u]. *)
Definition rewritten (u : User.t) (rows : list User.t) : list User.t :=
  map (fun row => if User.id row =? User.id u then u else row) rows.

(** A password check that accepts exactly the password of [sample_hash]. *)
Definition sample_check (hashed_password password : string) : bool :=
  String.eqb hashed_password (sample_hash password).

Definition sample_registration : RegistrationForm.t :=
  RegistrationForm.mk "Grace" "grace@example.org" "c0b0l".

(** A token that names the key of its user, and its check. *)
Definition sample_token (u : User.t) : string :=
  if User.id u =? 7 then "fresh" else "none".

(** A user that has registered and nothing more, a form that completes
    the profile, and a user whose stored weight is zero. *)
Definition new_user : User.t :=
  User.mk 8 "Grace" "grace@example.org" "$2b$c0b0l" "default.jpg"
          None None None None None None.

Definition first_form : CalculateCalories.t :=
  CalculateCalories.mk 175%float 70%float 30%float
                       "Maintain Weight" "Moderately Active" "Male".

Definition weightless_user : User.t :=
  User.mk 7 "Ada" "ada@example.org" "hash" "default.jpg"
          (Some 168%float) (Some 0%float) (Some 41%float)
          (Some "Lose Weight") (Some "Very Active") (Some "Female").

(** What one request can do to the store: nothing; add a user under a new
    key; rewrite the row of a user, with or without new weight samples
    stamped with the clock of the request; log the calories of a diet, with
    the same stamp; replace the target of a user; replace the entries of a
    diet of the table; create the diet of a user who has none. *)
Inductive change (t : option datetime) (db : Store) : Store -> Prop :=
| unchanged : change t db db
| user_added (new : User.t) :
    ~ In (User.id new) (map User.id (users db)) ->
    change t db (set_users (fun rows => rows ++ [new]) db)
| user_rewritten (u : User.t) (samples : list UserWeightOverTime.t) :
    (forall s, In s samples -> t = Some (UserWeightOverTime.created_at s)) ->
    change t db
           (mkStore (rewritten u (users db)) (user_calories db)
                    (user_current_diet db) (user_current_diet_meals db)
                    (diet_calories db) (user_weight_over_time db ++ samples)
                    (user_calories_over_time db))
| meal_saved (sample : UserCaloriesOverTime.t) :
    t = Some (UserCaloriesOverTime.created_at sample) ->
    change t db
           (set_user_calories_over_time (fun rows => rows ++ [sample]) db)
| target_replaced (user calories : Z) :
    change t db (retargeted user calories db)
| diet_replaced (diet : Z) (s : selection) :
    In diet (map UserCurrentDiet.id (user_current_diet db)) ->
    change t db (replaced diet s db)
| diet_created (user : Z) (s : selection) :
    filter (diet_of user) (user_current_diet db) = [] ->
    change t db (created user s db).

(** Requests of one day of a new user, with the clock moving on. *)
Definition newcomer : User.t :=
  registered sample_hash "default.jpg" sample_registration empty_store.

Definition a_day : list route :=
  [ To_register sample_hash "default.jpg" None (Some sample_registration);
    To_finish_account 63817113600000000 newcomer (Some first_form);
    To_get_calories (finished newcomer first_form);
    To_get_meals sample_selection (finished newcomer first_form);
    To_save_meal 63817160700000000 (finished newcomer first_form);
    To_account sample_files mid_april (finished newcomer first_form)
               (POST lighter_form true);
    To_show_weight mid_april (updated (finished newcomer first_form)
                                      lighter_form None) None ].

(** Both logs are in the order of their timestamps and hold no sample
    later than [until]. *)
Definition timed (until : datetime) (db : Store) : Prop :=
  StronglySorted weights_by_time (user_weight_over_time db)
  /\ StronglySorted calories_by_time (user_calories_over_time db)
  /\ (forall s, In s (user_weight_over_time db) ->
        UserWeightOverTime.created_at s <= until)
  /\ (forall s, In s (user_calories_over_time db) ->
        UserCaloriesOverTime.created_at s <= until).

(** A float that is not a number. *)
Definition NaN (x : float) : Prop := Prim2SF x = S754_nan.

(** A store where the user of key 3 has a diet and the user of key 7 has a
    target and no diet yet. *)
Definition shared_store : Store :=
  mkStore [sample_user] [UserCalories.mk 2100 3; UserCalories.mk 1858 7]
          [UserCurrentDiet.mk 1 3]
          [ UserCurrentDietMeals.mk 1 21 2%float;
            UserCurrentDietMeals.mk 1 22 1%float;
            UserCurrentDietMeals.mk 1 23 1%float ]
          [DietCalories.mk 1 1680%float] [] [].

(** A selection of meals whose calories are at the top of the float
    range. *)
Definition huge_selection (user : Z) : selection :=
  ((Meals.mk 31 1e308%float, 1%float),
   (Meals.mk 32 1e308%float, 1%float),
   (Meals.mk 33 1e308%float, 1%float)).

(** * Properties *)

(** ** The model at work *)

(** [round] sends ties to the even integer, in both directions. *)
Example py_round_ties :
  map py_round [0.5; 1.5; 2.5; (-2.5); 2.4999; 2637.85975; (-0.4)]%float
  = [Ret 0; Ret 2; Ret 2; Ret (-2); Ret 2; Ret 2638; Ret 0].
Proof. reflexivity. Qed.

Example py_round_not_finite :
  py_round nan = Raise ValueError /\ py_round infinity = Raise OverflowError.
Proof. split; reflexivity. Qed.

(** 2023-04-15 13:05, the leap day of 2024 and the last second of 2024. *)
Example strftime_md_dates :
  map strftime_md [63817160700000000; 63844761600000000; 63871286399000000]
  = ["04/15"; "02/29"; "12/31"].
Proof. reflexivity. Qed.

(** Endpoints are the names of the view functions, not the URL paths. *)
Example url_for_names :
  url_for "show_meals" = Ret "/show-meals"
  /\ url_for "show-meals" = Raise (BuildError "show-meals")
  /\ url_for "save_calories" = Ret "/save-meal".
Proof. repeat split; reflexivity. Qed.

(** A target, a diet and the log of its calories, request by request. *)
Example a_day_of_requests :
  let db1 := persisted_after (get_calories sample_user) empty_store in
  let db2 := persisted_after (get_meals sample_selection sample_user) db1 in
  serve (save_calories mid_april sample_user) db2 []
  = (Ret (Redirect "/"),
     mkStore [] [UserCalories.mk 1858 7] [UserCurrentDiet.mk 1 7]
             [ UserCurrentDietMeals.mk 1 11 1.5%float;
               UserCurrentDietMeals.mk 1 12 1%float;
               UserCurrentDietMeals.mk 1 13 0.5%float ]
             [DietCalories.mk 1 1315%float] []
             [UserCaloriesOverTime.mk 1315%float 7 mid_april],
     [("You chose a great meal plan for today!", "success")]).
Proof. reflexivity. Qed.

(** ** Facts on binary64 arithmetic *)

Lemma Prim2SF_sub_500 (x : float) :
  Prim2SF (x - 500)%float = Prim2SF (x + (-500))%float.
Proof.
  rewrite sub_spec, add_spec.
  change (Prim2SF 500%float) with (S754_finite false 8796093022208000 (-44)).
  change (Prim2SF (-500)%float) with (S754_finite true 8796093022208000 (-44)).
  destruct (Prim2SF x) as [s | s | | s m e]; try reflexivity.
Qed.

Lemma round_add_zero (x : float) :
  py_round (x + 0)%float = py_round x.
Proof.
  unfold py_round. rewrite add_spec.
  change (Prim2SF 0%float) with (S754_zero false).
  destruct (Prim2SF x) as [s | s | | s m e]; try reflexivity.
  destruct s; reflexivity.
Qed.

(** ** The metabolic calculator *)

Lemma str_eq_true (v : option string) (s : string) :
  str_eq v s = true -> v = Some s.
Proof.
  destruct v as [x |]; simpl; [ | discriminate ].
  intros H. apply String.eqb_eq in H. now subst.
Qed.

Lemma valid_gender_cases (g : option string) :
  valid_gender g = true -> g = Some "Male" \/ g = Some "Female".
Proof.
  unfold valid_gender. intros H.
  apply orb_true_iff in H. destruct H as [H | H];
    apply str_eq_true in H; auto.
Qed.

Lemma valid_activity_level_cases (a : option string) :
  valid_activity_level a = true ->
  a = Some "Sedentary" \/ a = Some "Lightly Active"
  \/ a = Some "Moderately Active" \/ a = Some "Very Active"
  \/ a = Some "Extra Active".
Proof.
  unfold valid_activity_level. intros H.
  repeat (apply orb_true_iff in H; destruct H as [H | H]);
    apply str_eq_true in H; auto 6.
Qed.

Lemma valid_goal_cases (g : option string) :
  valid_goal g = true ->
  g = Some "Lose Weight" \/ g = Some "Maintain Weight" \/ g = Some "Gain Weight".
Proof.
  unfold valid_goal. intros H.
  repeat (apply orb_true_iff in H; destruct H as [H | H]);
    apply str_eq_true in H; auto.
Qed.

Lemma round_sub_500 (x : float) :
  py_round (x - 500)%float = py_round (x + (-500))%float.
Proof. unfold py_round. now rewrite Prim2SF_sub_500. Qed.

(** The tests of a string against the literals of the source, decided on
    the spot. *)
Ltac literal H :=
  match type of H with
  | (if String.eqb ?g ?s then _ else _) = _ =>
    let E := fresh "E" in
    destruct (String.eqb g s) eqn:E;
    [ apply String.eqb_eq in E; subst g | ]
  end.

(** C1: for a profile whose gender, activity level and goal are among the
    enumerated values, [calculate_calories] returns
    [round(BMR * activity multiplier + goal adjustment)], with the BMR, the
    multipliers and the adjustments of the specification's tables. *)
Theorem calculate_calories_formula
    (u : User.t) (g act gl : string) (w h a bmr m adj : float) :
  User.gender u = Some g ->
  User.activity_level u = Some act ->
  User.goal u = Some gl ->
  User.weight u = Some w ->
  User.height u = Some h ->
  User.age u = Some a ->
  spec_BMR g w h a = Some bmr ->
  spec_activity_multiplier act = Some m ->
  spec_goal_adjustment gl = Some adj ->
  calculate_calories u = py_round (bmr * m + adj)%float.
Proof.
  intros Hg Hact Hgl Hw Hh Ha Hbmr Hm Hadj.
  unfold calculate_calories. rewrite Hg, Hact, Hgl, Hw, Hh, Ha.
  unfold spec_BMR in Hbmr. unfold spec_activity_multiplier in Hm.
  unfold spec_goal_adjustment in Hadj.
  repeat literal Hbmr; try discriminate;
    injection Hbmr as <-;
    repeat literal Hm; try discriminate;
    injection Hm as <-;
    repeat literal Hadj; try discriminate;
    injection Hadj as <-;
    cbn [str_eq String.eqb Ascii.eqb Bool.eqb bind operand local];
    first [ reflexivity | apply round_sub_500 | symmetry; apply round_add_zero ].
Qed.

Lemma calculate_calories_formula_witness :
  calculate_calories
    (profile "Female" "Very Active" "Lose Weight" 62 168 41)
  = py_round ((655.1 + 9.563 * 62 + 1.85 * 168 - 4.676 * 41) * 1.725
              + (-500))%float.
Proof.
  apply (calculate_calories_formula
           (profile "Female" "Very Active" "Lose Weight" 62 168 41)
           "Female" "Very Active" "Lose Weight" 62 168 41);
    reflexivity.
Defined.

(** C2: the two worked examples of the specification: a 70 kg, 175 cm,
    30 year old moderately active male who maintains weight gets 2638, and
    a sedentary female of the same measures who loses weight gets 1310. *)
Theorem calculate_calories_examples :
  calculate_calories
    (profile "Male" "Moderately Active" "Maintain Weight" 70 175 30)
  = Ret 2638
  /\ calculate_calories
       (profile "Female" "Sedentary" "Lose Weight" 70 175 30)
     = Ret 1310.
Proof. split; vm_compute; reflexivity. Qed.

Lemma valid_profile_false (u : User.t) :
  valid_profile u = false ->
  valid_gender (User.gender u) = false
  \/ valid_activity_level (User.activity_level u) = false
  \/ valid_goal (User.goal u) = false.
Proof.
  unfold valid_profile. intros H.
  apply andb_false_iff in H. destruct H as [H | H]; auto.
  apply andb_false_iff in H. destruct H as [H | H]; auto.
Qed.

(** Case analysis on the tests that remain in the goal. *)
Ltac tests :=
  repeat match goal with
         | |- context [str_eq ?v ?s] => destruct (str_eq v s) eqn:?
         end.

Lemma unbound_outside_gender (u : User.t) :
  valid_gender (User.gender u) = false ->
  exists v, calculate_calories u = Raise (UnboundLocalError v).
Proof.
  unfold valid_gender. intros H.
  apply orb_false_iff in H. destruct H as [HM HF].
  unfold calculate_calories. rewrite HM, HF. cbn [bind].
  tests; cbn [bind local]; eauto.
Qed.

Lemma raises_outside_activity_level (u : User.t) :
  valid_activity_level (User.activity_level u) = false ->
  exists e, calculate_calories u = Raise e.
Proof.
  unfold valid_activity_level. intros H.
  repeat (apply orb_false_iff in H; destruct H as [H ?]).
  unfold calculate_calories.
  repeat match goal with E : str_eq _ _ = false |- _ => rewrite E; clear E end.
  destruct (User.weight u), (User.height u), (User.age u);
    tests; cbn [bind local operand]; eauto.
Qed.

Lemma raises_outside_goal (u : User.t) :
  valid_goal (User.goal u) = false ->
  exists e, calculate_calories u = Raise e.
Proof.
  unfold valid_goal. intros H.
  repeat (apply orb_false_iff in H; destruct H as [H ?]).
  unfold calculate_calories.
  repeat match goal with E : str_eq _ _ = false |- _ => rewrite E; clear E end.
  destruct (User.weight u), (User.height u), (User.age u);
    tests; cbn [bind local operand]; eauto.
Qed.

Lemma calculate_calories_outside (u : User.t) :
  valid_profile u = false -> exists e, calculate_calories u = Raise e.
Proof.
  intros H. apply valid_profile_false in H. destruct H as [H | [H | H]].
  - destruct (unbound_outside_gender u H) as [v Hv]. eauto.
  - now apply raises_outside_activity_level.
  - now apply raises_outside_goal.
Qed.

Lemma calculate_calories_outside_unbound (u : User.t) (w h a : float) :
  valid_profile u = false ->
  User.weight u = Some w -> User.height u = Some h -> User.age u = Some a ->
  exists v, calculate_calories u = Raise (UnboundLocalError v).
Proof.
  intros H Hw Hh Ha. apply valid_profile_false in H.
  destruct H as [H | [H | H]].
  - now apply unbound_outside_gender.
  - unfold valid_activity_level in H.
    repeat (apply orb_false_iff in H; destruct H as [H ?]).
    unfold calculate_calories. rewrite Hw, Hh, Ha.
    repeat match goal with E : str_eq _ _ = false |- _ => rewrite E; clear E end.
    tests; cbn [bind local operand]; eauto.
  - unfold valid_goal in H.
    repeat (apply orb_false_iff in H; destruct H as [H ?]).
    unfold calculate_calories. rewrite Hw, Hh, Ha.
    repeat match goal with E : str_eq _ _ = false |- _ => rewrite E; clear E end.
    tests; cbn [bind local operand]; eauto.
Qed.

Lemma calculate_calories_inside (u : User.t) :
  valid_profile u = true ->
  (forall v, calculate_calories u <> Raise (UnboundLocalError v))
  /\ (forall w h a,
        User.weight u = Some w -> User.height u = Some h ->
        User.age u = Some a ->
        exists calories, calculate_calories u = py_round calories).
Proof.
  unfold valid_profile. intros H.
  apply andb_true_iff in H. destruct H as [H Hgl].
  apply andb_true_iff in H. destruct H as [Hg Hact].
  apply valid_gender_cases in Hg.
  apply valid_activity_level_cases in Hact.
  apply valid_goal_cases in Hgl.
  unfold calculate_calories. split.
  - intros v.
    destruct Hg as [-> | ->];
      destruct Hact as [-> | [-> | [-> | [-> | ->]]]];
      destruct Hgl as [-> | [-> | ->]];
      destruct (User.weight u), (User.height u), (User.age u);
      cbn [str_eq String.eqb Ascii.eqb Bool.eqb bind operand local];
      try discriminate;
      unfold py_round;
      match goal with
      | |- round_spec_float ?x <> _ => destruct x; discriminate
      end.
  - intros w h a -> -> ->.
    destruct Hg as [-> | ->];
      destruct Hact as [-> | [-> | [-> | [-> | ->]]]];
      destruct Hgl as [-> | [-> | ->]];
      cbn [str_eq String.eqb Ascii.eqb Bool.eqb bind operand local];
      eauto.
Qed.

(** C9: [calculate_calories] returns only for a gender, an activity level
    and a goal among the enumerated values.  With them, no read of [BMR],
    [AMR] or [calories] comes before its assignment, and the result is the
    rounding of the computed calories; without them the function raises,
    and with the three measures present what it raises is the read of an
    unassigned local variable, as for a gender that is neither Male nor
    Female. *)
Theorem calculate_calories_total_only_on_enumerated (u : User.t) :
  (valid_profile u = true ->
   (forall v, calculate_calories u <> Raise (UnboundLocalError v))
   /\ (forall w h a,
         User.weight u = Some w -> User.height u = Some h ->
         User.age u = Some a ->
         exists calories, calculate_calories u = py_round calories))
  /\ (valid_profile u = false -> exists e, calculate_calories u = Raise e)
  /\ (valid_profile u = false ->
      forall w h a,
        User.weight u = Some w -> User.height u = Some h ->
        User.age u = Some a ->
        exists v, calculate_calories u = Raise (UnboundLocalError v))
  /\ calculate_calories
       (profile "Other" "Sedentary" "Maintain Weight" 70 175 30)
     = Raise (UnboundLocalError "BMR").
Proof.
  split; [ apply calculate_calories_inside | ].
  split; [ apply calculate_calories_outside | ].
  split; [ | reflexivity ].
  intros H w h a Hw Hh Ha.
  now apply (calculate_calories_outside_unbound u w h a).
Qed.

Lemma calculate_calories_total_only_on_enumerated_witness :
  (forall v, calculate_calories sample_user <> Raise (UnboundLocalError v))
  /\ (exists calories, calculate_calories sample_user = py_round calories)
  /\ (exists v,
        calculate_calories
          (profile "Male" "Very Active" "Bulk" 70 175 30)
        = Raise (UnboundLocalError v)).
Proof.
  destruct (calculate_calories_total_only_on_enumerated sample_user)
    as (Hin & _).
  destruct (Hin eq_refl) as (Hbound & Hround).
  split; [ exact Hbound | ].
  split; [ exact (Hround 62 168 41 eq_refl eq_refl eq_refl)%float | ].
  destruct (calculate_calories_total_only_on_enumerated
              (profile "Male" "Very Active" "Bulk" 70 175 30))
    as (_ & _ & Hout & _).
  exact (Hout eq_refl 70 175 30 eq_refl eq_refl eq_refl)%float.
Defined.

(** ** Lists of rows *)

Section Rows.
Context {A : Type}.
Implicit Types (p q : A -> bool) (rows : list A).

Lemma first_none rows : first rows = None -> rows = [].
Proof. destruct rows; [ reflexivity | discriminate ]. Qed.

Lemma first_some_in rows x : first rows = Some x -> In x rows.
Proof.
  destruct rows as [| y rows]; [ discriminate | ].
  intros [= ->]. now left.
Qed.

Lemma filter_nil_negb p rows :
  filter p rows = [] -> filter (fun r => negb (p r)) rows = rows.
Proof.
  induction rows as [| x rows IH]; simpl; [ reflexivity | ].
  destruct (p x); [ discriminate | ].
  intros H. simpl. now rewrite IH.
Qed.

Lemma filter_negb_same p rows :
  filter p (filter (fun r => negb (p r)) rows) = [].
Proof.
  induction rows as [| x rows IH]; simpl; [ reflexivity | ].
  destruct (p x) eqn:E; simpl; [ assumption | ].
  now rewrite E.
Qed.

Lemma filter_negb_other p q rows :
  (forall r, q r = true -> p r = false) ->
  filter q (filter (fun r => negb (p r)) rows) = filter q rows.
Proof.
  intros H. induction rows as [| x rows IH]; simpl; [ reflexivity | ].
  destruct (p x) eqn:Ep; simpl.
  - destruct (q x) eqn:Eq; [ | assumption ].
    apply H in Eq. congruence.
  - now rewrite IH.
Qed.

Lemma filter_all rows : filter (fun _ => true) rows = rows.
Proof. induction rows as [| x rows IH]; simpl; congruence. Qed.

Lemma filter_none p rows :
  (forall r, In r rows -> p r = false) -> filter p rows = [].
Proof.
  induction rows as [| x rows IH]; simpl; [ reflexivity | ].
  intros H. rewrite (H x) by now left.
  apply IH. intros r Hr. apply H. now right.
Qed.
End Rows.

(** ** The effect of the handlers on the store *)

Lemma account_complete_pass (u : User.t) (f : handler response) :
  complete u = true -> account_complete u f = f.
Proof. unfold complete, account_complete. now intros ->. Qed.

Lemma account_complete_block (u : User.t) (f : handler response)
    (db : Store) (msgs : list (string * string)) :
  complete u = false ->
  serve (account_complete u f) db msgs
  = (Ret (Redirect "/finish-account"), db,
     msgs ++ [("Please complete your account details.", "warning")]).
Proof. unfold complete, account_complete. now intros ->. Qed.

Lemma get_meals_no_target choose u db msgs :
  complete u = true ->
  first (filter (calories_of (User.id u)) (user_calories db)) = None ->
  serve (get_meals choose u) db msgs
  = (Ret (Redirect "/get-calories"), db, msgs).
Proof.
  intros Hc Ht. unfold get_meals. rewrite (account_complete_pass _ _ Hc).
  unfold serve, hbind, query. cbn [session]. now rewrite Ht.
Qed.

Lemma get_meals_replace choose u db msgs target diet :
  complete u = true ->
  first (filter (calories_of (User.id u)) (user_calories db)) = Some target ->
  first (filter (diet_of (User.id u)) (user_current_diet db)) = Some diet ->
  serve (get_meals choose u) db msgs
  = (Ret (Redirect "/show-meals"),
     replaced (UserCurrentDiet.id diet) (choose (User.id u)) db, msgs).
Proof.
  intros Hc Ht Hd. unfold get_meals. rewrite (account_complete_pass _ _ Hc).
  unfold serve, hbind, query. cbn [session]. rewrite Ht.
  unfold replaced, assembled_meals, diet_total.
  destruct (choose (User.id u)) as [[[bm bs] [lm ls]] [dm ds]].
  cbn [session]. rewrite Hd. cbn.
  unfold set_diet_calories, set_user_current_diet_meals. cbn.
  now rewrite <- !app_assoc.
Qed.

Lemma get_meals_create choose u db msgs target :
  complete u = true ->
  first (filter (calories_of (User.id u)) (user_calories db)) = Some target ->
  first (filter (diet_of (User.id u)) (user_current_diet db)) = None ->
  serve (get_meals choose u) db msgs
  = (Ret (Redirect "/show-meals"),
     created (User.id u) (choose (User.id u)) db, msgs).
Proof.
  intros Hc Ht Hd. unfold get_meals. rewrite (account_complete_pass _ _ Hc).
  unfold serve, hbind, query. cbn [session]. rewrite Ht.
  unfold created, assembled_meals, diet_total.
  destruct (choose (User.id u)) as [[[bm bs] [lm ls]] [dm ds]].
  cbn [session]. rewrite Hd. cbn.
  unfold set_diet_calories, set_user_current_diet_meals, set_user_current_diet.
  cbn. now rewrite <- !app_assoc, filter_all.
Qed.

Lemma get_calories_effect u db msgs :
  serve (get_calories u) db msgs
  = (Ret (Redirect "/finish-account"), db,
     msgs ++ [("Please complete your account details.", "warning")])
  \/ (exists e, serve (get_calories u) db msgs = (Raise e, db, msgs))
  \/ (exists calories,
        calculate_calories u = Ret calories
        /\ serve (get_calories u) db msgs
           = (Ret (Render_get_calories calories),
              retargeted (User.id u) calories db, msgs)).
Proof.
  destruct (complete u) eqn:Hc.
  2: { left. now apply account_complete_block. }
  right. unfold get_calories. rewrite (account_complete_pass _ _ Hc).
  unfold serve, hbind, lift, query. cbn [session].
  destruct (calculate_calories u) as [calories | e]; [ right | left; eauto ].
  exists calories. split; [ reflexivity | ].
  unfold retargeted.
  destruct (first (filter (calories_of (User.id u)) (user_calories db))) eqn:E;
    cbn; [ reflexivity | ].
  apply first_none in E. now rewrite (filter_nil_negb _ _ E).
Qed.

(** ** The assembled diet *)

Lemma next_id_above (rows : list UserCurrentDiet.t) (k : Z) :
  In k (map UserCurrentDiet.id rows) -> k < next_id rows.
Proof.
  unfold next_id. induction rows as [| x rows IH]; simpl; [ tauto | ].
  intros [<- | H]; [ lia | ].
  specialize (IH H). lia.
Qed.

Lemma next_id_fresh (rows : list UserCurrentDiet.t) :
  ~ In (next_id rows) (map UserCurrentDiet.id rows).
Proof. intros H. apply next_id_above in H. lia. Qed.

Lemma no_meal_in_next (db : Store) :
  well_keyed db ->
  filter (meal_in (next_id (user_current_diet db)))
         (user_current_diet_meals db) = [].
Proof.
  intros (_ & Hm & _). apply filter_none. intros r Hr.
  unfold meal_in. apply Z.eqb_neq. intros E.
  apply Hm in Hr. rewrite E in Hr. now apply next_id_fresh in Hr.
Qed.

Lemma no_total_in_next (db : Store) :
  well_keyed db ->
  filter (total_in (next_id (user_current_diet db))) (diet_calories db) = [].
Proof.
  intros (_ & _ & Hc). apply filter_none. intros r Hr.
  unfold total_in. apply Z.eqb_neq. intros E.
  apply Hc in Hr. rewrite E in Hr. now apply next_id_fresh in Hr.
Qed.

(** C4: when [/get-meals] assembles a diet (the profile is complete and a
    calorie target exists), the user has a current diet afterwards, and the
    total that the handler stores for it, as the last row of the table, is
    [breakfast.calories * breakfast_serving + lunch.calories * lunch_serving
     + dinner.calories * dinner_serving] of the meals that the selector
    returned; what stands before that row was in the table already.  On a
    store whose totals all belong to a diet of the table, it is the only
    total of the user's diet. *)
Theorem get_meals_stores_total
    (choose_meals_for_user : Z -> selection) (u : User.t) (db : Store)
    (msgs : list (string * string)) (target : UserCalories.t) :
  complete u = true ->
  first (filter (calories_of (User.id u)) (user_calories db)) = Some target ->
  exists diet,
    let db' := snd (fst (serve (get_meals choose_meals_for_user u) db msgs)) in
    let total :=
      let '(breakfast, lunch, dinner) := choose_meals_for_user (User.id u) in
      (Meals.calories (fst breakfast) * snd breakfast
       + Meals.calories (fst lunch) * snd lunch
       + Meals.calories (fst dinner) * snd dinner)%float in
    first (filter (diet_of (User.id u)) (user_current_diet db')) = Some diet
    /\ (exists older,
          diet_calories db'
          = older ++ [DietCalories.mk (UserCurrentDiet.id diet) total]
          /\ incl older (diet_calories db))
    /\ (well_keyed db ->
        map DietCalories.calories
            (filter (total_in (UserCurrentDiet.id diet)) (diet_calories db'))
        = [total]).
Proof.
  intros Hc Ht.
  destruct (first (filter (diet_of (User.id u)) (user_current_diet db)))
    as [diet |] eqn:Hd.
  - exists diet. rewrite (get_meals_replace _ _ _ _ _ _ Hc Ht Hd).
    cbn [fst snd replaced user_current_diet diet_calories].
    split; [ assumption | ]. split.
    + eexists. split; [ reflexivity | ].
      intros c Hin. now apply filter_In in Hin.
    + intros _. rewrite filter_app, filter_negb_same. cbn.
      unfold total_in at 1. cbn. now rewrite Z.eqb_refl.
  - exists (UserCurrentDiet.mk (next_id (user_current_diet db)) (User.id u)).
    rewrite (get_meals_create _ _ _ _ _ Hc Ht Hd).
    cbn [fst snd created user_current_diet diet_calories UserCurrentDiet.id].
    split; [ | split ].
    + rewrite filter_app, (first_none _ Hd). cbn.
      unfold diet_of. cbn. now rewrite Z.eqb_refl.
    + eexists. split; [ reflexivity | apply incl_refl ].
    + intros Hk. rewrite filter_app, (no_total_in_next _ Hk). cbn.
      unfold total_in at 1. cbn. now rewrite Z.eqb_refl.
Qed.

Lemma get_meals_stores_total_witness :
  exists diet,
    let db' :=
      snd (fst (serve (get_meals sample_selection sample_user)
                      sample_store [])) in
    let total := (310 * 1.5 + 540 * 1 + 620 * 0.5)%float in
    first (filter (diet_of 7) (user_current_diet db')) = Some diet
    /\ (exists older,
          diet_calories db'
          = older ++ [DietCalories.mk (UserCurrentDiet.id diet) total]
          /\ incl older (diet_calories sample_store))
    /\ (well_keyed sample_store ->
        map DietCalories.calories
            (filter (total_in (UserCurrentDiet.id diet)) (diet_calories db'))
        = [total]).
Proof.
  apply (get_meals_stores_total sample_selection sample_user sample_store []
                                (UserCalories.mk 1858 7));
    reflexivity.
Defined.

(** ** The invariant of the diet tables *)

Lemma count_app {A : Type} (p : A -> bool) (l1 l2 : list A) :
  count p (l1 ++ l2) = (count p l1 + count p l2)%nat.
Proof. unfold count. now rewrite filter_app, length_app. Qed.

Lemma assembled_meals_diet (k : Z) (s : selection) (m : UserCurrentDietMeals.t) :
  In m (assembled_meals k s) -> UserCurrentDietMeals.user_current_diet_id m = k.
Proof.
  destruct s as [[b l] d]. simpl.
  intros [<- | [<- | [<- | []]]]; reflexivity.
Qed.

Lemma assembled_meals_same (k : Z) (s : selection) :
  filter (meal_in k) (assembled_meals k s) = assembled_meals k s.
Proof.
  destruct s as [[b l] d]. unfold meal_in. simpl. now rewrite Z.eqb_refl.
Qed.

Lemma assembled_meals_other (k k' : Z) (s : selection) :
  k' <> k -> filter (meal_in k') (assembled_meals k s) = [].
Proof.
  intros H. apply filter_none. intros m Hm.
  apply assembled_meals_diet in Hm. unfold meal_in. rewrite Hm.
  now apply Z.eqb_neq.
Qed.

Lemma assembled_meals_length (k : Z) (s : selection) :
  List.length (assembled_meals k s) = 3%nat.
Proof. now destruct s as [[b l] d]. Qed.

Lemma meal_in_exclusive (k k' : Z) :
  k' <> k -> forall r, meal_in k' r = true -> meal_in k r = false.
Proof.
  unfold meal_in. intros H r E. apply Z.eqb_eq in E. apply Z.eqb_neq. lia.
Qed.

Lemma total_in_exclusive (k k' : Z) :
  k' <> k -> forall r, total_in k' r = true -> total_in k r = false.
Proof.
  unfold total_in. intros H r E. apply Z.eqb_eq in E. apply Z.eqb_neq. lia.
Qed.

Lemma calories_of_exclusive (k k' : Z) :
  k' <> k -> forall r, calories_of k' r = true -> calories_of k r = false.
Proof.
  unfold calories_of. intros H r E. apply Z.eqb_eq in E. apply Z.eqb_neq. lia.
Qed.

Lemma consistent_empty : consistent empty_store.
Proof.
  split; [ intros user; cbn; lia | ].
  split; [ intros user; cbn; lia | ].
  split; [ intros diet [] | ].
  split; [ apply NoDup_nil | split; intros ? [] ].
Qed.

Lemma consistent_retargeted (user calories : Z) (db : Store) :
  consistent db -> consistent (retargeted user calories db).
Proof.
  intros (Hc & Hd & Hm & Hk).
  split; [ | split; [ exact Hd | split; [ exact Hm | exact Hk ] ] ].
  intros v. cbn [retargeted user_calories]. rewrite count_app.
  destruct (Z.eq_dec v user) as [-> | Hv].
  - unfold count at 1. rewrite filter_negb_same.
    unfold count, calories_of. simpl. rewrite Z.eqb_refl. simpl. lia.
  - unfold count at 1.
    rewrite (filter_negb_other _ _ _ (calories_of_exclusive user v Hv)).
    specialize (Hc v). unfold count in *.
    unfold calories_of at 2. simpl.
    destruct (Z.eqb_spec user v); [ congruence | simpl; lia ].
Qed.

Lemma consistent_replaced (k : Z) (s : selection) (db : Store) :
  In k (map UserCurrentDiet.id (user_current_diet db)) ->
  consistent db -> consistent (replaced k s db).
Proof.
  intros Hin (Hc & Hd & Hm & Hk).
  split; [ exact Hc | ]. split; [ exact Hd | ]. split.
  - intros k' Hk'. cbn [replaced user_current_diet] in Hk'.
    cbn [replaced user_current_diet_meals diet_calories].
    rewrite !count_app. destruct (Z.eq_dec k' k) as [-> | Hne].
    + unfold count. rewrite !filter_negb_same, assembled_meals_same.
      rewrite assembled_meals_length.
      unfold total_in. simpl. now rewrite Z.eqb_refl.
    + destruct (Hm k' Hk') as [H3 H1]. unfold count in *.
      rewrite (filter_negb_other _ _ _ (meal_in_exclusive k k' Hne)).
      rewrite (filter_negb_other _ _ _ (total_in_exclusive k k' Hne)).
      rewrite (assembled_meals_other _ _ _ Hne), H3, H1.
      unfold total_in at 1. simpl.
      destruct (Z.eqb_spec k k'); [ congruence | now split ].
  - destruct Hk as (Hnd & Hkm & Hkc). split; [ exact Hnd | ].
    cbn [replaced user_current_diet user_current_diet_meals diet_calories].
    split.
    + intros m Hin'. apply in_app_or in Hin'. destruct Hin' as [H | H].
      * apply filter_In in H. now apply Hkm.
      * apply assembled_meals_diet in H. now rewrite H.
    + intros c Hin'. apply in_app_or in Hin'. destruct Hin' as [H | H].
      * apply filter_In in H. now apply Hkc.
      * destruct H as [<- | []]. exact Hin.
Qed.

Lemma consistent_created (user : Z) (s : selection) (db : Store) :
  filter (diet_of user) (user_current_diet db) = [] ->
  consistent db -> consistent (created user s db).
Proof.
  intros Hnone (Hc & Hd & Hm & Hk).
  pose proof (next_id_fresh (user_current_diet db)) as Hfresh.
  pose proof (no_meal_in_next db Hk) as Hnm.
  pose proof (no_total_in_next db Hk) as Hnt.
  set (n := next_id (user_current_diet db)) in *.
  split; [ exact Hc | ]. split; [ | split ].
  - intros v. cbn [created user_current_diet]. rewrite count_app.
    specialize (Hd v). unfold count in *. unfold diet_of at 2. simpl.
    destruct (Z.eqb_spec user v) as [<- | Hne]; simpl; [ | lia ].
    rewrite Hnone. simpl. lia.
  - intros k' Hk'. cbn [created user_current_diet] in Hk'.
    cbn [created user_current_diet_meals diet_calories]. fold n.
    rewrite map_app in Hk'. apply in_app_or in Hk'.
    rewrite !count_app. destruct Hk' as [Hold | [<- | []]].
    + assert (k' <> n) as Hne by (intros ->; contradiction).
      destruct (Hm k' Hold) as [H3 H1]. unfold count in *.
      rewrite (assembled_meals_other _ _ _ Hne), H3, H1.
      unfold total_in at 1. simpl.
      destruct (Z.eqb_spec n k'); [ congruence | now split ].
    + cbn [UserCurrentDiet.id]. fold n. unfold count.
      rewrite Hnm, Hnt, assembled_meals_same.
      rewrite assembled_meals_length.
      unfold total_in. simpl. now rewrite Z.eqb_refl.
  - destruct Hk as (Hnd & Hkm & Hkc).
    unfold well_keyed.
    cbn [created user_current_diet user_current_diet_meals diet_calories].
    fold n. rewrite map_app. simpl. split; [ | split ].
    + apply NoDup_app; [ exact Hnd | repeat constructor; intros [] | ].
      intros x Hx [<- | []]. contradiction.
    + intros m Hin'. apply in_or_app. apply in_app_or in Hin'.
      destruct Hin' as [H | H]; [ left; now apply Hkm | right ].
      apply assembled_meals_diet in H. rewrite H. now left.
    + intros c Hin'. apply in_or_app. apply in_app_or in Hin'.
      destruct Hin' as [H | [<- | []]]; [ left; now apply Hkc | right ].
      now left.
Qed.

Lemma step_consistent (db : Store) (req : request) :
  consistent db -> consistent (step db req).
Proof.
  intros H. destruct req as [u | choose u]; unfold step, persisted_after.
  - destruct (get_calories_effect u db []) as [E | [[e E] | (c & _ & E)]];
      rewrite E; cbn [fst snd]; [ assumption | assumption | ].
    now apply consistent_retargeted.
  - destruct (complete u) eqn:Hc.
    2: { unfold get_meals. now rewrite (account_complete_block _ _ _ _ Hc). }
    destruct (first (filter (calories_of (User.id u)) (user_calories db)))
      as [target |] eqn:Ht.
    2: { now rewrite (get_meals_no_target _ _ _ _ Hc Ht). }
    destruct (first (filter (diet_of (User.id u)) (user_current_diet db)))
      as [diet |] eqn:Hd.
    + rewrite (get_meals_replace _ _ _ _ _ _ Hc Ht Hd). cbn [fst snd].
      apply consistent_replaced; [ | assumption ].
      apply in_map. apply first_some_in in Hd. now apply filter_In in Hd.
    + rewrite (get_meals_create _ _ _ _ _ Hc Ht Hd). cbn [fst snd].
      apply consistent_created; [ | assumption ].
      now apply first_none.
Qed.

Lemma run_consistent (reqs : list request) (db : Store) :
  consistent db -> consistent (run reqs db).
Proof.
  revert db. induction reqs as [| req reqs IH]; intros db H; simpl.
  - assumption.
  - apply IH. now apply step_consistent.
Qed.

Lemma consistent_invariant (db : Store) : consistent db -> diet_invariant db.
Proof.
  intros (Hc & Hd & Hm & _) user.
  split; [ apply Hc | ]. split; [ apply Hd | ].
  intros diet Hin. apply Hm. apply in_map.
  now apply filter_In in Hin.
Qed.

Lemma first_single {A : Type} (rows : list A) (x : A) :
  first rows = Some x -> (List.length rows <= 1)%nat -> rows = [x].
Proof.
  destruct rows as [| y [| z rows]]; simpl; try discriminate.
  - now intros [= ->].
  - lia.
Qed.

(** What one run of the diet replacement leaves for its user. *)
Lemma get_meals_assembles choose u db target :
  consistent db ->
  complete u = true ->
  first (filter (calories_of (User.id u)) (user_calories db)) = Some target ->
  exists diet,
    filter (diet_of (User.id u)) (user_current_diet (step db (GetMeals choose u)))
    = [diet]
    /\ filter (meal_in (UserCurrentDiet.id diet))
              (user_current_diet_meals (step db (GetMeals choose u)))
       = assembled_meals (UserCurrentDiet.id diet) (choose (User.id u))
    /\ user_calories (step db (GetMeals choose u)) = user_calories db.
Proof.
  intros Hcons Hc Ht. unfold step, persisted_after.
  destruct (first (filter (diet_of (User.id u)) (user_current_diet db)))
    as [diet |] eqn:Hd.
  - exists diet. rewrite (get_meals_replace _ _ _ _ _ _ Hc Ht Hd).
    cbn [fst snd replaced user_current_diet user_current_diet_meals
         user_calories].
    split; [ | split; [ | reflexivity ] ].
    + apply first_single; [ assumption | ].
      destruct Hcons as (_ & Hdiets & _). apply Hdiets.
    + now rewrite filter_app, filter_negb_same, assembled_meals_same.
  - exists (UserCurrentDiet.mk (next_id (user_current_diet db)) (User.id u)).
    rewrite (get_meals_create _ _ _ _ _ Hc Ht Hd).
    cbn [fst snd created user_current_diet user_current_diet_meals
         user_calories UserCurrentDiet.id].
    split; [ | split; [ | reflexivity ] ].
    + rewrite filter_app, (first_none _ Hd). unfold diet_of. simpl.
      now rewrite Z.eqb_refl.
    + destruct Hcons as (_ & _ & _ & Hk).
      now rewrite filter_app, (no_meal_in_next _ Hk), assembled_meals_same.
Qed.

(** C3: after any sequence of [/get-calories] and [/get-meals] requests
    the store holds, for every user, at most one calorie target and at most
    one current diet, and every current diet has exactly three meal entries
    and one total.  In particular, when the diet replacement runs twice in
    succession for a user with a complete profile and a calorie target, the
    user has exactly one diet, and its meal entries are the three of the
    second selection and nothing else. *)
Theorem diet_tables_invariant (reqs : list request) :
  diet_invariant (run reqs empty_store)
  /\ forall (u : User.t) (first_choice second_choice : Z -> selection)
            (target : UserCalories.t),
       complete u = true ->
       first (filter (calories_of (User.id u))
                     (user_calories (run reqs empty_store))) = Some target ->
       exists diet,
         let db' :=
           run (reqs ++ [GetMeals first_choice u; GetMeals second_choice u])
               empty_store in
         filter (diet_of (User.id u)) (user_current_diet db') = [diet]
         /\ filter (meal_in (UserCurrentDiet.id diet))
                   (user_current_diet_meals db')
            = assembled_meals (UserCurrentDiet.id diet)
                              (second_choice (User.id u))
         /\ count (meal_in (UserCurrentDiet.id diet))
                  (user_current_diet_meals db') = 3%nat
         /\ count (total_in (UserCurrentDiet.id diet)) (diet_calories db')
            = 1%nat.
Proof.
  pose proof (run_consistent reqs empty_store consistent_empty) as Hcons.
  split; [ now apply consistent_invariant | ].
  intros u c1 c2 target Hc Ht.
  unfold run in *. rewrite fold_left_app. cbn [fold_left].
  set (db := fold_left step reqs empty_store) in *.
  destruct (get_meals_assembles c1 u db target Hcons Hc Ht)
    as (d1 & _ & _ & Hsame).
  pose proof (step_consistent db (GetMeals c1 u) Hcons) as Hcons1.
  rewrite <- Hsame in Ht.
  destruct (get_meals_assembles c2 u _ target Hcons1 Hc Ht)
    as (diet & Hdiet & Hmeals & _).
  exists diet. cbn zeta.
  pose proof (step_consistent _ (GetMeals c2 u) Hcons1) as Hcons2.
  split; [ exact Hdiet | ]. split; [ exact Hmeals | ].
  unfold count at 1. rewrite Hmeals, assembled_meals_length.
  split; [ reflexivity | ].
  destruct Hcons2 as (_ & _ & Hm & _). apply Hm.
  apply in_map.
  assert (In diet [diet]) as Hin by now left.
  rewrite <- Hdiet in Hin. now apply filter_In in Hin.
Qed.

Lemma diet_tables_invariant_witness :
  diet_invariant (run [GetCalories sample_user] empty_store)
  /\ exists diet,
       let db' :=
         run ([GetCalories sample_user]
              ++ [GetMeals sample_selection sample_user;
                  GetMeals other_selection sample_user])
             empty_store in
       filter (diet_of 7) (user_current_diet db') = [diet]
       /\ filter (meal_in (UserCurrentDiet.id diet))
                 (user_current_diet_meals db')
          = assembled_meals (UserCurrentDiet.id diet) (other_selection 7)
       /\ count (meal_in (UserCurrentDiet.id diet))
                (user_current_diet_meals db') = 3%nat
       /\ count (total_in (UserCurrentDiet.id diet)) (diet_calories db')
          = 1%nat.
Proof.
  split.
  - apply (proj1 (diet_tables_invariant [GetCalories sample_user])).
  - apply (proj2 (diet_tables_invariant [GetCalories sample_user])
                 sample_user sample_selection other_selection
                 (UserCalories.mk 1858 7));
      reflexivity.
Defined.

(** ** Missing preconditions *)

Lemma show_calories_no_target now u form_time db msgs :
  complete u = true ->
  first (filter (calories_of (User.id u)) (user_calories db)) = None ->
  serve (show_calories now u form_time) db msgs
  = (Raise (BuildError "show-meals"), db,
     msgs ++ [("Please choose your meals first", "danger")]).
Proof.
  intros Hc Ht. unfold show_calories. rewrite (account_complete_pass _ _ Hc).
  unfold serve, hbind, query. cbn [session]. now rewrite Ht.
Qed.

Lemma save_calories_no_diet now u db msgs :
  complete u = true ->
  first (filter (diet_of (User.id u)) (user_current_diet db)) = None ->
  serve (save_calories now u) db msgs = (Raise AttributeError, db, msgs).
Proof.
  intros Hc Hd. unfold save_calories. rewrite (account_complete_pass _ _ Hc).
  unfold serve, hbind, query. cbn [session]. now rewrite Hd.
Qed.

(** C5, as the code has it: a request of a user with a complete profile
    that hits a missing precondition persists nothing.  [/get-meals] before
    a calorie target exists redirects to [/get-calories] and flashes no
    notice; [/show-calories] before a calorie target exists flashes the
    notice "Please choose your meals first"; [/save-meal] before a current
    diet exists leaves the store as it was. *)
Theorem missing_precondition_persists_nothing
    (now : datetime) (u : User.t) (choose_meals_for_user : Z -> selection)
    (form_time : option string) (db : Store) (msgs : list (string * string)) :
  complete u = true ->
  (first (filter (calories_of (User.id u)) (user_calories db)) = None ->
   serve (get_meals choose_meals_for_user u) db msgs
   = (Ret (Redirect "/get-calories"), db, msgs)
   /\ exists r,
        serve (show_calories now u form_time) db msgs
        = (r, db, msgs ++ [("Please choose your meals first", "danger")]))
  /\ (first (filter (diet_of (User.id u)) (user_current_diet db)) = None ->
      exists r msgs', serve (save_calories now u) db msgs = (r, db, msgs')).
Proof.
  intros Hc. split.
  - intros Ht. split; [ now apply get_meals_no_target | ].
    eexists. now apply show_calories_no_target.
  - intros Hd. do 2 eexists. now apply save_calories_no_diet.
Qed.

Lemma missing_precondition_persists_nothing_witness :
  (serve (get_meals sample_selection sample_user) empty_store []
   = (Ret (Redirect "/get-calories"), empty_store, [])
   /\ exists r,
        serve (show_calories 0 sample_user None) empty_store []
        = (r, empty_store, [] ++ [("Please choose your meals first", "danger")]))
  /\ exists r msgs',
       serve (save_calories 0 sample_user) empty_store [] = (r, empty_store, msgs').
Proof.
  destruct (missing_precondition_persists_nothing
              0 sample_user sample_selection None empty_store [] eq_refl)
    as [Htarget Hdiet].
  split; [ exact (Htarget eq_refl) | exact (Hdiet eq_refl) ].
Defined.

(** C5 as the specification states it fails for each of the three requests
    on the empty store: [/get-meals] redirects without a notice,
    [/show-calories] and [/save-meal] end in an exception. *)
Lemma missing_precondition_counterexample :
  ~ redirects_with_notice empty_store []
      (serve (get_meals sample_selection sample_user) empty_store [])
  /\ ~ redirects_with_notice empty_store []
         (serve (show_calories 0 sample_user None) empty_store [])
  /\ ~ redirects_with_notice empty_store []
         (serve (save_calories 0 sample_user) empty_store []).
Proof.
  split; [ | split ]; intros (location & notice & H).
  - rewrite (get_meals_no_target _ sample_user empty_store [] eq_refl eq_refl) in H.
    discriminate H.
  - rewrite (show_calories_no_target 0 sample_user None empty_store []
                                     eq_refl eq_refl) in H.
    discriminate H.
  - rewrite (save_calories_no_diet 0 sample_user empty_store [] eq_refl eq_refl)
      in H.
    discriminate H.
Qed.

(** ** The history charts *)

(** The cases of a membership in a table of windows. *)
Ltac window H :=
  repeat (destruct H as [H | H]; [ injection H as <- <- | ]); try destruct H.

Lemma show_calories_window now u db msgs target tf days :
  complete u = true ->
  first (filter (calories_of (User.id u)) (user_calories db)) = Some target ->
  In (tf, days) calories_windows ->
  serve (show_calories now u (Some tf)) db msgs
  = match filter (calories_since (User.id u) (now - timedelta days))
                 (user_calories_over_time db) with
    | [] => (Raise (BuildError "show-calories"), db,
             msgs ++ [("You have not entered any calories in this period",
                       "danger")])
    | rows =>
      (calories_chart tf rows (UserCalories.calories target), db, msgs)
    end.
Proof.
  intros Hc Ht Hw. unfold show_calories. rewrite (account_complete_pass _ _ Hc).
  unfold serve, hbind, query. cbn [session]. rewrite Ht.
  unfold calories_windows in Hw.
  window Hw; cbn [String.eqb Ascii.eqb Bool.eqb session];
    unfold ret, lift; cbn [session]; rewrite Ht;
    match goal with
    | |- context [filter ?p ?l] => destruct (filter p l) as [| row rows]
    end;
    try reflexivity;
    unfold calories_chart, bind; cbn [map];
    match goal with
    | |- context [py_round ?x] => destruct (py_round x)
    end; reflexivity.
Qed.

Lemma show_calories_default now u db msgs :
  serve (show_calories now u None) db msgs
  = serve (show_calories now u (Some "1 Week")) db msgs.
Proof.
  unfold show_calories, account_complete.
  match goal with |- context [negb ?b] => destruct b end; [ | reflexivity ].
  cbn [negb]. unfold serve, hbind, query. cbn [session].
  destruct (first (filter (calories_of (User.id u)) (user_calories db)));
    reflexivity.
Qed.

(** C7: a user with a calorie target and no calorie sample in the window
    asks for [/show-calories]: the handler flashes the notice of the empty
    period and then fails to build the URL of its redirect, for which it
    names the endpoint "show-calories" when the view is registered as
    [show_calories]. *)
Theorem show_calories_empty_period
    (now : datetime) (u : User.t) (tf : string) (days : Z) (db : Store)
    (msgs : list (string * string)) (target : UserCalories.t) :
  complete u = true ->
  first (filter (calories_of (User.id u)) (user_calories db)) = Some target ->
  In (tf, days) calories_windows ->
  filter (calories_since (User.id u) (now - timedelta days))
         (user_calories_over_time db) = [] ->
  serve (show_calories now u (Some tf)) db msgs
  = (Raise (BuildError "show-calories"), db,
     msgs ++ [("You have not entered any calories in this period", "danger")])
  /\ url_for "show_calories" = Ret "/show-calories".
Proof.
  intros Hc Ht Hw Hrows.
  rewrite (show_calories_window _ _ _ _ _ _ _ Hc Ht Hw), Hrows.
  now split.
Qed.

Lemma show_calories_empty_period_witness :
  serve (show_calories 63817160700000000 sample_user (Some "1 Week"))
        sample_store []
  = (Raise (BuildError "show-calories"), sample_store,
     [] ++ [("You have not entered any calories in this period", "danger")])
  /\ url_for "show_calories" = Ret "/show-calories".
Proof.
  apply (show_calories_empty_period
           63817160700000000 sample_user "1 Week" 7 sample_store []
           (UserCalories.mk 1858 7));
    [ reflexivity | reflexivity | now left | reflexivity ].
Defined.

Lemma show_weight_window now u db msgs tf days :
  complete u = true ->
  In (tf, days) weight_windows ->
  serve (show_weight now u (Some tf)) db msgs
  = (Ret (weight_chart tf
            (filter (weights_since (User.id u) (now - timedelta days))
                    (user_weight_over_time db))),
     db, msgs).
Proof.
  intros Hc Hw. unfold show_weight. rewrite (account_complete_pass _ _ Hc).
  unfold serve, hbind, query, weight_chart.
  unfold weight_windows, calories_windows in Hw. cbn [app] in Hw.
  window Hw; reflexivity.
Qed.

Lemma show_weight_default now u db msgs :
  serve (show_weight now u None) db msgs
  = serve (show_weight now u (Some "1 Month")) db msgs.
Proof.
  unfold show_weight, account_complete.
  match goal with |- context [negb ?b] => destruct b end; reflexivity.
Qed.

Lemma weights_since_spec user since rows (r : UserWeightOverTime.t) :
  In r (filter (weights_since user since) rows)
  <-> In r rows /\ UserWeightOverTime.user_id r = user
      /\ since <= UserWeightOverTime.created_at r.
Proof.
  rewrite filter_In. unfold weights_since.
  rewrite andb_true_iff, Z.eqb_eq, Z.leb_le. tauto.
Qed.

Lemma calories_since_spec user since rows (r : UserCaloriesOverTime.t) :
  In r (filter (calories_since user since) rows)
  <-> In r rows /\ UserCaloriesOverTime.user_id r = user
      /\ since <= UserCaloriesOverTime.created_at r.
Proof.
  rewrite filter_In. unfold calories_since.
  rewrite andb_true_iff, Z.eqb_eq, Z.leb_le. tauto.
Qed.

Lemma filter_keeps_order {A : Type} (R : A -> A -> Prop) (p : A -> bool)
    (rows : list A) :
  StronglySorted R rows -> StronglySorted R (filter p rows).
Proof.
  induction 1 as [| x rows Hs IH Hx]; simpl; [ constructor | ].
  destruct (p x); [ | assumption ].
  constructor; [ assumption | ].
  rewrite Forall_forall in *. intros y Hy.
  apply Hx. now apply filter_In in Hy.
Qed.

(** C6, as the code has it: for a user with a complete profile and each
    named window (7, 14, 21 and 30 days for 1/2/3 Weeks and 1 Month, and
    for weight also 90, 180 and 365 days for 3/6 Months and 1 Year), the
    history query returns exactly the user's sample rows with
    timestamp >= now - window, in the order in which the store holds them:
    the query sorts nothing, and the rows are ordered by time when the
    stored log is.  [/show-weight] renders them as the parallel sequences of
    month/day labels and values.  [/show-calories] does so when a calorie
    target exists, the window holds a sample and [round] returns on the mean
    of the window's values; when [round] raises on the mean, which it does
    for a mean that is infinite or not a number, the request fails with that
    exception.  Nothing is persisted or flashed in either case.  Without a
    submitted window [/show-weight] takes 1 Month and [/show-calories]
    1 Week. *)
Theorem history_query
    (now : datetime) (u : User.t) (db : Store) (msgs : list (string * string)) :
  complete u = true ->
  (forall tf days,
      In (tf, days) weight_windows ->
      let rows :=
        filter (weights_since (User.id u) (now - days * 86400000000))
               (user_weight_over_time db) in
      serve (show_weight now u (Some tf)) db msgs
      = (Ret (Render_weight_over_time
                tf
                (map (fun r => strftime_md (UserWeightOverTime.created_at r))
                     rows)
                (map UserWeightOverTime.weight rows)),
         db, msgs)
      /\ (forall r,
             In r rows
             <-> In r (user_weight_over_time db)
                 /\ UserWeightOverTime.user_id r = User.id u
                 /\ now - days * 86400000000
                    <= UserWeightOverTime.created_at r)
      /\ (StronglySorted weights_by_time (user_weight_over_time db) ->
          StronglySorted weights_by_time rows))
  /\ (forall tf days target,
         In (tf, days) calories_windows ->
         first (filter (calories_of (User.id u)) (user_calories db))
         = Some target ->
         let rows :=
           filter (calories_since (User.id u) (now - days * 86400000000))
                  (user_calories_over_time db) in
         (rows <> [] ->
          let mean :=
            (py_sum (map UserCaloriesOverTime.calories rows)
             / float_of_len (map UserCaloriesOverTime.calories rows))%float in
          (forall averaged,
              py_round mean = Ret averaged ->
              serve (show_calories now u (Some tf)) db msgs
              = (Ret (Render_calories_over_time
                        tf
                        (map (fun r =>
                                strftime_md (UserCaloriesOverTime.created_at r))
                             rows)
                        (map UserCaloriesOverTime.calories rows)
                        (UserCalories.calories target) averaged),
                 db, msgs))
          /\ (forall e,
                 py_round mean = Raise e ->
                 (e = ValueError \/ e = OverflowError)
                 /\ serve (show_calories now u (Some tf)) db msgs
                    = (Raise e, db, msgs)))
         /\ (forall r,
                In r rows
                <-> In r (user_calories_over_time db)
                    /\ UserCaloriesOverTime.user_id r = User.id u
                    /\ now - days * 86400000000
                       <= UserCaloriesOverTime.created_at r)
         /\ (StronglySorted calories_by_time (user_calories_over_time db) ->
             StronglySorted calories_by_time rows))
  /\ serve (show_weight now u None) db msgs
     = serve (show_weight now u (Some "1 Month")) db msgs
  /\ serve (show_calories now u None) db msgs
     = serve (show_calories now u (Some "1 Week")) db msgs.
Proof.
  intros Hc. split; [ | split; [ | split ] ].
  - intros tf days Hw rows. split; [ | split ].
    + now rewrite (show_weight_window _ _ _ _ _ _ Hc Hw).
    + intros r. apply weights_since_spec.
    + apply filter_keeps_order.
  - intros tf days target Hw Ht rows. split; [ | split ].
    + intros Hrows mean.
      rewrite (show_calories_window _ _ _ _ _ _ _ Hc Ht Hw).
      fold (timedelta days). unfold timedelta. fold rows.
      destruct rows as [| row rows']; [ congruence | ].
      unfold calories_chart, bind. fold mean. split.
      * intros averaged ->. reflexivity.
      * intros e He. rewrite He. split; [ | reflexivity ].
        unfold py_round in He.
        destruct (Prim2SF mean); cbn in He; try discriminate He;
          injection He as <-; auto.
    + intros r. apply calories_since_spec.
    + apply filter_keeps_order.
  - apply show_weight_default.
  - apply show_calories_default.
Qed.

Lemma history_query_witness :
  serve (show_weight mid_april sample_user (Some "3 Months")) unordered_store []
  = (Ret (Render_weight_over_time "3 Months" ["04/15"; "04/10"]
                                  [Some 62%float; Some 63%float]),
     unordered_store, [])
  /\ serve (show_calories mid_april sample_user (Some "2 Weeks")) logged_store []
     = (Ret (Render_calories_over_time "2 Weeks" ["04/10"; "04/15"]
                                       [1700%float; 1900%float] 1858 1800),
        logged_store, []).
Proof.
  split.
  - destruct (history_query mid_april sample_user unordered_store [] eq_refl)
      as (Hweight & _).
    destruct (Hweight "3 Months" 90) as (E & _).
    + do 4 right. now left.
    + exact E.
  - destruct (history_query mid_april sample_user logged_store [] eq_refl)
      as (_ & Hcalories & _).
    destruct (Hcalories "2 Weeks" 14 (UserCalories.mk 1858 7)) as (E & _).
    + right. now left.
    + reflexivity.
    + destruct E as [Hreturns _]; [ discriminate | ].
      apply Hreturns. reflexivity.
Defined.

(** C6 as the specification states it fails on a log that the store does
    not hold in the order of its timestamps: the rows of the window come
    back in stored order, the later sample first. *)
Lemma history_query_counterexample :
  serve (show_weight mid_april sample_user (Some "1 Week")) unordered_store []
  = (Ret (Render_weight_over_time "1 Week" ["04/15"; "04/10"]
                                  [Some 62%float; Some 63%float]),
     unordered_store, [])
  /\ ~ StronglySorted weights_by_time
         (filter (weights_since 7 (mid_april - timedelta 7))
                 (user_weight_over_time unordered_store)).
Proof.
  split; [ reflexivity | ].
  cbn. intros H. inversion H as [| x rows _ Hall]; subst.
  inversion Hall as [| y rest Hle _]; subst.
  unfold weights_by_time in Hle. cbn in Hle. lia.
Qed.

(** A mean that [round] refuses: the total of a selection can overflow to
    an infinity, [/save-meal] logs it, and [/show-calories] then fails at
    the rounding of the mean. *)
Example show_calories_infinite_mean :
  serve (show_calories mid_april sample_user None)
        (persisted_after
           (save_calories 63817160700000000 sample_user)
           (persisted_after (get_meals huge_selection sample_user)
                            sample_store)) []
  = (Raise OverflowError,
     persisted_after
       (save_calories 63817160700000000 sample_user)
       (persisted_after (get_meals huge_selection sample_user) sample_store),
     []).
Proof. reflexivity. Qed.

(** ** Password reset *)

(** A token that verifies and a submitted password do change the password
    of the user, and of no other row. *)
Example reset_token_valid :
  serve (reset_token sample_verify sample_hash None "fresh" (Some "s3cret"))
        sample_store []
  = (Ret (Redirect "/login"),
     set_users (fun _ => [with_password sample_user "$2b$s3cret"]) sample_store,
     [("Your password has been updated! You are now able to log in",
       "success")]).
Proof. reflexivity. Qed.

(** C8, as the code has it: for a token whose verification yields no user,
    the handler answers an anonymous client with the notice "That is an
    invalid or expired token" and a redirect to the reset-request page; a
    client that is logged in is redirected to the index before the token is
    looked at, without a notice.  In both cases the store, and with it every
    password, is left as it was. *)
Theorem reset_token_rejects
    (verify_reset_token : Store -> string -> option User.t)
    (generate_password_hash : string -> string)
    (token : string) (form_password : option string)
    (db : Store) (msgs : list (string * string)) :
  (verify_reset_token db token = None ->
   serve (reset_token verify_reset_token generate_password_hash None token
                      form_password) db msgs
   = (Ret (Redirect "/reset-password"), db,
      msgs ++ [("That is an invalid or expired token", "warning")]))
  /\ (forall current_user,
         serve (reset_token verify_reset_token generate_password_hash
                            (Some current_user) token form_password) db msgs
         = (Ret (Redirect "/"), db, msgs)).
Proof.
  split.
  - intros Hnone. unfold reset_token, serve, hbind. cbn [session].
    now rewrite Hnone.
  - intros current_user. reflexivity.
Qed.

Lemma reset_token_rejects_witness :
  serve (reset_token sample_verify sample_hash None "stale" (Some "s3cret"))
        sample_store []
  = (Ret (Redirect "/reset-password"), sample_store,
     [] ++ [("That is an invalid or expired token", "warning")]).
Proof.
  apply (proj1 (reset_token_rejects sample_verify sample_hash "stale"
                                    (Some "s3cret") sample_store [])).
  reflexivity.
Defined.

(** C8 as the specification states it fails for a client that is logged in:
    the token "stale" verifies to no user, and the handler redirects to the
    index with no notice instead of the reset-request page. *)
Lemma reset_token_counterexample :
  sample_verify sample_store "stale" = None
  /\ serve (reset_token sample_verify sample_hash (Some sample_user) "stale"
                        None) sample_store []
     = (Ret (Redirect "/"), sample_store, [])
  /\ ~ (exists notice,
           serve (reset_token sample_verify sample_hash (Some sample_user)
                              "stale" None) sample_store []
           = (Ret (Redirect "/reset-password"), sample_store, [notice])).
Proof.
  split; [ reflexivity | ]. split; [ reflexivity | ].
  intros (notice & H). discriminate H.
Qed.

(** ** The weight history *)

Lemma account_writes files now u form db msgs picture_file :
  save_form_picture files form = Ret picture_file ->
  serve (account files now u (POST form true)) db msgs
  = (Ret (Redirect "/get-calories"),
     mkStore (rewritten (updated u form picture_file) (users db))
             (user_calories db) (user_current_diet db)
             (user_current_diet_meals db) (diet_calories db)
             (user_weight_over_time db
              ++ (if float_ne (User.weight u) (UpdateAccountForm.weight form)
                  then [UserWeightOverTime.mk
                          (User.id u) (Some (UpdateAccountForm.weight form))
                          now]
                  else []))
             (user_calories_over_time db),
     msgs ++ [("Your account has been updated!", "success")]).
Proof.
  intros Hp. unfold account, serve, hbind, lift. rewrite Hp. cbn [session].
  destruct (float_ne (User.weight u) (UpdateAccountForm.weight form));
    cbn; rewrite ?app_nil_r; reflexivity.
Qed.

Lemma account_fails files now u form db msgs e :
  save_form_picture files form = Raise e ->
  serve (account files now u (POST form true)) db msgs = (Raise e, db, msgs).
Proof.
  intros Hp. unfold account, serve, hbind, lift. now rewrite Hp.
Qed.

(** C10, as the code has it: a valid POST to [/account] whose upload, if
    there is one, [save_picture] stores without raising appends one row to
    the weight history, with the submitted weight, exactly when the
    submitted weight differs (Python's [!=]) from the weight stored for the
    user; otherwise, whatever else the form changes, the weight history is
    left as it was, and the targets, the diet tables and the calorie log are
    untouched either way.  A valid POST whose upload makes [save_picture]
    raise fails with that exception before anything is written: nothing is
    persisted and nothing is flashed.  A form without an upload never fails
    in this way. *)
Theorem account_weight_history
    (files : Files.t) (now : datetime) (u : User.t)
    (form : UpdateAccountForm.t) (db : Store) (msgs : list (string * string)) :
  (forall picture_file,
      save_form_picture files form = Ret picture_file ->
      let db' :=
        snd (fst (serve (account files now u (POST form true)) db msgs)) in
      user_weight_over_time db'
      = user_weight_over_time db
        ++ (if float_ne (User.weight u) (UpdateAccountForm.weight form)
            then [UserWeightOverTime.mk
                    (User.id u) (Some (UpdateAccountForm.weight form)) now]
            else [])
      /\ user_calories db' = user_calories db
      /\ user_current_diet db' = user_current_diet db
      /\ user_current_diet_meals db' = user_current_diet_meals db
      /\ diet_calories db' = diet_calories db
      /\ user_calories_over_time db' = user_calories_over_time db)
  /\ (forall e,
         save_form_picture files form = Raise e ->
         serve (account files now u (POST form true)) db msgs
         = (Raise e, db, msgs))
  /\ (UpdateAccountForm.picture form = None ->
      save_form_picture files form = Ret None).
Proof.
  split; [ | split ].
  - intros picture_file Hp db'. unfold db'.
    rewrite (account_writes _ _ _ _ _ _ _ Hp). cbn. repeat split.
  - intros e He. now apply account_fails.
  - intros Hnone. unfold save_form_picture. now rewrite Hnone.
Qed.

Lemma account_weight_history_witness :
  user_weight_over_time
    (snd (fst (serve (account sample_files mid_april sample_user
                              (POST lighter_form true))
                     sample_store [])))
  = [] ++ [UserWeightOverTime.mk 7 (Some 60.5%float) mid_april]
  /\ user_weight_over_time
       (snd (fst (serve (account sample_files mid_april sample_user
                                 (POST renamed_form true))
                        sample_store [])))
     = [] ++ []
  /\ serve (account sample_files mid_april sample_user (POST refused_form true))
           sample_store []
     = (Raise ValueError, sample_store, []).
Proof.
  destruct (account_weight_history sample_files mid_april sample_user
                                   lighter_form sample_store [])
    as (Hlighter & _ & _).
  destruct (account_weight_history sample_files mid_april sample_user
                                   renamed_form sample_store [])
    as (Hrenamed & _ & _).
  destruct (account_weight_history sample_files mid_april sample_user
                                   refused_form sample_store [])
    as (_ & Hrefused & _).
  split; [ | split ].
  - exact (proj1 (Hlighter None eq_refl)).
  - exact (proj1 (Hrenamed (Some "0f3a9c1e5b7d2468.png") eq_refl)).
  - exact (Hrefused ValueError eq_refl).
Defined.

(** C10 as the specification states it fails for a valid POST whose upload
    the imaging library refuses: the submitted weight 60.5 differs from the
    stored 62, and the request ends in the exception of [save_picture]
    with no sample appended. *)
Lemma account_weight_history_counterexample :
  float_ne (User.weight sample_user) (UpdateAccountForm.weight refused_form)
  = true
  /\ serve (account sample_files mid_april sample_user (POST refused_form true))
           sample_store []
     = (Raise ValueError, sample_store, [])
  /\ user_weight_over_time
       (snd (fst (serve (account sample_files mid_april sample_user
                                 (POST refused_form true))
                        sample_store [])))
     = user_weight_over_time sample_store.
Proof. repeat split. Qed.

(** * Further properties of the routes *)

(** ** Routes that only read *)

Lemma read_only_ret {A : Type} (a : A) : read_only (ret a).
Proof. intros w. reflexivity. Qed.

Lemma read_only_lift {A : Type} (r : result A) : read_only (lift r).
Proof. intros w. reflexivity. Qed.

Lemma read_only_query {A : Type} (table : Store -> list A) (p : A -> bool) :
  read_only (query table p).
Proof. intros w. reflexivity. Qed.

Lemma read_only_flash (message category : string) :
  read_only (flash message category).
Proof. intros w. reflexivity. Qed.

Lemma read_only_hbind {A B : Type} (h : handler A) (k : A -> handler B) :
  read_only h -> (forall a, read_only (k a)) -> read_only (hbind h k).
Proof.
  intros Hh Hk w. unfold hbind. specialize (Hh w).
  destruct (h w) as [[a | e] w']; cbn [snd] in *.
  - now rewrite (Hk a w').
  - assumption.
Qed.

Lemma read_only_redirect (location : result string) :
  read_only (redirect location).
Proof.
  apply read_only_hbind; [ apply read_only_lift | intros; apply read_only_ret ].
Qed.

Lemma read_only_redirect_page (location : result string) :
  read_only (redirect_page location).
Proof.
  apply read_only_hbind;
    [ apply read_only_redirect | intros; apply read_only_ret ].
Qed.

Lemma read_only_serve {A : Type} (h : handler A) (db : Store)
    (msgs : list (string * string)) :
  read_only h -> snd (fst (serve h db msgs)) = db.
Proof.
  intros H. unfold serve. specialize (H (mkWorld db db msgs)).
  now destruct (h (mkWorld db db msgs)).
Qed.

Create HintDb reading.
#[local] Hint Resolve read_only_ret read_only_lift read_only_query
  read_only_flash read_only_redirect read_only_redirect_page : reading.

(** A handler made of reads, flashes and redirects, branch by branch. *)
Ltac reads :=
  repeat first
    [ progress auto with reading
    | apply read_only_hbind; [ | intros ? ]
    | match goal with
      | |- read_only (match ?x with _ => _ end) => destruct x
      | |- read_only (if ?b then _ else _) => destruct b
      end ].

Lemma read_only_show_weight now u form_time :
  read_only (show_weight now u form_time).
Proof. unfold show_weight, account_complete. reads. Qed.

Lemma read_only_show_calories now u form_time :
  read_only (show_calories now u form_time).
Proof. unfold show_calories, account_complete. reads. Qed.

Lemma read_only_show_meals catalog labels u :
  read_only (show_meals catalog labels u).
Proof. unfold show_meals, account_complete_page. reads. Qed.

Lemma read_only_login check cu form next :
  read_only (login check cu form next).
Proof. unfold login. reads. Qed.

Lemma read_only_reset_request token server cu email :
  read_only (reset_request token server cu email).
Proof. unfold reset_request. reads. Qed.

(** X1: the routes [/show-meals], [/show-calories], [/show-weight], [/login]
    and [/reset-password] never change the persisted store, whatever the
    request and whether they render, redirect or fail. *)
Theorem reading_routes_persist_nothing (db : Store) (msgs : list (string * string)) :
  (forall catalog labels u,
      snd (fst (serve (show_meals catalog labels u) db msgs)) = db)
  /\ (forall now u form_time,
         snd (fst (serve (show_calories now u form_time) db msgs)) = db)
  /\ (forall now u form_time,
         snd (fst (serve (show_weight now u form_time) db msgs)) = db)
  /\ (forall check cu form next,
         snd (fst (serve (login check cu form next) db msgs)) = db)
  /\ (forall token server cu email,
         snd (fst (serve (reset_request token server cu email) db msgs)) = db).
Proof.
  repeat split; intros; apply read_only_serve.
  - apply read_only_show_meals.
  - apply read_only_show_calories.
  - apply read_only_show_weight.
  - apply read_only_login.
  - apply read_only_reset_request.
Qed.

(** ** The calorie target *)

Lemma get_calories_stores u db msgs calories :
  complete u = true ->
  calculate_calories u = Ret calories ->
  serve (get_calories u) db msgs
  = (Ret (Render_get_calories calories), retargeted (User.id u) calories db,
     msgs).
Proof.
  intros Hc Hcal. unfold get_calories.
  rewrite (account_complete_pass _ _ Hc).
  unfold serve, hbind, lift, query. cbn [session]. rewrite Hcal.
  unfold retargeted.
  destruct (first (filter (calories_of (User.id u)) (user_calories db))) eqn:E;
    cbn; [ reflexivity | ].
  apply first_none in E. now rewrite (filter_nil_negb _ _ E).
Qed.

Lemma filter_negb_idem {A : Type} (p : A -> bool) (rows : list A) :
  filter (fun r => negb (p r)) (filter (fun r => negb (p r)) rows)
  = filter (fun r => negb (p r)) rows.
Proof.
  induction rows as [| x rows IH]; simpl; [ reflexivity | ].
  destruct (p x) eqn:E; simpl; [ assumption | ].
  now rewrite E, IH.
Qed.

(** X2: a [/get-calories] that computes a target leaves it as the only
    target of the user, however many rows the user had before; the targets
    of every other user and all other tables stay as they were. *)
Theorem get_calories_single_target
    (u : User.t) (db : Store) (msgs : list (string * string)) (calories : Z) :
  complete u = true ->
  calculate_calories u = Ret calories ->
  let db' := snd (fst (serve (get_calories u) db msgs)) in
  filter (calories_of (User.id u)) (user_calories db')
  = [UserCalories.mk calories (User.id u)]
  /\ (forall other,
         other <> User.id u ->
         filter (calories_of other) (user_calories db')
         = filter (calories_of other) (user_calories db))
  /\ users db' = users db
  /\ user_current_diet db' = user_current_diet db
  /\ user_current_diet_meals db' = user_current_diet_meals db
  /\ diet_calories db' = diet_calories db
  /\ user_weight_over_time db' = user_weight_over_time db
  /\ user_calories_over_time db' = user_calories_over_time db.
Proof.
  intros Hc Hcal. rewrite (get_calories_stores _ db msgs _ Hc Hcal).
  cbn [fst snd retargeted users user_calories user_current_diet
       user_current_diet_meals diet_calories user_weight_over_time
       user_calories_over_time].
  split; [ | split; [ | repeat split ] ].
  - rewrite filter_app, filter_negb_same. cbn.
    unfold calories_of. cbn. now rewrite Z.eqb_refl.
  - intros other Hne. rewrite filter_app.
    rewrite (filter_negb_other _ _ _ (calories_of_exclusive _ _ Hne)).
    cbn. unfold calories_of at 2. cbn.
    destruct (Z.eqb_spec (User.id u) other); [ congruence | ].
    apply app_nil_r.
Qed.

Lemma get_calories_single_target_witness :
  let db' :=
    snd (fst (serve (get_calories sample_user)
                    (set_user_calories
                       (fun _ => [UserCalories.mk 1700 7; UserCalories.mk 2100 3;
                                  UserCalories.mk 1750 7])
                       empty_store) [])) in
  filter (calories_of 7) (user_calories db') = [UserCalories.mk 1858 7]
  /\ (forall other,
         other <> 7 ->
         filter (calories_of other) (user_calories db')
         = filter (calories_of other)
                  [UserCalories.mk 1700 7; UserCalories.mk 2100 3;
                   UserCalories.mk 1750 7])
  /\ users db' = []
  /\ user_current_diet db' = []
  /\ user_current_diet_meals db' = []
  /\ diet_calories db' = []
  /\ user_weight_over_time db' = []
  /\ user_calories_over_time db' = [].
Proof.
  apply (get_calories_single_target
           sample_user
           (set_user_calories
              (fun _ => [UserCalories.mk 1700 7; UserCalories.mk 2100 3;
                         UserCalories.mk 1750 7])
              empty_store) [] 1858);
    reflexivity.
Defined.

(** ** Repeating a recomputation *)

Lemma assembled_meals_removed (k : Z) (s : selection) :
  filter (fun r => negb (meal_in k r)) (assembled_meals k s) = [].
Proof.
  apply filter_none. intros m Hm. apply assembled_meals_diet in Hm.
  unfold meal_in. rewrite Hm, Z.eqb_refl. reflexivity.
Qed.

Lemma retargeted_idem (user calories : Z) (db : Store) :
  retargeted user calories (retargeted user calories db)
  = retargeted user calories db.
Proof.
  unfold retargeted. cbn. f_equal.
  rewrite filter_app, filter_negb_idem. cbn.
  unfold calories_of at 2. cbn. rewrite Z.eqb_refl. cbn.
  now rewrite app_nil_r.
Qed.

Lemma replaced_idem (k : Z) (s : selection) (db : Store) :
  replaced k s (replaced k s db) = replaced k s db.
Proof.
  unfold replaced. cbn. f_equal.
  - now rewrite filter_app, filter_negb_idem, assembled_meals_removed,
      app_nil_r.
  - rewrite filter_app, filter_negb_idem. cbn.
    unfold total_in at 2. cbn. rewrite Z.eqb_refl. cbn.
    now rewrite app_nil_r.
Qed.

Lemma replaced_created (user : Z) (s : selection) (db : Store) :
  well_keyed db ->
  replaced (next_id (user_current_diet db)) s (created user s db)
  = created user s db.
Proof.
  intros Hk. unfold replaced, created. cbn. f_equal.
  - rewrite filter_app, assembled_meals_removed, app_nil_r.
    now rewrite (filter_nil_negb _ _ (no_meal_in_next db Hk)).
  - rewrite filter_app. cbn.
    unfold total_in at 2. cbn. rewrite Z.eqb_refl. cbn.
    now rewrite app_nil_r, (filter_nil_negb _ _ (no_total_in_next db Hk)).
Qed.

(** X3: both recomputations are idempotent for a user with a complete
    profile.  A second [/get-calories] for the same profile leaves the store
    of the first; and, on a store whose entries and totals belong to diets of
    the table, a second [/get-meals] with the same selection leaves the
    store of the first, whether the first created the diet or replaced its
    entries. *)
Theorem recomputation_idempotent
    (u : User.t) (choose_meals_for_user : Z -> selection) (db : Store) :
  complete u = true ->
  (forall calories,
      calculate_calories u = Ret calories ->
      persisted_after (get_calories u) (persisted_after (get_calories u) db)
      = persisted_after (get_calories u) db)
  /\ (forall target,
         first (filter (calories_of (User.id u)) (user_calories db))
         = Some target ->
         well_keyed db ->
         persisted_after (get_meals choose_meals_for_user u)
           (persisted_after (get_meals choose_meals_for_user u) db)
         = persisted_after (get_meals choose_meals_for_user u) db).
Proof.
  intros Hc. unfold persisted_after. split.
  - intros calories Hcal.
    rewrite !(get_calories_stores _ _ _ _ Hc Hcal). cbn [fst snd].
    apply retargeted_idem.
  - intros target Ht Hk.
    destruct (first (filter (diet_of (User.id u)) (user_current_diet db)))
      as [diet |] eqn:Hd.
    + rewrite (get_meals_replace _ _ db _ _ _ Hc Ht Hd). cbn [fst snd].
      rewrite (get_meals_replace _ _ _ _ target diet Hc); cbn [fst snd];
        [ apply replaced_idem | exact Ht | exact Hd ].
    + rewrite (get_meals_create _ _ db _ _ Hc Ht Hd). cbn [fst snd].
      rewrite (get_meals_replace
                 _ _ _ _ target
                 (UserCurrentDiet.mk (next_id (user_current_diet db))
                                     (User.id u)) Hc);
        cbn [fst snd UserCurrentDiet.id].
      * now apply replaced_created.
      * exact Ht.
      * cbn [created user_current_diet].
        rewrite filter_app, (first_none _ Hd). cbn.
        unfold diet_of. cbn. now rewrite Z.eqb_refl.
Qed.

Lemma recomputation_idempotent_witness :
  persisted_after (get_calories sample_user)
                  (persisted_after (get_calories sample_user) empty_store)
  = persisted_after (get_calories sample_user) empty_store
  /\ persisted_after (get_meals sample_selection sample_user)
       (persisted_after (get_meals sample_selection sample_user) sample_store)
     = persisted_after (get_meals sample_selection sample_user) sample_store.
Proof.
  destruct (recomputation_idempotent sample_user sample_selection empty_store
                                     eq_refl) as [Hcal _].
  destruct (recomputation_idempotent sample_user sample_selection sample_store
                                     eq_refl) as [_ Hmeals].
  split.
  - exact (Hcal 1858 eq_refl).
  - apply (Hmeals (UserCalories.mk 1858 7) eq_refl).
    repeat split; [ constructor | intros ? [] | intros ? [] ].
Defined.

(** ** The current diet, shown and logged *)

Lemma get_meals_leaves choose u db target :
  complete u = true ->
  first (filter (calories_of (User.id u)) (user_calories db)) = Some target ->
  well_keyed db ->
  exists diet,
    first (filter (diet_of (User.id u))
                  (user_current_diet (persisted_after (get_meals choose u) db)))
    = Some diet
    /\ filter (meal_in (UserCurrentDiet.id diet))
              (user_current_diet_meals (persisted_after (get_meals choose u) db))
       = assembled_meals (UserCurrentDiet.id diet) (choose (User.id u))
    /\ filter (total_in (UserCurrentDiet.id diet))
              (diet_calories (persisted_after (get_meals choose u) db))
       = [DietCalories.mk (UserCurrentDiet.id diet)
                          (diet_total (choose (User.id u)))].
Proof.
  intros Hc Ht Hk. unfold persisted_after.
  destruct (first (filter (diet_of (User.id u)) (user_current_diet db)))
    as [diet |] eqn:Hd.
  - exists diet. rewrite (get_meals_replace _ _ _ _ _ _ Hc Ht Hd).
    cbn [fst snd replaced user_current_diet user_current_diet_meals
         diet_calories].
    split; [ assumption | split ].
    + now rewrite filter_app, filter_negb_same, assembled_meals_same.
    + rewrite filter_app, filter_negb_same. cbn.
      unfold total_in. cbn. now rewrite Z.eqb_refl.
  - exists (UserCurrentDiet.mk (next_id (user_current_diet db)) (User.id u)).
    rewrite (get_meals_create _ _ _ _ _ Hc Ht Hd).
    cbn [fst snd created user_current_diet user_current_diet_meals
         diet_calories UserCurrentDiet.id].
    split; [ | split ].
    + rewrite filter_app, (first_none _ Hd). cbn.
      unfold diet_of. cbn. now rewrite Z.eqb_refl.
    + now rewrite filter_app, (no_meal_in_next _ Hk), assembled_meals_same.
    + rewrite filter_app, (no_total_in_next _ Hk). cbn.
      unfold total_in. cbn. now rewrite Z.eqb_refl.
Qed.

Lemma save_calories_logs now u db msgs diet total :
  complete u = true ->
  first (filter (diet_of (User.id u)) (user_current_diet db)) = Some diet ->
  first (filter (total_in (UserCurrentDiet.id diet)) (diet_calories db))
  = Some total ->
  serve (save_calories now u) db msgs
  = (Ret (Redirect "/"),
     set_user_calories_over_time
       (fun rows =>
          rows ++ [UserCaloriesOverTime.mk (DietCalories.calories total)
                                           (User.id u) now])
       db,
     msgs ++ [("You chose a great meal plan for today!", "success")]).
Proof.
  intros Hc Hd Ht. unfold save_calories.
  rewrite (account_complete_pass _ _ Hc).
  unfold serve, hbind, query. cbn [session]. rewrite Hd.
  cbn [session]. now rewrite Ht.
Qed.

(** X4: for a user with a complete profile and a calorie target, on a store
    whose entries and totals belong to diets of the table, [/get-meals]
    followed by [/save-meal] appends to the calorie log one sample, stamped
    with the clock of the second request, whose calories are the total of
    the selection that [/get-meals] was given; [/save-meal] changes nothing
    else, flashes its notice and redirects to the index. *)
Theorem get_meals_then_save_meal
    (now : datetime) (u : User.t) (choose_meals_for_user : Z -> selection)
    (db : Store) (msgs : list (string * string)) (target : UserCalories.t) :
  complete u = true ->
  first (filter (calories_of (User.id u)) (user_calories db)) = Some target ->
  well_keyed db ->
  let assembled := persisted_after (get_meals choose_meals_for_user u) db in
  serve (save_calories now u) assembled msgs
  = (Ret (Redirect "/"),
     mkStore (users assembled) (user_calories assembled)
             (user_current_diet assembled) (user_current_diet_meals assembled)
             (diet_calories assembled) (user_weight_over_time assembled)
             (user_calories_over_time db
              ++ [UserCaloriesOverTime.mk
                    (diet_total (choose_meals_for_user (User.id u)))
                    (User.id u) now]),
     msgs ++ [("You chose a great meal plan for today!", "success")]).
Proof.
  intros Hc Ht Hk assembled.
  destruct (get_meals_leaves choose_meals_for_user u db target Hc Ht Hk)
    as (diet & Hd & _ & Htotal).
  fold assembled in Hd, Htotal.
  rewrite (save_calories_logs now u assembled msgs diet
             (DietCalories.mk (UserCurrentDiet.id diet)
                (diet_total (choose_meals_for_user (User.id u)))) Hc Hd).
  2: { now rewrite Htotal. }
  unfold set_user_calories_over_time. cbn [DietCalories.calories].
  do 3 f_equal.
  unfold assembled, persisted_after.
  destruct (first (filter (diet_of (User.id u)) (user_current_diet db)))
    as [d |] eqn:Hd0.
  - now rewrite (get_meals_replace _ _ _ _ _ _ Hc Ht Hd0).
  - now rewrite (get_meals_create _ _ _ _ _ Hc Ht Hd0).
Qed.

Lemma get_meals_then_save_meal_witness :
  let assembled :=
    persisted_after (get_meals sample_selection sample_user) sample_store in
  serve (save_calories mid_april sample_user) assembled []
  = (Ret (Redirect "/"),
     mkStore (users assembled) (user_calories assembled)
             (user_current_diet assembled) (user_current_diet_meals assembled)
             (diet_calories assembled) (user_weight_over_time assembled)
             (user_calories_over_time sample_store
              ++ [UserCaloriesOverTime.mk (diet_total (sample_selection 7))
                                          7 mid_april]),
     [] ++ [("You chose a great meal plan for today!", "success")]).
Proof.
  apply (get_meals_then_save_meal mid_april sample_user sample_selection
                                  sample_store [] (UserCalories.mk 1858 7));
    [ reflexivity | reflexivity | ].
  repeat split; [ constructor | intros ? [] | intros ? [] ].
Defined.

Lemma show_meals_loop_labelled catalog labels entries :
  (forall e, In e entries -> catalog_label labels e <> None) ->
  exists ls,
    map Some ls = map (catalog_label labels) entries
    /\ show_meals_loop catalog labels entries
       = Ret (map (catalog_meal catalog) entries,
              map UserCurrentDietMeals.serving_size entries, ls).
Proof.
  induction entries as [| e entries IH]; intros Hall.
  - exists []. now split.
  - destruct IH as (ls & Hls & Hloop).
    { intros e' He'. apply Hall. now right. }
    assert (catalog_label labels e <> None) as He by (apply Hall; now left).
    unfold catalog_label in He. cbn [show_meals_loop].
    destruct (first (filter _ labels)) as [label |] eqn:El; [ | congruence ].
    exists (label :: ls). split.
    + cbn [map]. unfold catalog_label at 1. now rewrite El, Hls.
    + now rewrite Hloop.
Qed.

Lemma show_meals_loop_unlabelled catalog labels entries :
  (exists e, In e entries /\ catalog_label labels e = None) ->
  show_meals_loop catalog labels entries = Raise AttributeError.
Proof.
  induction entries as [| e entries IH]; intros (e' & Hin & Hnone).
  - destruct Hin.
  - cbn [show_meals_loop]. fold (catalog_label labels e).
    destruct (catalog_label labels e) as [label |] eqn:El.
    + destruct Hin as [-> | Hin]; [ congruence | ].
      rewrite IH; [ reflexivity | eauto ].
    + reflexivity.
Qed.

Lemma account_complete_page_pass (u : User.t) (f : handler page) :
  complete u = true -> account_complete_page u f = f.
Proof. unfold complete, account_complete_page. now intros ->. Qed.

Lemma show_meals_renders catalog labels u db msgs diet :
  complete u = true ->
  first (filter (diet_of (User.id u)) (user_current_diet db)) = Some diet ->
  (forall e,
      In e (filter (meal_in (UserCurrentDiet.id diet))
                   (user_current_diet_meals db)) ->
      catalog_label labels e <> None) ->
  exists ls,
    map Some ls
    = map (catalog_label labels)
          (filter (meal_in (UserCurrentDiet.id diet))
                  (user_current_diet_meals db))
    /\ serve (show_meals catalog labels u) db msgs
       = (Ret (Render_show_meals
                 (map (catalog_meal catalog)
                      (filter (meal_in (UserCurrentDiet.id diet))
                              (user_current_diet_meals db)))
                 (first (filter (total_in (UserCurrentDiet.id diet))
                                (diet_calories db)))
                 (map UserCurrentDietMeals.serving_size
                      (filter (meal_in (UserCurrentDiet.id diet))
                              (user_current_diet_meals db)))
                 ls),
          db, msgs).
Proof.
  intros Hc Hd Hall.
  destruct (show_meals_loop_labelled catalog labels _ Hall) as (ls & Hls & Hloop).
  exists ls. split; [ exact Hls | ].
  unfold show_meals. rewrite (account_complete_page_pass _ _ Hc).
  unfold serve, hbind, query, lift. cbn [session]. rewrite Hd.
  cbn [session]. now rewrite Hloop.
Qed.

Lemma show_meals_fails catalog labels u db msgs diet :
  complete u = true ->
  first (filter (diet_of (User.id u)) (user_current_diet db)) = Some diet ->
  (exists e,
      In e (filter (meal_in (UserCurrentDiet.id diet))
                   (user_current_diet_meals db))
      /\ catalog_label labels e = None) ->
  serve (show_meals catalog labels u) db msgs = (Raise AttributeError, db, msgs).
Proof.
  intros Hc Hd Hex.
  unfold show_meals. rewrite (account_complete_page_pass _ _ Hc).
  unfold serve, hbind, query, lift. cbn [session]. rewrite Hd.
  cbn [session]. now rewrite (show_meals_loop_unlabelled _ _ _ Hex).
Qed.

(** X5: [/show-meals] for a user with a complete profile.  Without a
    current diet it redirects to [/get-meals].  With one, it renders the
    meals, serving sizes and labels of the diet's entries as three parallel
    lists in the order of the entries, with the first total of the diet, as
    long as the catalog has a label for the meal of every entry (a meal that
    the catalog lacks is shown as a missing meal); an entry without a label
    makes the request fail with [AttributeError].  The store and the flashed
    messages are left as they were in each case. *)
Theorem show_meals_page
    (catalog : list Meals.t) (catalog_labels : list MealsLabel.t)
    (u : User.t) (db : Store) (msgs : list (string * string)) :
  complete u = true ->
  (first (filter (diet_of (User.id u)) (user_current_diet db)) = None ->
   serve (show_meals catalog catalog_labels u) db msgs
   = (Ret (Response (Redirect "/get-meals")), db, msgs))
  /\ (forall diet,
         first (filter (diet_of (User.id u)) (user_current_diet db))
         = Some diet ->
         let entries :=
           filter (meal_in (UserCurrentDiet.id diet))
                  (user_current_diet_meals db) in
         ((forall e, In e entries -> catalog_label catalog_labels e <> None) ->
          exists labels,
            map Some labels = map (catalog_label catalog_labels) entries
            /\ serve (show_meals catalog catalog_labels u) db msgs
               = (Ret (Render_show_meals
                         (map (catalog_meal catalog) entries)
                         (first (filter (total_in (UserCurrentDiet.id diet))
                                        (diet_calories db)))
                         (map UserCurrentDietMeals.serving_size entries)
                         labels),
                  db, msgs))
         /\ ((exists e, In e entries /\ catalog_label catalog_labels e = None) ->
             serve (show_meals catalog catalog_labels u) db msgs
             = (Raise AttributeError, db, msgs))).
Proof.
  intros Hc. split.
  - intros Hd. unfold show_meals. rewrite (account_complete_page_pass _ _ Hc).
    unfold serve, hbind, query. cbn [session]. now rewrite Hd.
  - intros diet Hd entries. split.
    + now apply show_meals_renders.
    + now apply show_meals_fails.
Qed.

Lemma show_meals_page_witness :
  serve (show_meals sample_catalog sample_labels sample_user) sample_store []
  = (Ret (Response (Redirect "/get-meals")), sample_store, [])
  /\ serve (show_meals sample_catalog short_labels sample_user)
           (persisted_after (get_meals sample_selection sample_user)
                            sample_store) []
     = (Raise AttributeError,
        persisted_after (get_meals sample_selection sample_user) sample_store,
        []).
Proof.
  split.
  - apply (proj1 (show_meals_page sample_catalog sample_labels sample_user
                                  sample_store [] eq_refl)).
    reflexivity.
  - apply (proj2 (show_meals_page
                    sample_catalog short_labels sample_user
                    (persisted_after (get_meals sample_selection sample_user)
                                     sample_store) [] eq_refl)
                 (UserCurrentDiet.mk 1 7) eq_refl).
    exists (UserCurrentDietMeals.mk 1 12 1%float).
    split; [ right; now left | reflexivity ].
Defined.

(** X6: what [/get-meals] assembles is what [/show-meals] shows.  For a
    user with a complete profile and a calorie target, on a store whose
    entries and totals belong to diets of the table and with a catalog that
    labels the three selected meals, [/show-meals] after [/get-meals]
    renders the three selected meals (as the catalog holds them) with their
    serving sizes and labels, in the order breakfast, lunch, dinner, and the
    total of the selection. *)
Theorem get_meals_then_show_meals
    (catalog : list Meals.t) (catalog_labels : list MealsLabel.t)
    (u : User.t) (choose_meals_for_user : Z -> selection) (db : Store)
    (msgs : list (string * string)) (target : UserCalories.t)
    (breakfast lunch dinner : Meals.t)
    (breakfast_serving lunch_serving dinner_serving : float)
    (breakfast_label lunch_label dinner_label : MealsLabel.t) :
  complete u = true ->
  first (filter (calories_of (User.id u)) (user_calories db)) = Some target ->
  well_keyed db ->
  choose_meals_for_user (User.id u)
  = ((breakfast, breakfast_serving), (lunch, lunch_serving),
     (dinner, dinner_serving)) ->
  first (filter (fun l => MealsLabel.id l =? Meals.id breakfast) catalog_labels)
  = Some breakfast_label ->
  first (filter (fun l => MealsLabel.id l =? Meals.id lunch) catalog_labels)
  = Some lunch_label ->
  first (filter (fun l => MealsLabel.id l =? Meals.id dinner) catalog_labels)
  = Some dinner_label ->
  let assembled := persisted_after (get_meals choose_meals_for_user u) db in
  exists diet,
    serve (show_meals catalog catalog_labels u) assembled msgs
    = (Ret (Render_show_meals
              [ first (filter (fun m => Meals.id m =? Meals.id breakfast) catalog);
                first (filter (fun m => Meals.id m =? Meals.id lunch) catalog);
                first (filter (fun m => Meals.id m =? Meals.id dinner) catalog) ]
              (Some (DietCalories.mk
                       diet
                       (Meals.calories breakfast * breakfast_serving
                        + Meals.calories lunch * lunch_serving
                        + Meals.calories dinner * dinner_serving)%float))
              [breakfast_serving; lunch_serving; dinner_serving]
              [breakfast_label; lunch_label; dinner_label]),
       assembled, msgs).
Proof.
  intros Hc Ht Hk Hsel Hb Hl Hd assembled.
  destruct (get_meals_leaves choose_meals_for_user u db target Hc Ht Hk)
    as (diet & Hdiet & Hentries & Htotal).
  fold assembled in Hdiet, Hentries, Htotal.
  exists (UserCurrentDiet.id diet).
  unfold show_meals. rewrite (account_complete_page_pass _ _ Hc).
  unfold serve, hbind, query, lift. cbn [session]. rewrite Hdiet.
  cbn [session]. rewrite Hsel in Hentries, Htotal. rewrite Hentries.
  cbn [assembled_meals show_meals_loop fst snd UserCurrentDietMeals.meal_id
       UserCurrentDietMeals.serving_size].
  rewrite Hb, Hl, Hd. cbn [bind session]. now rewrite Htotal.
Qed.

Lemma get_meals_then_show_meals_witness :
  exists diet,
    serve (show_meals sample_catalog sample_labels sample_user)
          (persisted_after (get_meals sample_selection sample_user)
                           sample_store) []
    = (Ret (Render_show_meals
              [ Some (Meals.mk 11 310%float); Some (Meals.mk 12 540%float);
                Some (Meals.mk 13 620%float) ]
              (Some (DietCalories.mk diet 1315%float))
              [1.5%float; 1%float; 0.5%float]
              [ MealsLabel.mk 11 "breakfast"; MealsLabel.mk 12 "lunch";
                MealsLabel.mk 13 "dinner" ]),
       persisted_after (get_meals sample_selection sample_user) sample_store,
       []).
Proof.
  apply (get_meals_then_show_meals
           sample_catalog sample_labels sample_user sample_selection
           sample_store [] (UserCalories.mk 1858 7)
           (Meals.mk 11 310%float) (Meals.mk 12 540%float)
           (Meals.mk 13 620%float) 1.5%float 1%float 0.5%float
           (MealsLabel.mk 11 "breakfast") (MealsLabel.mk 12 "lunch")
           (MealsLabel.mk 13 "dinner"));
    try reflexivity.
  repeat split; [ constructor | intros ? [] | intros ? [] ].
Defined.

(** ** Accounts *)

Lemma next_user_id_above (rows : list User.t) (k : Z) :
  In k (map User.id rows) -> k < next_user_id rows.
Proof.
  unfold next_user_id. induction rows as [| x rows IH]; simpl; [ tauto | ].
  intros [<- | H]; [ lia | ].
  specialize (IH H). lia.
Qed.

Lemma register_adds hash image form db msgs :
  serve (register hash image None (Some form)) db msgs
  = (Ret (Response (Redirect "/login")),
     set_users (fun rows => rows ++ [registered hash image form db]) db,
     msgs ++ [(String.append "Account created for "
                 (String.append (RegistrationForm.name form) "!"),
               "success")]).
Proof.
  unfold register, registered, serve, hbind, query. cbn.
  now rewrite filter_all.
Qed.

(** X7: [/register] for an anonymous client and a valid form adds one row
    to the users, under a key that no user of the table has, with the name
    and email of the form, the hash of its password and no profile
    attribute, so that the new user does not pass [account_complete]; the
    keys of the table stay distinct and no other table changes.  For a
    client that is logged in, or without a valid form, nothing changes. *)
Theorem register_new_user
    (generate_password_hash : string -> string) (default_image_file : string)
    (form : RegistrationForm.t) (db : Store) (msgs : list (string * string)) :
  let new := registered generate_password_hash default_image_file form db in
  let db' :=
    snd (fst (serve (register generate_password_hash default_image_file None
                              (Some form)) db msgs)) in
  users db' = users db ++ [new]
  /\ ~ In (User.id new) (map User.id (users db))
  /\ (NoDup (map User.id (users db)) -> NoDup (map User.id (users db')))
  /\ User.password new
     = generate_password_hash (RegistrationForm.password form)
  /\ complete new = false
  /\ db' = set_users (fun _ => users db ++ [new]) db
  /\ (forall current_user any_form,
         snd (fst (serve (register generate_password_hash default_image_file
                                   (Some current_user) any_form) db msgs))
         = db)
  /\ snd (fst (serve (register generate_password_hash default_image_file
                               None None) db msgs)) = db.
Proof.
  intros new db'. unfold db'. rewrite register_adds. fold new.
  cbn [fst snd set_users users].
  assert (~ In (User.id new) (map User.id (users db))) as Hfresh.
  { intros H. apply next_user_id_above in H. unfold new, registered in H.
    cbn in H. lia. }
  split; [ reflexivity | ]. split; [ exact Hfresh | ].
  split.
  { intros Hnd. rewrite map_app. cbn [map].
    apply NoDup_app; [ exact Hnd | repeat constructor; intros [] | ].
    intros x Hx [<- | []]. contradiction. }
  repeat split.
Qed.

Lemma login_unsuccessful check form next db msgs :
  match first (filter (email_is (LoginForm.email form)) (users db)) with
  | Some user =>
    check (User.password user) (LoginForm.password form) = false
  | None => True
  end ->
  serve (login check None (Some form) next) db msgs
  = (Ret (None, Render_template "login.html" (Some "Login")), db,
     msgs ++ [("Login Unsuccessful. Please check email and password",
               "danger")]).
Proof.
  intros H. unfold login, serve, hbind, query. cbn [session].
  destruct (first (filter (email_is (LoginForm.email form)) (users db)))
    as [user |]; [ | reflexivity ].
  now rewrite H.
Qed.

Lemma login_successful check form next db msgs user :
  first (filter (email_is (LoginForm.email form)) (users db)) = Some user ->
  check (User.password user) (LoginForm.password form) = true ->
  serve (login check None (Some form) next) db msgs
  = if negb (complete user) then
      (Ret (Some user, Response (Redirect "/finish-account")), db,
       msgs ++ [("Please complete your account details.", "warning")])
    else
      match next with
      | Some (String c url) =>
        (Ret (Some user, Response (Redirect (String c url))), db, msgs)
      | _ =>
        (Ret (Some user, Response (Redirect "/")), db,
         msgs ++ [("You have been logged in!", "success")])
      end.
Proof.
  intros Hu Hp. unfold login, serve, hbind, query. cbn [session].
  rewrite Hu, Hp.
  destruct (complete user); cbn [negb]; [ | reflexivity ].
  destruct next as [[| c url] |]; reflexivity.
Qed.

(** X8: [/login] calls [login_user] exactly for an anonymous client whose
    valid form names the email of a user of the table and passes the
    password check against the hash of the first such user, and it is that
    user who is logged in. *)
Theorem login_logs_in_iff
    (check_password_hash : string -> string -> bool)
    (current_user : option User.t) (form : option LoginForm.t)
    (next_page : option string) (db : Store) (msgs : list (string * string))
    (user : User.t) :
  (exists p,
      fst (fst (serve (login check_password_hash current_user form next_page)
                      db msgs)) = Ret (Some user, p))
  <-> current_user = None
      /\ exists f,
           form = Some f
           /\ first (filter (email_is (LoginForm.email f)) (users db))
              = Some user
           /\ check_password_hash (User.password user) (LoginForm.password f)
              = true.
Proof.
  split.
  - intros (p & H).
    destruct current_user as [cu |]; [ discriminate H | ].
    destruct form as [f |]; [ | discriminate H ].
    split; [ reflexivity | ]. exists f. split; [ reflexivity | ].
    destruct (first (filter (email_is (LoginForm.email f)) (users db)))
      as [found |] eqn:Hfound.
    + destruct (check_password_hash (User.password found)
                                    (LoginForm.password f)) eqn:Hp.
      * rewrite (login_successful _ _ _ _ _ _ Hfound Hp) in H.
        destruct (complete found); cbn [negb] in H.
        -- destruct next_page as [[| c url] |]; cbn in H;
             injection H as <- _; now split.
        -- cbn in H. injection H as <- _. now split.
      * rewrite login_unsuccessful in H by now rewrite Hfound.
        discriminate H.
    + rewrite login_unsuccessful in H by now rewrite Hfound.
      discriminate H.
  - intros (-> & f & -> & Hfound & Hp).
    rewrite (login_successful _ _ _ _ _ _ Hfound Hp).
    destruct (complete user); cbn [negb].
    + destruct next_page as [[| c url] |]; eexists; reflexivity.
    + eexists; reflexivity.
Qed.

(** X9: a failed login does not tell why it failed.  For an anonymous
    client and a valid form, an email that no user has and a password that
    the check rejects give the same page, the same flashed notice and an
    unchanged store, and nobody is logged in. *)
Theorem login_failure_uniform
    (check_password_hash : string -> string -> bool) (form : LoginForm.t)
    (next_page : option string) (db : Store) (msgs : list (string * string)) :
  let failed :=
    (Ret (None, Render_template "login.html" (Some "Login")), db,
     msgs ++ [("Login Unsuccessful. Please check email and password",
               "danger")]) in
  (first (filter (email_is (LoginForm.email form)) (users db)) = None ->
   serve (login check_password_hash None (Some form) next_page) db msgs
   = failed)
  /\ (forall user,
         first (filter (email_is (LoginForm.email form)) (users db))
         = Some user ->
         check_password_hash (User.password user) (LoginForm.password form)
         = false ->
         serve (login check_password_hash None (Some form) next_page) db msgs
         = failed).
Proof.
  intros failed. split.
  - intros Hnone. apply login_unsuccessful. now rewrite Hnone.
  - intros user Hu Hp. apply login_unsuccessful. now rewrite Hu.
Qed.

Lemma login_failure_uniform_witness :
  serve (login sample_check None
               (Some (LoginForm.mk "nobody@example.org" "guess")) None)
        sample_store []
  = serve (login sample_check None
                 (Some (LoginForm.mk "ada@example.org" "guess")) None)
          sample_store [].
Proof.
  destruct (login_failure_uniform
              sample_check (LoginForm.mk "nobody@example.org" "guess") None
              sample_store []) as [Hunknown _].
  destruct (login_failure_uniform
              sample_check (LoginForm.mk "ada@example.org" "guess") None
              sample_store []) as [_ Hwrong].
  rewrite (Hunknown eq_refl).
  now rewrite (Hwrong sample_user eq_refl eq_refl).
Defined.

(** X10: where a successful login lands.  A user whose profile is not
    complete is sent to [/finish-account] with a notice, whatever [next]
    says; a user with a complete profile is redirected to the [next] of the
    request as it stands, without a notice, when it is not empty, and to the
    index with a notice otherwise.  The store is unchanged. *)
Theorem login_lands
    (check_password_hash : string -> string -> bool) (form : LoginForm.t)
    (next_page : option string) (db : Store) (msgs : list (string * string))
    (user : User.t) :
  first (filter (email_is (LoginForm.email form)) (users db)) = Some user ->
  check_password_hash (User.password user) (LoginForm.password form) = true ->
  (complete user = false ->
   serve (login check_password_hash None (Some form) next_page) db msgs
   = (Ret (Some user, Response (Redirect "/finish-account")), db,
      msgs ++ [("Please complete your account details.", "warning")]))
  /\ (complete user = true ->
      (forall next,
          next_page = Some next -> next <> "" ->
          serve (login check_password_hash None (Some form) next_page) db msgs
          = (Ret (Some user, Response (Redirect next)), db, msgs))
      /\ (next_page = None \/ next_page = Some "" ->
          serve (login check_password_hash None (Some form) next_page) db msgs
          = (Ret (Some user, Response (Redirect "/")), db,
             msgs ++ [("You have been logged in!", "success")]))).
Proof.
  intros Hu Hp. rewrite (login_successful _ _ _ _ _ _ Hu Hp). split.
  - now intros ->.
  - intros ->. cbn [negb]. split.
    + intros next -> Hne. destruct next; [ congruence | reflexivity ].
    + intros [-> | ->]; reflexivity.
Qed.

Lemma login_lands_witness :
  serve (login sample_check None
               (Some (LoginForm.mk "ada@example.org" "s3cret"))
               (Some "https://elsewhere.example/landing"))
        (set_users (fun _ => [with_password sample_user "$2b$s3cret"])
                   sample_store) []
  = (Ret (Some (with_password sample_user "$2b$s3cret"),
          Response (Redirect "https://elsewhere.example/landing")),
     set_users (fun _ => [with_password sample_user "$2b$s3cret"]) sample_store,
     []).
Proof.
  destruct (login_lands
              sample_check (LoginForm.mk "ada@example.org" "s3cret")
              (Some "https://elsewhere.example/landing")
              (set_users (fun _ => [with_password sample_user "$2b$s3cret"])
                         sample_store) []
              (with_password sample_user "$2b$s3cret") eq_refl eq_refl)
    as [_ Hcomplete].
  destruct (Hcomplete eq_refl) as [Hnext _].
  apply (Hnext "https://elsewhere.example/landing" eq_refl).
  discriminate.
Defined.

(** X11: registering and then logging in.  When no user of the table has
    the email of the registration, and the password check accepts a password
    against its own hash, a login with the registered email and password
    logs in the user that [/register] has just added and sends them, their
    profile being empty, to [/finish-account] with the notice to complete
    it, whatever [next] the login request carries. *)
Theorem register_then_login
    (generate_password_hash : string -> string)
    (check_password_hash : string -> string -> bool)
    (default_image_file : string) (form : RegistrationForm.t)
    (next_page : option string) (db : Store) (msgs : list (string * string)) :
  filter (email_is (RegistrationForm.email form)) (users db) = [] ->
  check_password_hash
    (generate_password_hash (RegistrationForm.password form))
    (RegistrationForm.password form) = true ->
  let db' :=
    persisted_after
      (register generate_password_hash default_image_file None (Some form))
      db in
  serve (login check_password_hash None
               (Some (LoginForm.mk (RegistrationForm.email form)
                                   (RegistrationForm.password form)))
               next_page) db' msgs
  = (Ret (Some (registered generate_password_hash default_image_file form db),
          Response (Redirect "/finish-account")),
     db',
     msgs ++ [("Please complete your account details.", "warning")]).
Proof.
  intros Hnew Hcheck db'.
  rewrite (login_successful
             _ _ _ _ _
             (registered generate_password_hash default_image_file form db)).
  - reflexivity.
  - unfold db', persisted_after. rewrite register_adds.
    cbn [fst snd set_users users LoginForm.email].
    rewrite filter_app, Hnew. cbn.
    unfold email_is. cbn. now rewrite String.eqb_refl.
  - exact Hcheck.
Qed.

Lemma register_then_login_witness :
  let db' :=
    persisted_after
      (register sample_hash "default.jpg" None (Some sample_registration))
      sample_store in
  serve (login sample_check None
               (Some (LoginForm.mk "grace@example.org" "c0b0l"))
               (Some "/show-weight")) db' []
  = (Ret (Some (User.mk 8 "Grace" "grace@example.org" "$2b$c0b0l"
                        "default.jpg" None None None None None None),
          Response (Redirect "/finish-account")),
     db',
     [] ++ [("Please complete your account details.", "warning")]).
Proof.
  apply (register_then_login sample_hash sample_check "default.jpg"
                             sample_registration (Some "/show-weight")
                             sample_store []);
    reflexivity.
Defined.

(** ** Password reset, from the request to the login *)

Lemma first_some_holds {A : Type} (p : A -> bool) (rows : list A) (x : A) :
  first (filter p rows) = Some x -> p x = true.
Proof.
  intros H. apply first_some_in in H. now apply filter_In in H.
Qed.

(** X12: [/reset-password] for an anonymous client and a valid form.  When
    a user has the submitted email, one message is sent, to that email
    alone, whose body carries the link [/reset-password/<token>] with the
    token of the first such user under the external address of the server;
    the handler flashes its notice and redirects to [/login].  When no user
    has the email, the request fails with [AttributeError] before anything
    is sent or flashed.  The store is unchanged in both cases. *)
Theorem reset_request_mail
    (get_reset_token : User.t -> string) (server email : string)
    (db : Store) (msgs : list (string * string)) :
  (forall user,
      first (filter (email_is email) (users db)) = Some user ->
      serve (reset_request get_reset_token server None (Some email)) db msgs
      = (Ret ([Message.mk
                 "Password Reset Request" "mealmindy@proton.me" [email]
                 (String.append
                    "To reset your password, visit the following link : "
                    (String.append
                       (String.append
                          server
                          (String.append "/reset-password/"
                                         (get_reset_token user)))
                       " If you did not make this request then simply ignore this email and no changes will be made."))],
              Response (Redirect "/login")),
         db,
         msgs ++ [("An email has been sent with instructions to reset your password.",
                   "info")]))
  /\ (first (filter (email_is email) (users db)) = None ->
      serve (reset_request get_reset_token server None (Some email)) db msgs
      = (Raise AttributeError, db, msgs)).
Proof.
  split.
  - intros user Hu. pose proof (first_some_holds _ _ _ Hu) as He.
    unfold email_is in He. apply String.eqb_eq in He.
    unfold reset_request, serve, hbind, query, lift. cbn [session].
    rewrite Hu. cbn. now rewrite He.
  - intros Hnone.
    unfold reset_request, serve, hbind, query, lift. cbn [session].
    now rewrite Hnone.
Qed.

Lemma reset_request_mail_witness :
  serve (reset_request sample_token "https://meals.example" None
                       (Some "nobody@example.org")) sample_store []
  = (Raise AttributeError, sample_store, []).
Proof.
  apply (proj2 (reset_request_mail sample_token "https://meals.example"
                                   "nobody@example.org" sample_store [])).
  reflexivity.
Defined.

Lemma first_email_rewritten (email hashed : string) (u : User.t)
    (rows : list User.t) :
  first (filter (email_is email) rows) = Some u ->
  first (filter (email_is email) (rewritten (with_password u hashed) rows))
  = Some (with_password u hashed).
Proof.
  intros H. pose proof (first_some_holds _ _ _ H) as He.
  induction rows as [| r rows IH]; [ discriminate H | ].
  cbn [rewritten map] in *. cbn [with_password User.id].
  destruct (Z.eqb_spec (User.id r) (User.id u)) as [Hid | Hid].
  - cbn [filter]. unfold email_is at 1. cbn [with_password User.email].
    unfold email_is in He. now rewrite He.
  - cbn [filter] in *. destruct (email_is email r) eqn:Er.
    + injection H as ->. congruence.
    + now apply IH.
Qed.

Lemma reset_token_writes verify hash token password db msgs user :
  verify db token = Some user ->
  serve (reset_token verify hash None token (Some password)) db msgs
  = (Ret (Redirect "/login"),
     set_users (rewritten (with_password user (hash password))) db,
     msgs ++ [("Your password has been updated! You are now able to log in",
               "success")]).
Proof.
  intros Hv. unfold reset_token, serve, hbind. cbn [session].
  now rewrite Hv.
Qed.

(** X13: the reset flow, end to end.  Take the first user of the table
    with a given email, a token check that accepts that user's token, and a
    password check that accepts a password against its own hash.  After
    [/reset-password/<token>] with the user's token and a new password, a
    login with the email and the new password logs that user in, with the
    hash of the new password as the stored one; and a login with any
    password that the check rejects against the new hash, such as the old
    one, is unsuccessful. *)
Theorem reset_then_login
    (get_reset_token : User.t -> string)
    (verify_reset_token : Store -> string -> option User.t)
    (generate_password_hash : string -> string)
    (check_password_hash : string -> string -> bool)
    (email password : string) (next_page : option string)
    (u : User.t) (db : Store) (msgs : list (string * string)) :
  first (filter (email_is email) (users db)) = Some u ->
  verify_reset_token db (get_reset_token u) = Some u ->
  check_password_hash (generate_password_hash password) password = true ->
  let db' :=
    persisted_after
      (reset_token verify_reset_token generate_password_hash None
                   (get_reset_token u) (Some password)) db in
  (exists p,
      fst (fst (serve (login check_password_hash None
                             (Some (LoginForm.mk email password)) next_page)
                      db' msgs))
      = Ret (Some (with_password u (generate_password_hash password)), p))
  /\ (forall other,
         check_password_hash (generate_password_hash password) other = false ->
         fst (fst (serve (login check_password_hash None
                                (Some (LoginForm.mk email other)) next_page)
                         db' msgs))
         = Ret (None, Render_template "login.html" (Some "Login"))).
Proof.
  intros Hu Hv Hcheck db'.
  assert (first (filter (email_is email) (users db'))
          = Some (with_password u (generate_password_hash password))) as Hu'.
  { unfold db', persisted_after.
    rewrite (reset_token_writes _ _ _ _ _ _ _ Hv).
    cbn [fst snd set_users users]. now apply first_email_rewritten. }
  split.
  - rewrite (login_successful check_password_hash
                              (LoginForm.mk email password) next_page db' msgs
                              _ Hu' Hcheck).
    destruct (complete _); cbn [negb].
    + destruct next_page as [[| c url] |]; eexists; reflexivity.
    + eexists; reflexivity.
  - intros other Hother. rewrite login_unsuccessful; [ reflexivity | ].
    cbn [LoginForm.email LoginForm.password]. now rewrite Hu'.
Qed.

Lemma reset_then_login_witness :
  let db' :=
    persisted_after
      (reset_token sample_verify sample_hash None "fresh" (Some "n3w")) sample_store in
  (exists p,
      fst (fst (serve (login sample_check None
                             (Some (LoginForm.mk "ada@example.org" "n3w"))
                             None) db' []))
      = Ret (Some (with_password sample_user "$2b$n3w"), p))
  /\ (forall other,
         sample_check (sample_hash "n3w") other = false ->
         fst (fst (serve (login sample_check None
                                (Some (LoginForm.mk "ada@example.org" other))
                                None) db' []))
         = Ret (None, Render_template "login.html" (Some "Login"))).
Proof.
  apply (reset_then_login sample_token sample_verify sample_hash sample_check
                          "ada@example.org" "n3w" None sample_user
                          sample_store []);
    reflexivity.
Defined.

(** ** Rows of the users table *)

Lemma same_key_same_row (rows : list User.t) (u r : User.t) :
  NoDup (map User.id rows) -> In u rows -> In r rows ->
  User.id r = User.id u -> r = u.
Proof.
  induction rows as [| x rows IH]; intros Hnd Hu Hr Hid; [ destruct Hu | ].
  cbn [map] in Hnd. inversion Hnd as [| k ks Hnotin Hnd']; subst.
  destruct Hu as [-> | Hu], Hr as [-> | Hr].
  - reflexivity.
  - exfalso. apply Hnotin. rewrite <- Hid. now apply in_map.
  - exfalso. apply Hnotin. rewrite Hid. now apply in_map.
  - now apply IH.
Qed.

Lemma rewritten_in_place (f : User.t -> User.t) (u : User.t)
    (rows : list User.t) :
  (forall r, User.id (f r) = User.id r) ->
  NoDup (map User.id rows) -> In u rows ->
  rewritten (f u) rows
  = map (fun row => if User.id row =? User.id u then f row else row) rows.
Proof.
  intros Hf Hnd Hu. unfold rewritten. apply map_ext_in. intros r Hr.
  rewrite Hf. destruct (Z.eqb_spec (User.id r) (User.id u)) as [Hid | Hid].
  - now rewrite (same_key_same_row rows u r Hnd Hu Hr Hid).
  - reflexivity.
Qed.

Lemma rewritten_keys (u : User.t) (rows : list User.t) :
  map User.id (rewritten u rows) = map User.id rows.
Proof.
  unfold rewritten. rewrite map_map. apply map_ext. intros r.
  destruct (Z.eqb_spec (User.id r) (User.id u)); congruence.
Qed.

(** X14: a password reset changes passwords and nothing else.  When the
    keys of the users are distinct and the token verifies to a user of the
    table, [/reset-password/<token>] with a submitted password replaces the
    password of the row of that user's key by the hash of the submitted one:
    every other attribute of that row, every other row and every other table
    are as before.  Without a submitted password it renders its form and
    changes nothing. *)
Theorem reset_token_changes_only_password
    (verify_reset_token : Store -> string -> option User.t)
    (generate_password_hash : string -> string)
    (token password : string) (user : User.t)
    (db : Store) (msgs : list (string * string)) :
  NoDup (map User.id (users db)) ->
  In user (users db) ->
  verify_reset_token db token = Some user ->
  serve (reset_token verify_reset_token generate_password_hash None token
                     (Some password)) db msgs
  = (Ret (Redirect "/login"),
     mkStore
       (map (fun row =>
               if User.id row =? User.id user
               then with_password row (generate_password_hash password)
               else row)
            (users db))
       (user_calories db) (user_current_diet db) (user_current_diet_meals db)
       (diet_calories db) (user_weight_over_time db)
       (user_calories_over_time db),
     msgs ++ [("Your password has been updated! You are now able to log in",
               "success")])
  /\ serve (reset_token verify_reset_token generate_password_hash None token
                        None) db msgs
     = (Ret Render_reset_token, db, msgs).
Proof.
  intros Hnd Hin Hv. split.
  - rewrite (reset_token_writes _ _ _ _ _ _ _ Hv). unfold set_users.
    now rewrite (rewritten_in_place
                   (fun r => with_password r (generate_password_hash password))
                   user (users db)).
  - unfold reset_token, serve, hbind. cbn [session]. now rewrite Hv.
Qed.

Lemma reset_token_changes_only_password_witness :
  serve (reset_token sample_verify sample_hash None "fresh" (Some "n3w"))
        sample_store []
  = (Ret (Redirect "/login"),
     mkStore [with_password sample_user "$2b$n3w"] [UserCalories.mk 1858 7]
             [] [] [] [] [],
     [] ++ [("Your password has been updated! You are now able to log in",
             "success")]).
Proof.
  apply (proj1 (reset_token_changes_only_password
                  sample_verify sample_hash "fresh" "n3w" sample_user
                  sample_store []
                  (NoDup_cons 7 (fun H : In 7 [] => H) (NoDup_nil Z))
                  (or_introl eq_refl) eq_refl)).
Defined.



(** The upload of [renamed_form] goes through [save_picture] under the
    path of the static folder; the file name of the client only gives the
    extension. *)
Example save_picture_path :
  save_picture sample_files (FileStorage.mk "me at sea.png" "PNG")
  = Ret "0f3a9c1e5b7d2468.png"
  /\ path_join (path_join "/srv/web" "static/images") "0f3a9c1e5b7d2468.png"
     = "/srv/web/static/images/0f3a9c1e5b7d2468.png"
  /\ map splitext ["archive.tar.gz"; ".profile"; "dir.d/plain"; "a/..b.c"]
     = [("archive.tar", ".gz"); (".profile", ""); ("dir.d/plain", "");
        ("a/..b", ".c")].
Proof. repeat split. Qed.

(** ** Completing the profile *)

Lemma finish_account_closed now u form db msgs target :
  first (filter (calories_of (User.id u)) (user_calories db)) = Some target ->
  serve (finish_account now u form) db msgs
  = (Ret (Response (Redirect "/")), db, msgs).
Proof.
  intros Ht. unfold finish_account, serve, hbind, query. cbn [session].
  now rewrite Ht.
Qed.

Lemma finish_account_writes now u form db msgs :
  first (filter (calories_of (User.id u)) (user_calories db)) = None ->
  serve (finish_account now u (Some form)) db msgs
  = (Ret (Response (Redirect "/get-calories")),
     mkStore (rewritten (finished u form) (users db))
             (user_calories db) (user_current_diet db)
             (user_current_diet_meals db) (diet_calories db)
             (user_weight_over_time db
              ++ [UserWeightOverTime.mk
                    (User.id u) (Some (CalculateCalories.weight form)) now])
             (user_calories_over_time db),
     msgs ++ [("Your account has been initialized!", "success")]).
Proof.
  intros Ht. unfold finish_account, serve, hbind, query. cbn [session].
  now rewrite Ht.
Qed.

(** X16: the first steps of a new account.  For a user without a calorie
    target, [/finish-account] with a valid form followed by [/get-calories]
    for the profile that the form gave (a complete one, on which the
    calculator returns) leaves the store with one more weight sample, of the
    submitted weight and stamped with the clock of the first request, and
    with the calculated target as the only target of the user; from then on
    [/finish-account] redirects to the index and changes nothing, whatever
    form it is sent. *)
Theorem finish_account_then_get_calories
    (now : datetime) (u : User.t) (form : CalculateCalories.t)
    (db : Store) (calories : Z) :
  first (filter (calories_of (User.id u)) (user_calories db)) = None ->
  complete (finished u form) = true ->
  calculate_calories (finished u form) = Ret calories ->
  let db' :=
    persisted_after (get_calories (finished u form))
                    (persisted_after (finish_account now u (Some form)) db) in
  user_weight_over_time db'
  = user_weight_over_time db
    ++ [UserWeightOverTime.mk (User.id u)
                              (Some (CalculateCalories.weight form)) now]
  /\ filter (calories_of (User.id u)) (user_calories db')
     = [UserCalories.mk calories (User.id u)]
  /\ forall later again msgs,
       serve (finish_account later (finished u form) again) db' msgs
       = (Ret (Response (Redirect "/")), db', msgs).
Proof.
  intros Ht Hc Hcal db'. unfold db', persisted_after.
  rewrite (finish_account_writes _ _ _ _ _ Ht). cbn [fst snd].
  rewrite (get_calories_stores _ _ _ _ Hc Hcal).
  cbn [fst snd retargeted user_weight_over_time user_calories finished User.id].
  assert (filter (calories_of (User.id u))
                 (filter (fun r => negb (calories_of (User.id u) r))
                         (user_calories db)
                  ++ [UserCalories.mk calories (User.id u)])
          = [UserCalories.mk calories (User.id u)]) as Hone.
  { rewrite filter_app, filter_negb_same. cbn.
    unfold calories_of. cbn. now rewrite Z.eqb_refl. }
  split; [ reflexivity | ]. split; [ exact Hone | ].
  intros later again msgs.
  apply (finish_account_closed _ _ _ _ _ (UserCalories.mk calories (User.id u))).
  exact (f_equal first Hone).
Qed.

Lemma finish_account_then_get_calories_witness :
  let db' :=
    persisted_after
      (get_calories (finished new_user first_form))
      (persisted_after (finish_account mid_april new_user (Some first_form))
                       sample_store) in
  user_weight_over_time db'
  = user_weight_over_time sample_store
    ++ [UserWeightOverTime.mk 8 (Some 70%float) mid_april]
  /\ filter (calories_of 8) (user_calories db') = [UserCalories.mk 2638 8]
  /\ forall later again msgs,
       serve (finish_account later (finished new_user first_form) again)
             db' msgs
       = (Ret (Response (Redirect "/")), db', msgs).
Proof.
  apply (finish_account_then_get_calories mid_april new_user first_form
                                          sample_store 2638);
    reflexivity.
Defined.

Lemma account_complete_page_block (u : User.t) (f : handler page)
    (db : Store) (msgs : list (string * string)) :
  complete u = false ->
  serve (account_complete_page u f) db msgs
  = (Ret (Response (Redirect "/finish-account")), db,
     msgs ++ [("Please complete your account details.", "warning")]).
Proof. unfold complete, account_complete_page. now intros ->. Qed.

(** X17: a profile that stops being complete after a target was stored
    locks its user out of the decorated routes.  For a user who has a
    calorie target and whose profile does not pass the check of
    [account_complete] (an attribute is missing, empty or zero), each of
    [/get-calories], [/get-meals], [/show-meals], [/save-meal],
    [/show-calories] and [/show-weight] redirects to [/finish-account] with
    the notice and changes nothing, and [/finish-account] redirects to the
    index and changes nothing, whatever form it is sent: of the routes for
    the profile only [/account] still takes the user's data. *)
Theorem incomplete_profile_with_target
    (u : User.t) (db : Store) (msgs : list (string * string))
    (target : UserCalories.t) :
  complete u = false ->
  first (filter (calories_of (User.id u)) (user_calories db)) = Some target ->
  let to_finish {A : Type} (wrap : response -> A) :=
    (Ret (wrap (Redirect "/finish-account")), db,
     msgs ++ [("Please complete your account details.", "warning")]) in
  serve (get_calories u) db msgs = to_finish (fun r => r)
  /\ (forall choose, serve (get_meals choose u) db msgs = to_finish (fun r => r))
  /\ (forall catalog labels,
         serve (show_meals catalog labels u) db msgs = to_finish Response)
  /\ (forall now, serve (save_calories now u) db msgs = to_finish (fun r => r))
  /\ (forall now form_time,
         serve (show_calories now u form_time) db msgs
         = to_finish (fun r => r))
  /\ (forall now form_time,
         serve (show_weight now u form_time) db msgs = to_finish (fun r => r))
  /\ (forall now form,
         serve (finish_account now u form) db msgs
         = (Ret (Response (Redirect "/")), db, msgs)).
Proof.
  intros Hc Ht to_finish. unfold to_finish.
  repeat split; intros;
    first [ now apply account_complete_block
          | now apply account_complete_page_block
          | now apply (finish_account_closed _ _ _ _ _ target) ].
Qed.

Lemma incomplete_profile_with_target_witness :
  serve (get_calories weightless_user) sample_store []
  = (Ret (Redirect "/finish-account"), sample_store,
     [] ++ [("Please complete your account details.", "warning")])
  /\ serve (finish_account mid_april weightless_user (Some first_form))
           sample_store []
     = (Ret (Response (Redirect "/")), sample_store, []).
Proof.
  destruct (incomplete_profile_with_target
              weightless_user sample_store [] (UserCalories.mk 1858 7)
              eq_refl eq_refl)
    as (Hcal & _ & _ & _ & _ & _ & Hfinish).
  split; [ exact Hcal | exact (Hfinish mid_april (Some first_form)) ].
Defined.

(** ** Every route, request after request *)

Lemma visit_change (r : route) (db : Store) : change (clock r) db (visit db r).
Proof.
  destruct r as [hash image cu form | check cu form next | now u form
                 | files now u req | u | choose u | catalog labels u | now u
                 | now u form_time | now u form_time | token server cu email
                 | verify hash cu token form];
    unfold visit, persisted_after; cbn [clock].
  - destruct cu as [cu |]; [ apply unchanged | ].
    destruct form as [form |]; [ | apply unchanged ].
    rewrite register_adds. cbn [fst snd]. apply user_added.
    intros H. apply next_user_id_above in H. cbn in H. lia.
  - rewrite (read_only_serve _ _ _ (read_only_login _ _ _ _)).
    apply unchanged.
  - destruct (first (filter (calories_of (User.id u)) (user_calories db)))
      as [target |] eqn:Ht.
    + rewrite (finish_account_closed _ _ _ _ _ _ Ht). apply unchanged.
    + destruct form as [form |].
      * rewrite (finish_account_writes _ _ _ _ _ Ht). cbn [fst snd].
        apply user_rewritten. intros s [<- | []]. reflexivity.
      * unfold finish_account, serve, hbind, query. cbn [session].
        rewrite Ht. apply unchanged.
  - destruct req as [| form [|]]; try apply unchanged.
    destruct (save_form_picture files form) as [picture_file | e] eqn:Hp.
    2: { rewrite (account_fails _ _ _ _ _ _ _ Hp). apply unchanged. }
    rewrite (account_writes _ _ _ _ _ _ _ Hp). cbn [fst snd].
    apply user_rewritten.
    intros s Hs.
    destruct (float_ne (User.weight u) (UpdateAccountForm.weight form));
      [ destruct Hs as [<- | []]; reflexivity | destruct Hs ].
  - destruct (get_calories_effect u db []) as [E | [[e E] | (c & _ & E)]];
      rewrite E; cbn [fst snd];
      [ apply unchanged | apply unchanged | apply target_replaced ].
  - destruct (complete u) eqn:Hc.
    2: { unfold get_meals. rewrite (account_complete_block _ _ _ _ Hc).
         apply unchanged. }
    destruct (first (filter (calories_of (User.id u)) (user_calories db)))
      as [target |] eqn:Ht.
    2: { rewrite (get_meals_no_target _ _ _ _ Hc Ht). apply unchanged. }
    destruct (first (filter (diet_of (User.id u)) (user_current_diet db)))
      as [diet |] eqn:Hd.
    + rewrite (get_meals_replace _ _ _ _ _ _ Hc Ht Hd). cbn [fst snd].
      apply diet_replaced. apply in_map.
      apply first_some_in in Hd. now apply filter_In in Hd.
    + rewrite (get_meals_create _ _ _ _ _ Hc Ht Hd). cbn [fst snd].
      apply diet_created. now apply first_none.
  - rewrite (read_only_serve _ _ _ (read_only_show_meals _ _ _)).
    apply unchanged.
  - destruct (complete u) eqn:Hc.
    2: { unfold save_calories. rewrite (account_complete_block _ _ _ _ Hc).
         apply unchanged. }
    destruct (first (filter (diet_of (User.id u)) (user_current_diet db)))
      as [diet |] eqn:Hd.
    2: { rewrite (save_calories_no_diet _ _ _ _ Hc Hd). apply unchanged. }
    destruct (first (filter (total_in (UserCurrentDiet.id diet))
                            (diet_calories db))) as [total |] eqn:Ht.
    + rewrite (save_calories_logs _ _ _ _ _ _ Hc Hd Ht). cbn [fst snd].
      now apply meal_saved.
    + unfold save_calories. rewrite (account_complete_pass _ _ Hc).
      unfold serve, hbind, query. cbn [session]. rewrite Hd.
      cbn [session]. rewrite Ht. apply unchanged.
  - rewrite (read_only_serve _ _ _ (read_only_show_calories _ _ _)).
    apply unchanged.
  - rewrite (read_only_serve _ _ _ (read_only_show_weight _ _ _)).
    apply unchanged.
  - rewrite (read_only_serve _ _ _ (read_only_reset_request _ _ _ _)).
    apply unchanged.
  - destruct cu as [cu |]; [ apply unchanged | ].
    destruct (verify db token) as [user |] eqn:Hv.
    + destruct form as [password |].
      * rewrite (reset_token_writes _ _ _ _ _ _ _ Hv). cbn [fst snd].
        unfold set_users.
        rewrite <- (app_nil_r (user_weight_over_time db)).
        apply user_rewritten. intros s [].
      * unfold reset_token, serve, hbind. cbn [session]. rewrite Hv.
        apply unchanged.
    + unfold reset_token, serve, hbind. cbn [session]. rewrite Hv.
      apply unchanged.
Qed.

Lemma change_logs t db db' :
  change t db db' ->
  exists weights calories,
    user_weight_over_time db' = user_weight_over_time db ++ weights
    /\ user_calories_over_time db' = user_calories_over_time db ++ calories
    /\ (forall s, In s weights -> t = Some (UserWeightOverTime.created_at s))
    /\ (forall s, In s calories -> t = Some (UserCaloriesOverTime.created_at s)).
Proof.
  intros [ | new _ | u samples Hs | sample Hs | user c | k s _ | user s _ ].
  3: { exists samples, []. cbn. rewrite app_nil_r.
       repeat split; [ exact Hs | intros ? [] ]. }
  3: { exists [], [sample]. cbn. rewrite app_nil_r.
       repeat split; [ intros ? [] | intros ? [<- | []]; exact Hs ]. }
  all: exists [], []; cbn; rewrite !app_nil_r;
    repeat split; intros ? [].
Qed.

Lemma change_consistent t db db' :
  change t db db' -> consistent db -> consistent db'.
Proof.
  intros [ | new _ | u samples _ | sample _ | user c | k s Hk | user s Hnone ]
         H; try exact H.
  - now apply consistent_retargeted.
  - now apply consistent_replaced.
  - now apply consistent_created.
Qed.

Lemma change_keys t db db' :
  change t db db' ->
  exists keys,
    map User.id (users db') = map User.id (users db) ++ keys
    /\ (NoDup (map User.id (users db)) -> NoDup (map User.id (users db'))).
Proof.
  intros [ | new Hnew | u samples _ | sample _ | user c | k s _ | user s _ ].
  2: { exists [User.id new]. cbn [set_users users]. rewrite map_app.
       split; [ reflexivity | ]. intros Hnd.
       apply NoDup_app; [ exact Hnd | repeat constructor; intros [] | ].
       intros x Hx [<- | []]. contradiction. }
  2: { exists []. cbn [users]. rewrite rewritten_keys, app_nil_r. now split. }
  all: exists []; cbn; rewrite app_nil_r; now split.
Qed.

(** X18: the sample logs only grow.  After any sequence of requests to any
    of the routes, the weight log and the calorie log of the store begin
    with the logs as they were: no request removes, reorders or alters a
    recorded sample. *)
Theorem sample_logs_only_grow (rs : list route) (db : Store) :
  exists weights calories,
    user_weight_over_time (visits rs db) = user_weight_over_time db ++ weights
    /\ user_calories_over_time (visits rs db)
       = user_calories_over_time db ++ calories.
Proof.
  revert db. induction rs as [| r rs IH]; intros db.
  - exists [], []. cbn. now rewrite !app_nil_r.
  - cbn [visits fold_left]. fold (visits rs (visit db r)).
    destruct (IH (visit db r)) as (w & c & Hw & Hc).
    destruct (change_logs _ _ _ (visit_change r db)) as (w0 & c0 & Hw0 & Hc0 & _).
    exists (w0 ++ w), (c0 ++ c).
    rewrite Hw, Hc, Hw0, Hc0, !app_assoc. now split.
Qed.

Lemma visits_consistent (rs : list route) (db : Store) :
  consistent db -> consistent (visits rs db).
Proof.
  revert db. induction rs as [| r rs IH]; intros db H; [ exact H | ].
  cbn [visits fold_left]. apply IH.
  exact (change_consistent _ _ _ (visit_change r db) H).
Qed.

(** X19: the invariant of the diet tables holds along every route.  After
    any sequence of requests to any of the routes, starting from the empty
    store, every user has at most one calorie target and at most one
    current diet, and every current diet has exactly three meal entries and
    one total. *)
Theorem diet_invariant_on_every_route (rs : list route) :
  diet_invariant (visits rs empty_store).
Proof.
  apply consistent_invariant, visits_consistent, consistent_empty.
Qed.

(** X20: users are never removed and their keys never change or collide.
    After any sequence of requests to any of the routes, the keys of the
    users table begin with the keys as they were, in the same order, and
    keys that were distinct are still distinct. *)
Theorem user_keys_kept (rs : list route) (db : Store) :
  exists keys,
    map User.id (users (visits rs db)) = map User.id (users db) ++ keys
    /\ (NoDup (map User.id (users db)) ->
        NoDup (map User.id (users (visits rs db)))).
Proof.
  revert db. induction rs as [| r rs IH]; intros db.
  - exists []. cbn. rewrite app_nil_r. now split.
  - cbn [visits fold_left]. fold (visits rs (visit db r)).
    destruct (IH (visit db r)) as (ks & Hks & Hnd).
    destruct (change_keys _ _ _ (visit_change r db)) as (ks0 & Hks0 & Hnd0).
    exists (ks0 ++ ks). split.
    + now rewrite Hks, Hks0, app_assoc.
    + intros H. apply Hnd, Hnd0, H.
Qed.

Lemma sorted_app {A : Type} (R : A -> A -> Prop) (l1 l2 : list A) :
  StronglySorted R l1 -> StronglySorted R l2 ->
  (forall x y, In x l1 -> In y l2 -> R x y) ->
  StronglySorted R (l1 ++ l2).
Proof.
  induction 1 as [| x l1 Hs IH Hx]; intros H2 Hall; [ exact H2 | ].
  cbn. constructor.
  - apply IH; [ exact H2 | ]. intros a b Ha Hb. apply Hall; [ now right | exact Hb ].
  - rewrite Forall_forall in *. intros y Hy. apply in_app_or in Hy.
    destruct Hy as [Hy | Hy]; [ now apply Hx | apply Hall; [ now left | exact Hy ] ].
Qed.

Lemma sorted_same_stamp {A : Type} (stamp : A -> Z) (now : Z) (l : list A) :
  (forall s, In s l -> stamp s = now) ->
  StronglySorted (fun a b => stamp a <= stamp b) l.
Proof.
  induction l as [| x l IH]; intros H; constructor.
  - apply IH. intros s Hs. apply H. now right.
  - rewrite Forall_forall. intros y Hy.
    rewrite (H x), (H y); [ lia | now right | now left ].
Qed.

Lemma change_timed (t : option datetime) (since : datetime) (db db' : Store) :
  change t db db' ->
  timed since db ->
  match t with Some now => since <= now | None => True end ->
  timed (match t with Some now => now | None => since end) db'.
Proof.
  intros Hch (Hw & Hc & Hwb & Hcb) Ht.
  destruct (change_logs _ _ _ Hch) as (w & c & Ew & Ec & Hwt & Hct).
  unfold timed. rewrite Ew, Ec. destruct t as [now |].
  - assert (forall s, In s w -> UserWeightOverTime.created_at s = now) as Hw'
        by (intros s Hs; specialize (Hwt s Hs); congruence).
    assert (forall s, In s c -> UserCaloriesOverTime.created_at s = now) as Hc'
        by (intros s Hs; specialize (Hct s Hs); congruence).
    split; [ | split; [ | split ] ].
    + apply sorted_app;
        [ exact Hw
        | exact (sorted_same_stamp UserWeightOverTime.created_at now w Hw')
        | ].
      intros x y Hx Hy. unfold weights_by_time.
      rewrite (Hw' y Hy). specialize (Hwb x Hx). lia.
    + apply sorted_app;
        [ exact Hc
        | exact (sorted_same_stamp UserCaloriesOverTime.created_at now c Hc')
        | ].
      intros x y Hx Hy. unfold calories_by_time.
      rewrite (Hc' y Hy). specialize (Hcb x Hx). lia.
    + intros s Hs. apply in_app_or in Hs. destruct Hs as [Hs | Hs].
      * specialize (Hwb s Hs). lia.
      * rewrite (Hw' s Hs). lia.
    + intros s Hs. apply in_app_or in Hs. destruct Hs as [Hs | Hs].
      * specialize (Hcb s Hs). lia.
      * rewrite (Hc' s Hs). lia.
  - assert (w = []) as ->.
    { destruct w as [| s w]; [ reflexivity | ].
      specialize (Hwt s (or_introl eq_refl)). discriminate Hwt. }
    assert (c = []) as ->.
    { destruct c as [| s c]; [ reflexivity | ].
      specialize (Hct s (or_introl eq_refl)). discriminate Hct. }
    rewrite !app_nil_r. now repeat split.
Qed.

Lemma visits_timed (rs : list route) (since : datetime) (db : Store) :
  timed since db -> clock_ordered since rs ->
  exists until, timed until (visits rs db).
Proof.
  revert since db. induction rs as [| r rs IH]; intros since db Ht Hrs.
  - now exists since.
  - cbn [visits fold_left]. fold (visits rs (visit db r)).
    cbn [clock_ordered] in Hrs.
    pose proof (change_timed _ since _ _ (visit_change r db) Ht) as Hstep.
    destruct (clock r) as [now |].
    + destruct Hrs as [Hle Hrs]. apply (IH now); [ now apply Hstep | exact Hrs ].
    + apply (IH since); [ now apply Hstep | exact Hrs ].
Qed.

(** X21: with a clock that never goes back, the charts are in time order.
    When the clock readings of the requests of a sequence never decrease,
    then after the sequence, starting from the empty store, both sample logs
    are stored in the order of their timestamps, and so are the rows that
    the history queries of [/show-weight] and [/show-calories] select for
    any user and any window. *)
Theorem ordered_clock_ordered_charts (rs : list route) (since : datetime) :
  clock_ordered since rs ->
  let db := visits rs empty_store in
  StronglySorted weights_by_time (user_weight_over_time db)
  /\ StronglySorted calories_by_time (user_calories_over_time db)
  /\ (forall user from,
         StronglySorted weights_by_time
           (filter (weights_since user from) (user_weight_over_time db)))
  /\ (forall user from,
         StronglySorted calories_by_time
           (filter (calories_since user from) (user_calories_over_time db))).
Proof.
  intros Hrs db.
  destruct (visits_timed rs since empty_store) as (until & Hw & Hc & _).
  - repeat split; try constructor; intros ? [].
  - exact Hrs.
  - fold db in Hw, Hc. split; [ exact Hw | ]. split; [ exact Hc | ].
    split; intros user from; now apply filter_keeps_order.
Qed.

Lemma ordered_clock_ordered_charts_witness :
  let db := visits a_day empty_store in
  StronglySorted weights_by_time (user_weight_over_time db)
  /\ StronglySorted calories_by_time (user_calories_over_time db)
  /\ (forall user from,
         StronglySorted weights_by_time
           (filter (weights_since user from) (user_weight_over_time db)))
  /\ (forall user from,
         StronglySorted calories_by_time
           (filter (calories_since user from) (user_calories_over_time db))).
Proof.
  apply (ordered_clock_ordered_charts a_day 0).
  cbn. unfold mid_april. repeat split; lia.
Defined.

(** The requests of [a_day] leave one user, one target, one diet of three
    entries, two weight samples and one calorie sample. *)
Example a_day_store :
  visits a_day empty_store
  = mkStore
      [ User.mk 1 "Ada" "ada@example.org" "$2b$c0b0l" "default.jpg"
                (Some 168%float) (Some 60.5%float) (Some 41%float)
                (Some "Lose Weight") (Some "Very Active") (Some "Female") ]
      [UserCalories.mk 2638 1] [UserCurrentDiet.mk 1 1]
      [ UserCurrentDietMeals.mk 1 11 1.5%float;
        UserCurrentDietMeals.mk 1 12 1%float;
        UserCurrentDietMeals.mk 1 13 0.5%float ]
      [DietCalories.mk 1 1315%float]
      [ UserWeightOverTime.mk 1 (Some 70%float) 63817113600000000;
        UserWeightOverTime.mk 1 (Some 60.5%float) mid_april ]
      [UserCaloriesOverTime.mk 1315%float 1 63817160700000000].
Proof. reflexivity. Qed.

(** ** The calculator on missing and undefined measures *)

(** X22: for a gender of Male or Female, a measure that is missing (a
    weight, height or age of [None]) makes [calculate_calories] raise
    [TypeError], whatever the activity level and the goal are. *)
Theorem calculate_calories_missing_measure (u : User.t) :
  valid_gender (User.gender u) = true ->
  User.weight u = None \/ User.height u = None \/ User.age u = None ->
  calculate_calories u = Raise TypeError.
Proof.
  intros Hg Hmissing. apply valid_gender_cases in Hg.
  unfold calculate_calories.
  destruct Hg as [-> | ->];
    cbn [str_eq String.eqb Ascii.eqb Bool.eqb];
    destruct (User.weight u), (User.height u), (User.age u);
    try reflexivity;
    destruct Hmissing as [H | [H | H]]; discriminate H.
Qed.

Lemma calculate_calories_missing_measure_witness :
  calculate_calories
    (User.mk 9 "Lin" "lin@example.org" "hash" "default.jpg"
             (Some 171%float) (Some 66%float) None
             (Some "Gain Weight") (Some "Sedentary") (Some "Male"))
  = Raise TypeError.
Proof.
  apply calculate_calories_missing_measure;
    [ reflexivity | right; right; reflexivity ].
Defined.

Lemma is_nan_NaN (x : float) : PrimFloat.is_nan x = true -> NaN x.
Proof. intros H. unfold NaN, Prim2SF. now rewrite H. Qed.

Lemma NaN_mul_r (x y : float) : NaN y -> NaN (x * y).
Proof.
  unfold NaN. intros H. rewrite mul_spec, H.
  now destruct (Prim2SF x).
Qed.

Lemma NaN_mul_l (x y : float) : NaN x -> NaN (x * y).
Proof. unfold NaN. intros H. now rewrite mul_spec, H. Qed.

Lemma NaN_add_r (x y : float) : NaN y -> NaN (x + y).
Proof.
  unfold NaN. intros H. rewrite add_spec, H.
  now destruct (Prim2SF x).
Qed.

Lemma NaN_add_l (x y : float) : NaN x -> NaN (x + y).
Proof. unfold NaN. intros H. now rewrite add_spec, H. Qed.

Lemma NaN_sub_r (x y : float) : NaN y -> NaN (x - y).
Proof.
  unfold NaN. intros H. rewrite sub_spec, H.
  now destruct (Prim2SF x).
Qed.

Lemma NaN_sub_l (x y : float) : NaN x -> NaN (x - y).
Proof. unfold NaN. intros H. now rewrite sub_spec, H. Qed.

Lemma py_round_NaN (x : float) : NaN x -> py_round x = Raise ValueError.
Proof. unfold NaN, py_round. now intros ->. Qed.

Create HintDb nan.
#[local] Hint Resolve NaN_mul_r NaN_mul_l NaN_add_r NaN_add_l NaN_sub_r
  NaN_sub_l : nan.

(** X23: a measure that is not a number is refused at the rounding.  For a
    gender, an activity level and a goal among the enumerated values, a
    weight, height or age that is a NaN makes [calculate_calories] raise
    the [ValueError] of [round]: no target is computed from it. *)
Theorem calculate_calories_nan_measure (u : User.t) (w h a : float) :
  valid_profile u = true ->
  User.weight u = Some w -> User.height u = Some h -> User.age u = Some a ->
  PrimFloat.is_nan w = true \/ PrimFloat.is_nan h = true
  \/ PrimFloat.is_nan a = true ->
  calculate_calories u = Raise ValueError.
Proof.
  unfold valid_profile. intros H Hw Hh Ha Hnan.
  apply andb_true_iff in H. destruct H as [H Hgl].
  apply andb_true_iff in H. destruct H as [Hg Hact].
  apply valid_gender_cases in Hg.
  apply valid_activity_level_cases in Hact.
  apply valid_goal_cases in Hgl.
  assert (NaN w \/ NaN h \/ NaN a) as Hn
      by (destruct Hnan as [N | [N | N]]; apply is_nan_NaN in N; auto).
  unfold calculate_calories. rewrite Hw, Hh, Ha.
  destruct Hg as [-> | ->];
    destruct Hact as [-> | [-> | [-> | [-> | ->]]]];
    destruct Hgl as [-> | [-> | ->]];
    cbn [str_eq String.eqb Ascii.eqb Bool.eqb bind operand local];
    apply py_round_NaN;
    destruct Hn as [N | [N | N]]; auto 8 with nan.
Qed.

Lemma calculate_calories_nan_measure_witness :
  calculate_calories
    (profile "Female" "Lightly Active" "Gain Weight" nan 168 41)
  = Raise ValueError.
Proof.
  apply (calculate_calories_nan_measure
           (profile "Female" "Lightly Active" "Gain Weight" nan 168 41)
           nan 168 41);
    try reflexivity.
  left. reflexivity.
Defined.

(** ** The diets of the other users *)

Lemma same_key_same_diet (rows : list UserCurrentDiet.t)
    (d r : UserCurrentDiet.t) :
  NoDup (map UserCurrentDiet.id rows) -> In d rows -> In r rows ->
  UserCurrentDiet.id r = UserCurrentDiet.id d -> r = d.
Proof.
  induction rows as [| x rows IH]; intros Hnd Hd Hr Hid; [ destruct Hd | ].
  cbn [map] in Hnd. inversion Hnd as [| k ks Hnotin Hnd']; subst.
  destruct Hd as [-> | Hd], Hr as [-> | Hr].
  - reflexivity.
  - exfalso. apply Hnotin. rewrite <- Hid. now apply in_map.
  - exfalso. apply Hnotin. rewrite Hid. now apply in_map.
  - now apply IH.
Qed.

(** X24: [/get-meals] touches the diet of its user only.  On a store where
    the keys of the diets are distinct and entries and totals belong to
    diets of the table, a [/get-meals] of one user leaves, for every other
    user, the diet rows, and for each of their diets the meal entries and
    the totals, exactly as they were, in every outcome of the request. *)
Theorem get_meals_leaves_other_diets
    (choose_meals_for_user : Z -> selection) (u : User.t) (db : Store)
    (other : Z) :
  well_keyed db ->
  other <> User.id u ->
  let db' := persisted_after (get_meals choose_meals_for_user u) db in
  filter (diet_of other) (user_current_diet db')
  = filter (diet_of other) (user_current_diet db)
  /\ forall diet,
       In diet (filter (diet_of other) (user_current_diet db)) ->
       filter (meal_in (UserCurrentDiet.id diet)) (user_current_diet_meals db')
       = filter (meal_in (UserCurrentDiet.id diet)) (user_current_diet_meals db)
       /\ filter (total_in (UserCurrentDiet.id diet)) (diet_calories db')
          = filter (total_in (UserCurrentDiet.id diet)) (diet_calories db).
Proof.
  intros Hk Hother db'. unfold db', persisted_after.
  destruct (complete u) eqn:Hc.
  2: { unfold get_meals. rewrite (account_complete_block _ _ _ _ Hc).
       now split. }
  destruct (first (filter (calories_of (User.id u)) (user_calories db)))
    as [target |] eqn:Ht.
  2: { rewrite (get_meals_no_target _ _ _ _ Hc Ht). now split. }
  destruct (first (filter (diet_of (User.id u)) (user_current_diet db)))
    as [mine |] eqn:Hd.
  - rewrite (get_meals_replace _ _ _ _ _ _ Hc Ht Hd).
    cbn [fst snd replaced user_current_diet user_current_diet_meals
         diet_calories].
    split; [ reflexivity | ]. intros diet Hin.
    apply filter_In in Hin. destruct Hin as [Hin Hof].
    pose proof (first_some_in _ _ Hd) as Hmine.
    apply filter_In in Hmine. destruct Hmine as [Hmine Hmy].
    assert (UserCurrentDiet.id diet <> UserCurrentDiet.id mine) as Hne.
    { intros Hid. destruct Hk as (Hnd & _).
      pose proof (same_key_same_diet _ mine diet Hnd Hmine Hin Hid) as ->.
      unfold diet_of in Hof, Hmy.
      apply Z.eqb_eq in Hof. apply Z.eqb_eq in Hmy. congruence. }
    rewrite !filter_app.
    rewrite (filter_negb_other _ _ _ (meal_in_exclusive _ _ Hne)).
    rewrite (filter_negb_other _ _ _ (total_in_exclusive _ _ Hne)).
    rewrite (assembled_meals_other _ _ _ Hne). cbn.
    unfold total_in at 2. cbn.
    destruct (Z.eqb_spec (UserCurrentDiet.id mine) (UserCurrentDiet.id diet));
      [ congruence | ].
    now rewrite !app_nil_r.
  - rewrite (get_meals_create _ _ _ _ _ Hc Ht Hd).
    cbn [fst snd created user_current_diet user_current_diet_meals
         diet_calories].
    split.
    + rewrite filter_app. cbn. unfold diet_of at 2. cbn.
      destruct (Z.eqb_spec (User.id u) other); [ congruence | ].
      apply app_nil_r.
    + intros diet Hin. apply filter_In in Hin. destruct Hin as [Hin _].
      assert (UserCurrentDiet.id diet <> next_id (user_current_diet db)) as Hne.
      { intros Hid. apply (next_id_fresh (user_current_diet db)).
        rewrite <- Hid. now apply in_map. }
      rewrite !filter_app, (assembled_meals_other _ _ _ Hne). cbn.
      unfold total_in at 2. cbn.
      destruct (Z.eqb_spec (next_id (user_current_diet db))
                           (UserCurrentDiet.id diet)); [ congruence | ].
      now rewrite !app_nil_r.
Qed.

Lemma get_meals_leaves_other_diets_witness :
  let db' :=
    persisted_after (get_meals sample_selection sample_user) shared_store in
  filter (diet_of 3) (user_current_diet db')
  = filter (diet_of 3) (user_current_diet shared_store)
  /\ forall diet,
       In diet (filter (diet_of 3) (user_current_diet shared_store)) ->
       filter (meal_in (UserCurrentDiet.id diet)) (user_current_diet_meals db')
       = filter (meal_in (UserCurrentDiet.id diet))
                (user_current_diet_meals shared_store)
       /\ filter (total_in (UserCurrentDiet.id diet)) (diet_calories db')
          = filter (total_in (UserCurrentDiet.id diet))
                   (diet_calories shared_store).
Proof.
  apply (get_meals_leaves_other_diets sample_selection sample_user
                                      shared_store 3).
  - split; [ repeat constructor; intros [] | ].
    split; intros x Hx; cbn in Hx;
      repeat (destruct Hx as [<- | Hx]; [ now left | ]); destruct Hx.
  - discriminate.
Defined.

(** On [shared_store] the request creates the diet of key 2 for the user of
    key 7, next to the diet of key 1. *)
Example get_meals_beside_another_diet :
  user_current_diet
    (persisted_after (get_meals sample_selection sample_user) shared_store)
  = [UserCurrentDiet.mk 1 3; UserCurrentDiet.mk 2 7].
Proof. reflexivity. Qed.
